(** * CovidTracker: the data acquisition and aggregation pipeline

    A shallow embedding of [SuperHelper/Modules/CovidTracker/__main__.py]:
    date normalisation, source location, fetch-with-cache, CSV aggregation per
    country, date-range assembly, day-over-day changes and bulk caching.

    Python values are modelled as follows: [str] as [string] (the ASCII
    fragment), [int] as [Z], a [list] as [list], the dictionary of one day
    ([dict[str, list]]) as [gmap string (list Z)], the insertion-ordered
    dictionary of a series as an association list, an exception as a value of
    [exn], and the cache directory together with the network as an explicit
    [world] threaded through a state-and-exception monad. *)

From stdpp Require Import gmap strings list fin_maps.
From Stdlib Require Import ZArith Lia Ascii DecimalString.
From Stdlib Require String.

Local Open Scope string_scope.
Local Open Scope Z_scope.

(** ** Exceptions and results *)

(** The exceptions the pipeline can raise.  [HTTPError] is the subclass of
    [URLError] that [urlopen] raises for an HTTP error status; [URLError]
    stands for every other transport failure, and [OtherError] for what else
    a library call may raise, by the name of its class. *)
Inductive exn : Type :=
  | ValueError (arg : string)
  | IndexError
  | HTTPError (code : Z)
  | URLError
  | IsADirectoryError
  | OtherError (class_name : string).

Inductive result (A : Type) : Type :=
  | Ok (a : A)
  | Raise (e : exn).
Arguments Ok {A} a.
Arguments Raise {A} e.

Definition result_bind {A B} (r : result A) (k : A -> result B) : result B :=
  match r with
  | Ok a => k a
  | Raise e => Raise e
  end.

(** The exception that a result stands for, if any. *)
Definition raised {A} (r : result A) : option exn :=
  match r with
  | Ok _ => None
  | Raise e => Some e
  end.

(** ** Strings *)

Definition is_digit (a : ascii) : bool :=
  let n := nat_of_ascii a in (Nat.leb 48 n && Nat.leb n 57)%bool.

Definition digit_value (a : ascii) : Z := Z.of_nat (nat_of_ascii a) - 48.

(** Whitespace that [int] strips: tab, line feed, vertical tab, form feed,
    carriage return and the space. *)
Definition is_py_space (a : ascii) : bool :=
  let n := nat_of_ascii a in
  ((Nat.leb 9 n && Nat.leb n 13) || Nat.eqb n 32)%bool.

Fixpoint lstrip (s : string) : string :=
  match s with
  | String a s' => if is_py_space a then lstrip s' else s
  | EmptyString => EmptyString
  end.

Definition strip (s : string) : string :=
  String.rev (lstrip (String.rev (lstrip s))).

(** Decimal digits with single underscores between them.  [pending] holds
    while a digit is required next (at the start and after an underscore). *)
Fixpoint int_digits (pending : bool) (acc : Z) (s : string) : option Z :=
  match s with
  | EmptyString => if pending then None else Some acc
  | String a s' =>
      if is_digit a then int_digits false (10 * acc + digit_value a) s'
      else if (Ascii.eqb a "_" && negb pending)%bool then int_digits true acc s'
      else None
  end.

(** [int(s)] in base 10 on ASCII text, with no bound on the number of
    digits; [None] is Python's [ValueError]. *)
Definition py_int (s : string) : option Z :=
  match strip s with
  | String "+" d => int_digits true 0 d
  | String "-" d => Z.opp <$> int_digits true 0 d
  | d => int_digits true 0 d
  end.

(** [repr(s)] on ASCII text: between single quotes, or between double
    quotes when the text holds a single quote and no double quote; the
    backslash and the quote in use are escaped, tab, line feed and carriage
    return are written [\t], [\n], [\r], and the other control characters
    [\xNN]. *)
Definition double_quote : ascii := "034".

Definition hex_digit (n : nat) : ascii :=
  ascii_of_nat (if Nat.ltb n 10 then 48 + n else 87 + n).

Fixpoint contains_char (a : ascii) (s : string) : bool :=
  match s with
  | EmptyString => false
  | String b s' => (Ascii.eqb a b || contains_char a s')%bool
  end.

Definition repr_char (quote a : ascii) : string :=
  let n := nat_of_ascii a in
  if Ascii.eqb a "\" then String "\" (String "\" "")
  else if Ascii.eqb a quote then String "\" (String a "")
  else if Ascii.eqb a "009" then String "\" "t"
  else if Ascii.eqb a "010" then String "\" "n"
  else if Ascii.eqb a "013" then String "\" "r"
  else if (Nat.ltb n 32 || Nat.eqb n 127)%bool
  then String "\" (String "x" (String (hex_digit (n / 16))
                                 (String (hex_digit (n mod 16)) "")))
  else String a "".

Fixpoint repr_body (quote : ascii) (s : string) : string :=
  match s with
  | EmptyString => EmptyString
  | String a s' => repr_char quote a +:+ repr_body quote s'
  end.

Definition py_repr (s : string) : string :=
  let quote :=
    if (contains_char "'" s && negb (contains_char double_quote s))%bool
    then double_quote else "'"%char in
  String quote (repr_body quote s +:+ String quote "").

(** The exception of a failed [int(s)]: the message ends with the first 200
    characters of [repr(s)]. *)
Definition int_error (s : string) : exn :=
  ValueError ("invalid literal for int() with base 10: "
              +:+ String.substring 0 200 (py_repr s)).

Definition int_of (s : string) : result Z :=
  match py_int s with
  | Some v => Ok v
  | None => Raise (int_error s)
  end.

(** ** The aggregator: [extract_source_data], rows to tallies *)

Definition starting_index : nat := 7.
Definition number_of_field : nat := 4.

(** [list(map(lambda s: "0" if s == "" else s, entry))] *)
Definition normalise_entry (entry : list string) : list string :=
  map (fun s => if String.eqb s "" then "0" else s) entry.

(** [list(map(int, fields))]: the first field that is no integer raises. *)
Fixpoint map_int (fields : list string) : result (list Z) :=
  match fields with
  | [] => Ok []
  | s :: fields' =>
      result_bind (int_of s) (fun v =>
      result_bind (map_int fields') (fun vs => Ok (v :: vs)))
  end.

(** [data[country_name][i] += int(entry[starting_index + i])] on the tally
    list of the country: the target is read first, then the field. *)
Definition add_field (entry : list string) (tally : list Z) (i : nat)
  : result (list Z) :=
  match tally !! i with
  | None => Raise IndexError
  | Some old =>
      match entry !! (starting_index + i)%nat with
      | None => Raise IndexError
      | Some s => result_bind (int_of s) (fun v => Ok (<[i := old + v]> tally))
      end
  end.

(** [for i in range(n): ...] over [add_field], from index [i]. *)
Fixpoint add_fields (entry : list string) (tally : list Z) (i n : nat)
  : result (list Z) :=
  match n with
  | O => Ok tally
  | S n' => result_bind (add_field entry tally i)
              (fun tally' => add_fields entry tally' (S i) n')
  end.

(** The body of [for entry in parsed_data]. *)
Definition aggregate_entry (data : gmap string (list Z)) (entry : list string)
  : result (gmap string (list Z)) :=
  let entry := normalise_entry entry in
  match entry !! 3%nat with
  | None => Raise IndexError
  | Some country_name =>
      match data !! country_name with
      | Some tally =>
          result_bind (add_fields entry tally 0 number_of_field)
            (fun tally' => Ok (<[country_name := tally']> data))
      | None =>
          result_bind
            (map_int (take number_of_field (drop starting_index entry)))
            (fun tally => Ok (<[country_name := tally]> data))
      end
  end.

(** The loop of [extract_source_data] from the dictionary [data]. *)
Fixpoint aggregate (data : gmap string (list Z)) (rows : list (list string))
  : result (gmap string (list Z)) :=
  match rows with
  | [] => Ok data
  | entry :: rows' =>
      result_bind (aggregate_entry data entry) (fun data' => aggregate data' rows')
  end.

(** ** The world: cache directory and network

    [CacheDir] is one directory.  It holds the reports that
    [get_source_file] writes (text, under the name of their URL) and the
    aggregates that [extract_source_data] writes (JSON, in
    [get_data_for_date] under [extracted-<date>.json]); a name holds one
    file, so a file written under a name replaces what was there, of
    whichever kind.  A JSON file is modelled by the dictionary it
    serialises, which [json.dump] and [json.load] carry unchanged for string
    keys and lists of integers.  Text is written as it is (the line
    separator of the platform is the line feed) and read back in text mode,
    see [readlines].  [requests] and [lookups] are ghost traces, most recent
    first: the URLs opened on the network and the dates passed to
    [get_data_for_date]. *)
Inductive content : Type :=
  | Report (text : string)
  | Aggregate (data : gmap string (list Z)).

Record world : Type := World {
  files : gmap string content;
  requests : list string;
  lookups : list string
}.

(** The text files and the JSON files of the directory. *)
Definition report_text (c : content) : option string :=
  match c with
  | Report text => Some text
  | Aggregate _ => None
  end.
Definition aggregate_data (c : content) : option (gmap string (list Z)) :=
  match c with
  | Report _ => None
  | Aggregate data => Some data
  end.
Definition raw_files (w : world) : gmap string string :=
  omap report_text (files w).
Definition derived_files (w : world) : gmap string (gmap string (list Z)) :=
  omap aggregate_data (files w).

Definition set_files (f : gmap string content) (w : world) : world :=
  World f (requests w) (lookups w).

(** [open(name, "w")] and a write of [c]. *)
Definition write_file (name : string) (c : content) (w : world) : world :=
  set_files (<[name := c]> (files w)) w.

(** The directory with the text files [f], and with the JSON files [f]:
    under the other names it keeps the files of the other kind. *)
Definition set_raw_files (f : gmap string string) (w : world) : world :=
  set_files ((Report <$> f) ∪ (Aggregate <$> derived_files w)) w.
Definition set_derived_files (f : gmap string (gmap string (list Z)))
  (w : world) : world :=
  set_files ((Aggregate <$> f) ∪ (Report <$> raw_files w)) w.
Definition log_request (url : string) (w : world) : world :=
  World (files w) (url :: requests w) (lookups w).
Definition log_lookup (date_string : string) (w : world) : world :=
  World (files w) (requests w) (date_string :: lookups w).

(** State and exceptions: the world a call leaves behind survives a raise. *)
Definition M (A : Type) : Type := world -> result A * world.

Definition ret {A} (a : A) : M A := fun w => (Ok a, w).
Definition raise {A} (e : exn) : M A := fun w => (Raise e, w).
Definition bind {A B} (m : M A) (k : A -> M B) : M B :=
  fun w =>
    match m w with
    | (Ok a, w') => k a w'
    | (Raise e, w') => (Raise e, w')
    end.
Definition lift {A} (r : result A) : M A := fun w => (r, w).
Definition modify (f : world -> world) : M unit := fun w => (Ok tt, f w).
Definition gets {A} (f : world -> A) : M A := fun w => (Ok (f w), w).

(** [try: m except HTTPError: pass] *)
Definition except_HTTPError (m : M unit) : M unit :=
  fun w =>
    match m w with
    | (Raise (HTTPError _), w') => (Ok tt, w')
    | r => r
    end.

Notation "'let!' x ':=' m 'in' k" := (bind m (fun x => k))
  (at level 10, x pattern, m at level 100, k at level 200).
Notation "m ';;' k" := (bind m (fun _ => k))
  (at level 100, k at level 200, right associativity).

(** *** Paths and text files *)

(** [pathlib.Path(p).name]: the last component of [p], where empty and [.]
    components do not count.  [name] is the last complete component and
    [cur] the one being read. *)
Definition component (name cur : string) : string :=
  if (String.eqb cur "" || String.eqb cur ".")%bool then name else cur.

Fixpoint path_name_from (name cur p : string) : string :=
  match p with
  | EmptyString => component name cur
  | String "/" p' => path_name_from (component name cur) "" p'
  | String a p' => path_name_from name (cur +:+ String a "") p'
  end.

Definition path_name (p : string) : string := path_name_from "" "" p.

(** [name.split('.')[0]] *)
Fixpoint split_dot_head (name : string) : string :=
  match name with
  | EmptyString => EmptyString
  | String "." _ => EmptyString
  | String a name' => String a (split_dot_head name')
  end.

(** A name inside [CacheDir] that denotes a directory, not a file. *)
Definition is_directory (name : string) : bool :=
  (String.eqb name "" || String.eqb name "..")%bool.

(** What a read in text mode gives for the text of a file: a carriage
    return followed by a line feed, and a carriage return alone, are read as
    a line feed. *)
Fixpoint translate_newlines (text : string) : string :=
  match text with
  | EmptyString => EmptyString
  | String "013" (String "010" text') => String "010" (translate_newlines text')
  | String "013" text' => String "010" (translate_newlines text')
  | String a text' => String a (translate_newlines text')
  end.

(** The lines of a text, each with its line feed. *)
Fixpoint readlines_from (line text : string) : list string :=
  match text with
  | EmptyString => if String.eqb line "" then [] else [line]
  | String a text' =>
      if Ascii.eqb a "010" then (line +:+ String a "") :: readlines_from "" text'
      else readlines_from (line +:+ String a "") text'
  end.

(** [fp.readlines()] on a file opened in text mode. *)
Definition readlines (text : string) : list string :=
  readlines_from "" (translate_newlines text).

(** A file read as text and as JSON.  [json_dumps] is the text that
    [json.dump] has written for a dictionary, [json_loads] what [json.load]
    makes of a text: the dictionary it denotes, or the exception raised (a
    JSON value that is no dictionary of lists of integers is outside this
    development). *)
Definition file_text (json_dumps : gmap string (list Z) -> string)
  (c : content) : string :=
  match c with
  | Report text => text
  | Aggregate data => json_dumps data
  end.

Definition file_json (json_loads : string -> result (gmap string (list Z)))
  (c : content) : result (gmap string (list Z)) :=
  match c with
  | Report text => json_loads (translate_newlines text)
  | Aggregate data => Ok data
  end.

(** ["".join(lines)], also what [fp.writelines(lines)] writes. *)
Definition join (lines : list string) : string :=
  fold_right String.append "" lines.

(** ** Dates

    A [datetime] is the number of microseconds since 0001-01-01T00:00, so
    that the proleptic Gregorian ordinal of its day is [t / day + 1]. *)

Definition datetime : Type := Z.
Definition day_us : Z := 86400000000.

Definition is_leap (y : Z) : bool :=
  ((y mod 4 =? 0) && (negb (y mod 100 =? 0) || (y mod 400 =? 0)))%bool.

Definition days_before_month_table (m : Z) : Z :=
  match m with
  | 1 => 0 | 2 => 31 | 3 => 59 | 4 => 90 | 5 => 120 | 6 => 151
  | 7 => 181 | 8 => 212 | 9 => 243 | 10 => 273 | 11 => 304 | 12 => 334
  | _ => -1
  end.

Definition days_in_month_table (m : Z) : Z :=
  match m with
  | 1 => 31 | 2 => 28 | 3 => 31 | 4 => 30 | 5 => 31 | 6 => 30
  | 7 => 31 | 8 => 31 | 9 => 30 | 10 => 31 | 11 => 30 | 12 => 31
  | _ => -1
  end.

Definition days_before_year (year : Z) : Z :=
  let y := year - 1 in y * 365 + y / 4 - y / 100 + y / 400.

Definition days_before_month (year month : Z) : Z :=
  days_before_month_table month
  + (if ((2 <? month) && is_leap year)%bool then 1 else 0).

(** [date(year, month, day).toordinal()] *)
Definition ymd2ord (year month day : Z) : Z :=
  days_before_year year + days_before_month year month + day.

(** [date.fromordinal(n)] as year, month and day. *)
Definition ord2ymd (ordinal : Z) : Z * Z * Z :=
  let n := ordinal - 1 in
  let n400 := n / 146097 in
  let n := n mod 146097 in
  let n100 := n / 36524 in
  let n := n mod 36524 in
  let n4 := n / 1461 in
  let n := n mod 1461 in
  let n1 := n / 365 in
  let n := n mod 365 in
  let year := n400 * 400 + 1 + n100 * 100 + n4 * 4 + n1 in
  if ((n1 =? 4) || (n100 =? 4))%bool then (year - 1, 12, 31)
  else
    let leapyear := ((n1 =? 3) && (negb (n4 =? 24) || (n100 =? 3)))%bool in
    let month := (n + 50) / 32 in
    let preceding :=
      days_before_month_table month
      + (if ((2 <? month) && leapyear)%bool then 1 else 0) in
    if n <? preceding then
      let month := month - 1 in
      let preceding :=
        preceding - (days_in_month_table month
                     + (if ((month =? 2) && leapyear)%bool then 1 else 0)) in
      (year, month, n - preceding + 1)
    else (year, month, n - preceding + 1).

(** [dt.datetime(day=d, month=m, year=y)], at midnight. *)
Definition datetime_of (year month day : Z) : datetime :=
  (ymd2ord year month day - 1) * day_us.

Definition ordinal_of (t : datetime) : Z := t / day_us + 1.

(** [t + dt.timedelta(days=i)] and [(a - b).days] *)
Definition add_days (t : datetime) (i : Z) : datetime := t + i * day_us.
Definition days_between (a b : datetime) : Z := (a - b) / day_us.

Definition digit_char (n : Z) : ascii := ascii_of_nat (48 + Z.to_nat (n mod 10)).

Definition pad2 (n : Z) : string :=
  String (digit_char (n / 10)) (String (digit_char n) "").
Definition pad4 (n : Z) : string :=
  String (digit_char (n / 1000)) (String (digit_char (n / 100))
    (String (digit_char (n / 10)) (String (digit_char n) ""))).

(** [t.strftime("%m-%d-%Y")]: the years 1000 to 9999 print their four
    digits (how an earlier year prints depends on the platform). *)
Definition strftime (t : datetime) : string :=
  let '(year, month, day) := ord2ymd (ordinal_of t) in
  pad2 month +:+ "-" +:+ pad2 day +:+ "-" +:+ pad4 year.

Definition origin_date : datetime := datetime_of 2020 12 2.

(** ** Source location *)

Definition in_range (lo hi : ascii) (a : ascii) : bool :=
  (Nat.leb (nat_of_ascii lo) (nat_of_ascii a)
   && Nat.leb (nat_of_ascii a) (nat_of_ascii hi))%bool.

(** [(0[1-9]|1[012])] and [(0[1-9]|[12][0-9]|3[01])] *)
Definition month_digits (a b : ascii) : bool :=
  ((Ascii.eqb a "0" && in_range "1" "9" b)
   || (Ascii.eqb a "1" && in_range "0" "2" b))%bool.
Definition day_digits (a b : ascii) : bool :=
  ((Ascii.eqb a "0" && in_range "1" "9" b)
   || (in_range "1" "2" a && is_digit b)
   || (Ascii.eqb a "3" && in_range "0" "1" b))%bool.

(** [re.match(r"^(0[1-9]|1[012])-(0[1-9]|[12][0-9]|3[01])-20\d\d$", s)];
    [$] also matches before a line feed that ends the string. *)
Definition matches_date_pattern (s : string) : bool :=
  match s with
  | String m1 (String m2 (String "-" (String d1 (String d2 (String "-"
      (String "2" (String "0" (String y1 (String y2 rest))))))))) =>
      (month_digits m1 m2 && day_digits d1 d2 && is_digit y1 && is_digit y2
       && (String.eqb rest "" || String.eqb rest (String "010" "")))%bool
  | _ => false
  end.

Definition invalid_date_message : string :=
  "Invalid date format, must be MM-DD-YYY! Try using normalise_datetime()!".

Definition gh_branch_url : string :=
  "https://raw.githubusercontent.com/CSSEGISandData/COVID-19/master".
Definition source_path : string :=
  "/csse_covid_19_data/csse_covid_19_daily_reports/".

Definition create_source_url (date_string : string) : result string :=
  if negb (matches_date_pattern date_string)
  then Raise (ValueError invalid_date_message)
  else
    let file_name := date_string +:+ ".csv" in
    Ok (gh_branch_url +:+ source_path +:+ file_name).

(** ** Date normalisation

    [dateutil.parser.parse(s, dayfirst=True)] is a parameter [parse]. *)
Definition normalise_datetime (parse : string -> result datetime)
  (date_string : string) : result string :=
  match parse date_string with
  | Ok t => Ok (strftime t)
  | Raise (ValueError _) => Raise (ValueError "Invalid date format")
  | Raise e => Raise e
  end.

(** ** Insertion-ordered dictionaries *)

(** [d[k] = v]: an existing key keeps its place, a new one goes last. *)
Fixpoint dict_set {V} (k : string) (v : V) (d : list (string * V))
  : list (string * V) :=
  match d with
  | [] => [(k, v)]
  | (k', v') :: d' =>
      if String.eqb k' k then (k', v) :: d' else (k', v') :: dict_set k v d'
  end.

Fixpoint dict_get {V} (k : string) (d : list (string * V)) : option V :=
  match d with
  | [] => None
  | (k', v') :: d' => if String.eqb k' k then Some v' else dict_get k d'
  end.

(** [d.values()] *)
Definition dict_values {V} (d : list (string * V)) : list V := map snd d.

(** ** Arrays of 64-bit integers

    [np.array] of a list of integers that fit 64 bits signed is an [int64]
    array, and its arithmetic wraps. *)
Definition int64_wrap (z : Z) : Z := (z + 2 ^ 63) mod 2 ^ 64 - 2 ^ 63.

(** [np.array(a) - np.array(b)] for one-dimensional arrays: element-wise for
    equal lengths, an array of length one is broadcast. *)
Definition np_sub (a b : list Z) : result (list Z) :=
  if Nat.eqb (length a) (length b)
  then Ok (zip_with (fun x y => int64_wrap (x - y)) a b)
  else
    match a, b with
    | [x], _ => Ok (map (fun y => int64_wrap (x - y)) b)
    | _, [y] => Ok (map (fun x => int64_wrap (x - y)) a)
    | _, _ => Raise (ValueError "operands could not be broadcast together")
    end.

(** ** The pipeline *)

Section Pipeline.

(** [list(urllib.request.urlopen(url))], decoded: the lines of the remote
    report, or the exception raised. *)
Variable urlopen : string -> result (list string).

(** [list(csv.reader(io.StringIO(text)))] *)
Variable csv_reader : string -> result (list (list string)).

(** [json.dump] and [json.load], on the text of a file. *)
Variable json_dumps : gmap string (list Z) -> string.
Variable json_loads : string -> result (gmap string (list Z)).

(** The most recent date with a remote report, found when the module is
    loaded and fixed afterwards. *)
Variable latest_date : datetime.

(** *** Fetch with cache *)
Definition get_source_file (url : string) (force : bool) : M (list string) :=
  let filename := path_name url in
  let! cached := gets (fun w => files w !! filename) in
  match cached, force with
  | Some c, false => ret (readlines (file_text json_dumps c))
  | _, _ =>
      modify (log_request url) ;;
      let! string_data := lift (urlopen url) in
      (if is_directory filename then raise IsADirectoryError else ret tt) ;;
      modify (write_file filename (Report (join string_data))) ;;
      ret string_data
  end.

Definition parse_source_data (source_data : list string)
  : result (list (list string)) :=
  let concat := join source_data in
  csv_reader concat.

(** *** Extraction *)

(** [not force and cache_file is not None and
    pathlib.Path(cache_file).is_file()], with what [json.load] gives for
    the file, whatever has written it.  A [cache_file] is taken by its name
    in [CacheDir], and names a file there, not a directory. *)
Definition derived_cache_hit (cache_file : option string) (force : bool)
  (w : world) : option (result (gmap string (list Z))) :=
  match cache_file with
  | Some f => if force then None else file_json json_loads <$> files w !! f
  | None => None
  end.

(** [extract_source_data] works on the caller's list: the second component
    of what it returns is that list after the call. *)
Definition extract_source_data (parsed_data : list (list string))
  (cache_file : option string) (force : bool) (w : world)
  : result (gmap string (list Z)) * list (list string) * world :=
  match parsed_data with
  | [] => (Raise IndexError, parsed_data, w)
  | _ :: parsed_data =>
      match derived_cache_hit cache_file force w with
      | Some loaded => (loaded, parsed_data, w)
      | None =>
          match aggregate ∅ parsed_data with
          | Raise e => (Raise e, parsed_data, w)
          | Ok data =>
              let w' :=
                match cache_file with
                | Some f => write_file f (Aggregate data) w
                | None => w
                end in
              (Ok data, parsed_data, w')
          end
      end
  end.

(** *** One date *)
Definition get_data_for_date (date_string : string) (force : bool)
  : M (gmap string (list Z)) :=
  modify (log_lookup date_string) ;;
  (if negb (matches_date_pattern date_string)
   then raise (ValueError invalid_date_message) else ret tt) ;;
  let! url := lift (create_source_url date_string) in
  let! source_file := get_source_file url force in
  let! parsed_source_file := lift (parse_source_data source_file) in
  let cache_filename :=
    "extracted-" +:+ split_dot_head (path_name url) +:+ ".json" in
  fun w =>
    let '(r, _, w') :=
      extract_source_data parsed_source_file (Some cache_filename) force w in
    (r, w').

(** *** A country over a range of days *)
Definition clamp_end (end_date : option datetime) : datetime :=
  match end_date with
  | None => latest_date
  | Some e => if latest_date <? e then latest_date else e
  end.

Definition clamp_start (start_date : option datetime) : datetime :=
  match start_date with
  | None => origin_date
  | Some s => if s <? origin_date then origin_date else s
  end.

(** The body of [for i in range(...)], over the indices left. *)
Fixpoint country_loop (country : string) (start_date : datetime)
  (indices : list Z) (result : list (string * list Z))
  : M (list (string * list Z)) :=
  match indices with
  | [] => ret result
  | i :: indices' =>
      let date_string := strftime (add_days start_date i) in
      let! data := get_data_for_date date_string false in
      match data !! country with
      | Some country_data =>
          country_loop country start_date indices'
            (dict_set date_string country_data result)
      | None => raise (ValueError country)
      end
  end.

Definition get_country_data (country : string)
  (start_date end_date : option datetime) : M (list (string * list Z)) :=
  let end_date := clamp_end end_date in
  let start_date := clamp_start start_date in
  country_loop country start_date
    (seqZ 0 (days_between end_date start_date + 1)) [].

(** *** Bulk caching

    The progress lines that [cache_data] prints are left out. *)
Fixpoint cache_loop (date : datetime) (force : bool) (n : nat) : M unit :=
  match n with
  | O => ret tt
  | S n' =>
      except_HTTPError
        (let! _ := get_data_for_date (strftime date) force in ret tt) ;;
      cache_loop (add_days date (-1)) force n'
  end.

Definition cache_data (no_of_days : Z) (force : bool) : M unit :=
  let date := latest_date in
  let no_of_days :=
    if days_between date origin_date <? no_of_days
    then days_between date origin_date else no_of_days in
  cache_loop date force (Z.to_nat no_of_days).

(** *** Day-over-day changes *)
Definition get_new_changes (country : string) (date : datetime)
  : M (list Z) :=
  let! series := get_country_data country (Some (add_days date (-1))) (Some date) in
  match dict_values series with
  | [yesterday; today] => lift (np_sub today yesterday)
  | [] => raise (ValueError "not enough values to unpack (expected 2, got 0)")
  | [_] => raise (ValueError "not enough values to unpack (expected 2, got 1)")
  | _ => raise (ValueError "too many values to unpack (expected 2)")
  end.

End Pipeline.

(** ** The aggregation as the specification words it

    Each country's tally is the field-wise sum, over the rows of that
    country, of the four integers at offsets 7 to 10, where an empty field
    reads as 0. *)

Definition empty_as_zero (s : string) : string :=
  if String.eqb s "" then "0" else s.

(** The integer in field [i] of a row. *)
Definition field_int (entry : list string) (i : nat) : option Z :=
  entry !! i ≫= fun s => py_int (empty_as_zero s).

(** The four integers of a row, when it has them. *)
Definition entry_values (entry : list string) : option (list Z) :=
  v0 ← field_int entry 7; v1 ← field_int entry 8;
  v2 ← field_int entry 9; v3 ← field_int entry 10;
  Some [v0; v1; v2; v3].

(** The country of a row: its field 3, read as every field is. *)
Definition row_country (entry : list string) : option string :=
  empty_as_zero <$> entry !! 3%nat.

(** A row of the report format: eleven fields or more, integers (or nothing)
    at offsets 7 to 10. *)
Definition row_ok (entry : list string) : Prop := is_Some (entry_values entry).

Definition tally_add (a b : list Z) : list Z := zip_with Z.add a b.

Definition country_rows (country : string) (rows : list (list string))
  : list (list string) :=
  filter (fun entry => row_country entry = Some country) rows.

Definition country_sum (country : string) (rows : list (list string)) : list Z :=
  foldr (fun entry acc =>
           match entry_values entry with
           | Some tally => tally_add tally acc
           | None => acc
           end)
    [0; 0; 0; 0] (country_rows country rows).

(** What one row does to the tally [old] its country has so far. *)
Definition entry_step (entry : list string) (old : option (list Z))
  : result (list Z) :=
  match old with
  | Some tally => add_fields (normalise_entry entry) tally 0 number_of_field
  | None =>
      map_int (take number_of_field (drop starting_index (normalise_entry entry)))
  end.

(** ** Sample data *)

Definition empty_world : world := World ∅ [] [].

Definition sample_header : list string :=
  ["FIPS"; "Admin2"; "Province_State"; "Country_Region"; "Last_Update";
   "Lat"; "Long_"; "Confirmed"; "Deaths"; "Recovered"; "Active";
   "Combined_Key"; "Incident_Rate"; "Case_Fatality_Ratio"].

(** A row of country [country] with the four fields [c], [d], [r], [a]. *)
Definition sample_row (region country c d r a : string) : list string :=
  [""; ""; region; country; "2020-12-03 05:28:22"; ""; ""; c; d; r; a;
   region +:+ " / " +:+ country].

(** [csv.reader] on a text without quotes or carriage returns: one row per
    line, its fields between commas, and no field at all for a blank line. *)
Fixpoint csv_rows (field : string) (row : list string) (text : string)
  : list (list string) :=
  let finish :=
    if (String.eqb field "" && Nat.eqb (length row) 0)%bool then []
    else (row ++ [field])%list in
  match text with
  | EmptyString =>
      if (String.eqb field "" && Nat.eqb (length row) 0)%bool then [] else [finish]
  | String a text' =>
      if Ascii.eqb a "," then csv_rows "" (row ++ [field])%list text'
      else if Ascii.eqb a "010" then finish :: csv_rows "" [] text'
      else csv_rows (field +:+ String a "") row text'
  end.

Definition csv_unquoted (text : string) : result (list (list string)) :=
  Ok (csv_rows "" [] text).

(** A row as a line of the report. *)
Fixpoint csv_line (row : list string) : string :=
  match row with
  | [] => String "010" ""
  | [field] => field +:+ String "010" ""
  | field :: row' => field +:+ "," +:+ csv_line row'
  end.

Definition report_url (date_string : string) : string :=
  gh_branch_url +:+ source_path +:+ date_string +:+ ".csv".

(** A remote with the reports of three days, and nothing else: Testland is
    missing from the report of the second day. *)
Definition sample_remote (url : string) : result (list string) :=
  if String.eqb url (report_url "12-02-2020") then
    Ok (map csv_line
          [sample_header; sample_row "North" "X" "1" "2" "3" "4";
           sample_row "" "Testland" "9" "1" "2" "3";
           sample_row "South" "X" "5" "0" "0" "1"])
  else if String.eqb url (report_url "12-03-2020") then
    Ok (map csv_line
          [sample_header; sample_row "" "X" "10" "1" "2" "3"])
  else if String.eqb url (report_url "12-04-2020") then
    Ok (map csv_line
          [sample_header; sample_row "" "X" "15" "1" "3" "5";
           sample_row "" "Testland" "15" "1" "3" "5"])
  else Raise (HTTPError 404).

(** The same remote before the report of the last day is published. *)
Definition early_remote (url : string) : result (list string) :=
  if String.eqb url (report_url "12-04-2020") then Raise (HTTPError 404)
  else sample_remote url.

(** The latest date of the sample: 2020-12-04, at two in the afternoon. *)
Definition sample_latest : datetime := datetime_of 2020 12 4 + 14 * 3600 * 1000000.

(** A network that is down. *)
Definition offline_remote (url : string) : result (list string) :=
  Raise URLError.

(** ** The dates of a query

    The date texts that [get_country_data] goes through for the clamped
    bounds [start_date] and [end_date], in the order of the loop. *)
Definition range_dates (start_date end_date : datetime) : list string :=
  map (fun i => strftime (add_days start_date i))
    (seqZ 0 (days_between end_date start_date + 1)).

(** The dates that [cache_data] goes through in [n] rounds from [date]. *)
Definition backward_dates (date : datetime) (n : nat) : list string :=
  map (fun i => strftime (add_days date (- i))) (seqZ 0 (Z.of_nat n)).

Definition is_HTTPError (e : exn) : bool :=
  match e with
  | HTTPError _ => true
  | _ => false
  end.

(** ** The date parser on numeric dates

    [datetime(year, month, day)] raises a [ValueError] for a date that the
    calendar does not have. *)
Definition days_in_month (year month : Z) : Z :=
  if ((month =? 2) && is_leap year)%bool then 29 else days_in_month_table month.

Definition make_datetime (year month day : Z) : result datetime :=
  if negb ((1 <=? year) && (year <=? 9999))%bool
  then Raise (ValueError "year is out of range")
  else if negb ((1 <=? month) && (month <=? 12))%bool
  then Raise (ValueError "month must be in 1..12")
  else if negb ((1 <=? day) && (day <=? days_in_month year month))%bool
  then Raise (ValueError "day is out of range for month")
  else Ok (datetime_of year month day).

(** The order in which dateutil reads three numbers [a-b-c] the last of which
    is marked as the year by its four digits, with [dayfirst=True]: the
    result is year, month and day. *)
Definition resolve_ymd_dayfirst (a b c : Z) : Z * Z * Z :=
  if 31 <? a then (if c <=? 12 then (a, c, b) else (a, b, c))
  else if ((12 <? a) || (b <=? 12))%bool then (c, b, a)
  else (c, a, b).

Definition two_digits (a b : ascii) : option Z :=
  if (is_digit a && is_digit b)%bool
  then Some (10 * digit_value a + digit_value b) else None.

(** [dateutil.parser.parse(s, dayfirst=True)] on the texts [NN-NN-NNNN] with
    a year from 1000 on; [None] on any other text, which this development
    does not model. *)
Definition parse_numeric_date (s : string) : option (result datetime) :=
  match s with
  | String a1 (String a2 (String "-" (String b1 (String b2 (String "-"
      (String y1 (String y2 (String y3 (String y4 EmptyString))))))))) =>
      match two_digits a1 a2, two_digits b1 b2,
            two_digits y1 y2, two_digits y3 y4 with
      | Some a, Some b, Some yh, Some yl =>
          let c := 100 * yh + yl in
          if 1000 <=? c then
            let '(year, month, day) := resolve_ymd_dayfirst a b c in
            Some (make_datetime year month day)
          else None
      | _, _, _, _ => None
      end
  | _ => None
  end.

(** A parser that reads the numeric dates as dateutil does and refuses every
    other text. *)
Definition parse_numeric_only (s : string) : result datetime :=
  match parse_numeric_date s with
  | Some r => r
  | None => Raise (ValueError "Unknown string format")
  end.

(** ** The rest of the module *)

(** The first instant that a [datetime] cannot hold: 10000-01-01T00:00. *)
Definition datetime_max : datetime := 3652059 * day_us.

(** The caches of [w] are kept in [w']: every entry of [w], raw or derived,
    is in [w'] with the same content. *)
Definition cache_le (w w' : world) : Prop :=
  raw_files w ⊆ raw_files w' /\ derived_files w ⊆ derived_files w'.

(** A text without a carriage return, which a read in text mode gives back
    as it was written. *)
Definition plain_newlines (text : string) : Prop :=
  translate_newlines text = text.

(** [csv.reader] accepts a text as read back in text mode whenever it has
    accepted the text, with one row at least: [csv_reader] stands for
    [csv.reader] only if it does so. *)
Definition accepts_reread (csv_reader : string -> result (list (list string)))
  : Prop :=
  forall text header rows,
    csv_reader text = Ok (header :: rows) ->
    exists header' rows',
      csv_reader (translate_newlines text) = Ok (header' :: rows').

(** The names under which [get_data_for_date] keeps a date. *)
Definition raw_name (date_string : string) : string := date_string +:+ ".csv".
Definition derived_name (date_string : string) : string :=
  "extracted-" +:+ date_string +:+ ".json".

(** A character that is neither a slash nor a dot, as those of a date. *)
Definition plain_char (a : ascii) : Prop :=
  Ascii.eqb a "/" = false /\ Ascii.eqb a "." = false.

(** The field-wise total of all the tallies of an aggregate. *)
Definition grand_total (data : gmap string (list Z)) : list Z :=
  map_fold (fun _ tally acc => tally_add tally acc) [0; 0; 0; 0] data.

(** The field-wise total of the rows of a report. *)
Definition rows_total (rows : list (list string)) : list Z :=
  foldr (fun entry acc =>
           match entry_values entry with
           | Some tally => tally_add tally acc
           | None => acc
           end)
    [0; 0; 0; 0] rows.

(** *** The latest date

    The loop that runs when the module is loaded, from [today] backwards:
    [fuel] bounds its rounds, and [None] stands for a loop that has not ended
    within them. *)
Section Startup.

Variable urlopen : string -> result (list string).
Variable json_dumps : gmap string (list Z) -> string.

(** [get_source_file(create_source_url(date.strftime("%m-%d-%Y")))] *)
Definition probe (date : datetime) : M (list string) :=
  let! url := lift (create_source_url (strftime date)) in
  get_source_file urlopen json_dumps url false.

Fixpoint find_latest_date (fuel : nat) (latest_date : datetime)
  : M (option datetime) :=
  match fuel with
  | O => ret None
  | S fuel' =>
      fun w =>
        match probe latest_date w with
        | (Ok _, w') => (Ok (Some latest_date), w')
        | (Raise (HTTPError _), w') =>
            find_latest_date fuel' (add_days latest_date (-1)) w'
        | (Raise e, w') => (Raise e, w')
        end
  end.

End Startup.

(** *** The validators of the command line

    What a validator gives back: a value, [click.BadParameter] with its
    message, or an exception that it does not catch. *)
Inductive validated (A : Type) : Type :=
  | Value (a : A)
  | BadParameter (message : string)
  | Uncaught (e : exn).
Arguments Value {A} a.
Arguments BadParameter {A} message.
Arguments Uncaught {A} e.

(** [dt.datetime.strptime(s, "%m-%d-%Y")] on the texts [NN-NN-NNNN]: [%m]
    and [%d] take the two digits of a month and of a day of the month, [%Y]
    four digits, and a date that the calendar does not have raises; [None]
    on any other text, which this development does not model. *)
Definition strptime_numeric (s : string) : option (result datetime) :=
  match s with
  | String m1 (String m2 (String "-" (String d1 (String d2 (String "-"
      (String y1 (String y2 (String y3 (String y4 EmptyString))))))))) =>
      match two_digits m1 m2, two_digits d1 d2,
            two_digits y1 y2, two_digits y3 y4 with
      | Some month, Some day, Some yh, Some yl =>
          Some
            (if negb (month_digits m1 m2 && day_digits d1 d2)
             then Raise (ValueError ("time data '" +:+ s
                                     +:+ "' does not match format '%m-%d-%Y'"))
             else if 100 * yh + yl =? 0
             then Raise (ValueError "year 0 is out of range")
             else make_datetime (100 * yh + yl) month day)
      | _, _, _, _ => None
      end
  | _ => None
  end.

(** A [strptime] that reads the numeric dates and refuses every other
    text. *)
Definition strptime_numeric_only (s : string) : result datetime :=
  match strptime_numeric s with
  | Some r => r
  | None => Raise (ValueError "time data does not match format")
  end.

Section Validators.

(** [dateutil.parser.parse(s, dayfirst=True)] and
    [dt.datetime.strptime(s, "%m-%d-%Y")] *)
Variable parse : string -> result datetime.
Variable strptime : string -> result datetime.
Variable latest_date : datetime.

(** The warnings that the validators log are left out. *)
Definition validate_date (value : string) : validated string :=
  if String.eqb value "latest" then Value (strftime latest_date)
  else
    match normalise_datetime parse value with
    | Raise (ValueError _) => BadParameter "Invalid date format!"
    | Raise e => Uncaught e
    | Ok d =>
        match strptime d with
        | Raise (ValueError _) => BadParameter "Invalid date format!"
        | Raise e => Uncaught e
        | Ok t =>
            if latest_date <? t then Value (strftime latest_date) else Value d
        end
    end.

Definition validate_number_of_days (value : string) : validated Z :=
  if String.eqb value "max" then Value (days_between latest_date origin_date)
  else
    match py_int value with
    | None => BadParameter "Invalid value, must be an integer!"
    | Some val =>
        if days_between latest_date origin_date <? val
        then Value (days_between latest_date origin_date)
        else Value val
    end.

End Validators.

(** ** Stand-ins for the JSON library in the runs on sample data *)

(** The text of a dictionary: the keys in the order of the map and as they
    are, which is what [json.dumps] writes for a single key without a
    character that JSON escapes. *)
Definition json_integers (tally : list Z) : string :=
  "[" +:+ String.concat ", "
            (map (fun z => NilZero.string_of_int (Z.to_int z)) tally) +:+ "]".

Definition sample_json_dumps (data : gmap string (list Z)) : string :=
  "{" +:+ String.concat ", "
            (map (fun entry : string * list Z =>
                    String double_quote entry.1 +:+ String double_quote ": "
                    +:+ json_integers entry.2)
               (map_to_list data)) +:+ "}".

(** [json.loads] on the text of a report of the sample remotes, none of
    which is the text of a JSON value. *)
Definition sample_json_loads (text : string) : result (gmap string (list Z)) :=
  Raise (ValueError "Expecting value: line 1 column 1 (char 0)").

(** ** More sample remotes *)

(** A remote whose report of the first day has a field that is no
    integer. *)
Definition broken_remote (url : string) : result (list string) :=
  if String.eqb url (report_url "12-02-2020") then
    Ok (map csv_line [sample_header; sample_row "" "X" "n/a" "1" "2" "3"])
  else Raise (HTTPError 404).

(** A remote that answers every request with the status 500. *)
Definition failing_remote (url : string) : result (list string) :=
  Raise (HTTPError 500).



(** A remote that sends the lines of a report with a carriage return
    before each line feed. *)
Definition crlf_line (row : list string) : string :=
  String.concat "," row +:+ String "013" (String "010" "").

Definition crlf_remote (url : string) : result (list string) :=
  if String.eqb url (report_url "12-02-2020") then
    Ok (map crlf_line [sample_header; sample_row "North" "X" "1" "2" "3" "4"])
  else Raise (HTTPError 404).

(** ** Predicates of the statements *)

(** The rows of a country as the specification words them: the rows whose
    field 3 is the country name. *)
Definition named_rows (country : string) (rows : list (list string))
  : list (list string) :=
  filter (fun entry => entry !! 3%nat = Some country) rows.

(** The tally of [country] in the cached aggregate of [date_string]: in
    what [json.load] reads from the file [extracted-<date>.json]. *)
Definition cached_tally (json_loads : string -> result (gmap string (list Z)))
  (w : world) (country date_string : string) (tally : list Z) : Prop :=
  exists c data,
    files w !! derived_name date_string = Some c
    /\ file_json json_loads c = Ok data
    /\ data !! country = Some tally.

(** The two files of [date_string] agree: the file [<date>.csv], if any, is
    a report, the file [extracted-<date>.json], if any, is an aggregate, and
    then it is the aggregate of the rows of that report, as [csv.reader]
    reads them from the text that was downloaded or from the text that is
    read back. *)
Definition coherent_at (csv_reader : string -> result (list (list string)))
  (w : world) (date_string : string) : Prop :=
  (forall data, files w !! raw_name date_string <> Some (Aggregate data))
  /\ (forall text, files w !! derived_name date_string <> Some (Report text))
  /\ forall data,
       files w !! derived_name date_string = Some (Aggregate data) ->
       exists text header rows,
         files w !! raw_name date_string = Some (Report text)
         /\ (csv_reader text = Ok (header :: rows)
             \/ csv_reader (translate_newlines text) = Ok (header :: rows))
         /\ aggregate ∅ rows = Ok data.

Definition coherent (csv_reader : string -> result (list (list string)))
  (w : world) : Prop :=
  forall date_string,
    matches_date_pattern date_string = true ->
    coherent_at csv_reader w date_string.

(** [CacheDir] has no file [<date>.csv]. *)
Definition uncached (w : world) (date_string : string) : bool :=
  match files w !! raw_name date_string with
  | Some _ => false
  | None => true
  end.

(** * Rows and tallies *)

Lemma normalise_entry_lookup entry i :
  normalise_entry entry !! i = empty_as_zero <$> entry !! i.
Proof. unfold normalise_entry. apply list_lookup_fmap. Qed.

Lemma add_field_Ok entry tally i tally' :
  add_field (normalise_entry entry) tally i = Ok tally' <->
  exists old v, tally !! i = Some old /\ field_int entry (starting_index + i) = Some v
                /\ tally' = <[i := old + v]> tally.
Proof.
  unfold add_field, field_int. rewrite normalise_entry_lookup.
  destruct (tally !! i) as [old|]; [|split; [discriminate | intros (? & ? & ? & _); discriminate]].
  destruct (entry !! (starting_index + i)%nat) as [s|]; simpl;
    [|split; [discriminate | intros (? & ? & _ & ? & _); discriminate]].
  unfold int_of. destruct (py_int (empty_as_zero s)) as [v|]; simpl.
  - split; [intros [= <-]; eauto | intros (? & ? & [= <-] & [= <-] & ->); done].
  - split; [discriminate | intros (? & ? & _ & ? & _); discriminate].
Qed.

Lemma add_fields_Ok entry tally tally' :
  add_fields (normalise_entry entry) tally 0 number_of_field = Ok tally' <->
  exists a0 a1 a2 a3 rest v0 v1 v2 v3,
    tally = a0 :: a1 :: a2 :: a3 :: rest
    /\ entry_values entry = Some [v0; v1; v2; v3]
    /\ tally' = (a0 + v0) :: (a1 + v1) :: (a2 + v2) :: (a3 + v3) :: rest.
Proof.
  unfold number_of_field, entry_values. cbn [add_fields]. split.
  - intros H.
    destruct (add_field _ tally 0) as [t1|] eqn:E0; [|discriminate]. cbn [result_bind] in H.
    destruct (add_field _ t1 1) as [t2|] eqn:E1; [|discriminate]. cbn [result_bind] in H.
    destruct (add_field _ t2 2) as [t3|] eqn:E2; [|discriminate]. cbn [result_bind] in H.
    destruct (add_field _ t3 3) as [t4|] eqn:E3; [|discriminate]. cbn [result_bind] in H.
    injection H as <-.
    apply add_field_Ok in E0 as (o0 & v0 & L0 & F0 & ->).
    apply add_field_Ok in E1 as (o1 & v1 & L1 & F1 & ->).
    apply add_field_Ok in E2 as (o2 & v2 & L2 & F2 & ->).
    apply add_field_Ok in E3 as (o3 & v3 & L3 & F3 & ->).
    destruct tally as [|a0 [|a1 [|a2 [|a3 rest]]]]; try discriminate.
    cbn in L0, L1, L2, L3. simplify_eq.
    exists o0, o1, o2, o3, rest, v0, v1, v2, v3.
    cbn in F0, F1, F2, F3. rewrite F0, F1, F2, F3. done.
  - intros (a0 & a1 & a2 & a3 & rest & v0 & v1 & v2 & v3 & -> & Hv & ->).
    destruct (field_int entry 7) as [w0|] eqn:F0; [|discriminate]. cbn in Hv.
    destruct (field_int entry 8) as [w1|] eqn:F1; [|discriminate]. cbn in Hv.
    destruct (field_int entry 9) as [w2|] eqn:F2; [|discriminate]. cbn in Hv.
    destruct (field_int entry 10) as [w3|] eqn:F3; [|discriminate]. cbn in Hv.
    simplify_eq.
    assert (A0 : add_field (normalise_entry entry) (a0 :: a1 :: a2 :: a3 :: rest) 0 = Ok ((a0 + v0) :: a1 :: a2 :: a3 :: rest)).
    { apply add_field_Ok. eauto 10. }
    rewrite A0. cbn [result_bind].
    assert (A1 : add_field (normalise_entry entry) ((a0 + v0) :: a1 :: a2 :: a3 :: rest) 1 = Ok ((a0 + v0) :: (a1 + v1) :: a2 :: a3 :: rest)).
    { apply add_field_Ok. eauto 10. }
    rewrite A1. cbn [result_bind].
    assert (A2 : add_field (normalise_entry entry) ((a0 + v0) :: (a1 + v1) :: a2 :: a3 :: rest) 2 = Ok ((a0 + v0) :: (a1 + v1) :: (a2 + v2) :: a3 :: rest)).
    { apply add_field_Ok. eauto 10. }
    rewrite A2. cbn [result_bind].
    assert (A3 : add_field (normalise_entry entry) ((a0 + v0) :: (a1 + v1) :: (a2 + v2) :: a3 :: rest) 3 = Ok ((a0 + v0) :: (a1 + v1) :: (a2 + v2) :: (a3 + v3) :: rest)).
    { apply add_field_Ok. eauto 10. }
    rewrite A3. done.
Qed.

Ltac destruct_entry entry :=
  destruct entry as [|? [|? [|? [|? [|? [|? [|? [|? [|? [|? [|? ?]]]]]]]]]]].

Ltac case_py_int H :=
  repeat match type of H with
    | context [py_int ?s] =>
        let E := fresh "E" in destruct (py_int s) eqn:E; cbn in H
    end.

Lemma map_int_slice_of_values entry vs :
  entry_values entry = Some vs ->
  map_int (take number_of_field (drop starting_index (normalise_entry entry))) = Ok vs.
Proof.
  unfold entry_values, field_int. intros H.
  destruct_entry entry; cbn in H |- *; unfold int_of, empty_as_zero in *;
    case_py_int H; try discriminate H.
  rewrite firstn_O. cbn. congruence.
Qed.

Lemma map_int_slice_four entry a0 a1 a2 a3 rest :
  map_int (take number_of_field (drop starting_index (normalise_entry entry)))
  = Ok (a0 :: a1 :: a2 :: a3 :: rest) ->
  rest = [] /\ entry_values entry = Some [a0; a1; a2; a3].
Proof.
  unfold entry_values, field_int. intros H.
  destruct_entry entry; cbn in H; unfold int_of, empty_as_zero in *;
    case_py_int H; try discriminate H.
  rewrite firstn_O in H. cbn in H.
  injection H as <- <- <- <- <-. cbn. rewrite E, E0, E1, E2. done.
Qed.

Lemma aggregate_entry_step data entry :
  aggregate_entry data entry =
  match normalise_entry entry !! 3%nat with
  | None => Raise IndexError
  | Some c => result_bind (entry_step entry (data !! c)) (fun t => Ok (<[c := t]> data))
  end.
Proof.
  unfold aggregate_entry, entry_step.
  destruct (normalise_entry entry !! 3%nat) as [c|]; [|done].
  by destruct (data !! c).
Qed.

Lemma result_bind_Ok {A B} (r : result A) (k : A -> result B) b :
  result_bind r k = Ok b <-> exists a, r = Ok a /\ k a = Ok b.
Proof.
  destruct r; simpl; split; eauto.
  - intros (? & [= <-] & ?); done.
  - discriminate.
  - intros (? & ? & _); discriminate.
Qed.

Lemma entry_step_twice r1 r2 old t1 t2 :
  entry_step r1 old = Ok t1 -> entry_step r2 (Some t1) = Ok t2 ->
  exists t1', entry_step r2 old = Ok t1' /\ entry_step r1 (Some t1') = Ok t2.
Proof.
  intros H1 H2. cbn [entry_step] in H2.
  apply add_fields_Ok in H2
    as (a0 & a1 & a2 & a3 & rest & v0 & v1 & v2 & v3 & -> & Hv2 & ->).
  destruct old as [t|]; cbn [entry_step] in *.
  - apply add_fields_Ok in H1
      as (b0 & b1 & b2 & b3 & rest' & u0 & u1 & u2 & u3 & -> & Hv1 & Heq).
    injection Heq as -> -> -> -> ->.
    exists ((b0 + v0) :: (b1 + v1) :: (b2 + v2) :: (b3 + v3) :: rest'). split.
    + apply add_fields_Ok. eauto 15.
    + apply add_fields_Ok.
      exists (b0 + v0), (b1 + v1), (b2 + v2), (b3 + v3), rest', u0, u1, u2, u3.
      repeat split; [done|]. f_equal; [lia|]. f_equal; [lia|]. f_equal; [lia|]. f_equal; lia.
  - apply map_int_slice_four in H1 as [-> Hv1].
    exists [v0; v1; v2; v3]. split.
    + by apply map_int_slice_of_values.
    + apply add_fields_Ok.
      exists v0, v1, v2, v3, [], a0, a1, a2, a3.
      repeat split; [done|]. f_equal; [lia|]. f_equal; [lia|]. f_equal; [lia|]. f_equal; lia.
Qed.

Lemma aggregate_entry_swap data r1 r2 m :
  result_bind (aggregate_entry data r1) (fun d => aggregate_entry d r2) = Ok m ->
  result_bind (aggregate_entry data r2) (fun d => aggregate_entry d r1) = Ok m.
Proof.
  intros H. apply result_bind_Ok in H as (d1 & H1 & H2).
  rewrite aggregate_entry_step in H1, H2. rewrite aggregate_entry_step.
  destruct (normalise_entry r1 !! 3%nat) as [c1|] eqn:C1; [|discriminate].
  destruct (normalise_entry r2 !! 3%nat) as [c2|] eqn:C2; [|discriminate].
  apply result_bind_Ok in H1 as (t1 & S1 & [= <-]).
  apply result_bind_Ok in H2 as (t2 & S2 & [= <-]).
  destruct (decide (c1 = c2)) as [<- | Hne].
  - rewrite lookup_insert_eq in S2.
    destruct (entry_step_twice _ _ _ _ _ S1 S2) as (t1' & S1' & S2').
    rewrite S1'. cbn [result_bind]. rewrite aggregate_entry_step, C1.
    rewrite lookup_insert_eq, S2'. cbn [result_bind].
    by rewrite !insert_insert_eq.
  - rewrite lookup_insert_ne in S2 by done.
    rewrite S2. cbn [result_bind]. rewrite aggregate_entry_step, C1.
    rewrite lookup_insert_ne by done. rewrite S1. cbn [result_bind].
    f_equal. by apply insert_insert_ne.
Qed.

Lemma aggregate_permutation rows rows' :
  rows ≡ₚ rows' ->
  forall data m, aggregate data rows = Ok m -> aggregate data rows' = Ok m.
Proof.
  induction 1 as [|r l l' _ IH|r2 r1 l|l1 l2 l3 _ IH1 _ IH2]; intros data m H.
  - done.
  - cbn [aggregate] in *. apply result_bind_Ok in H as (d & H1 & H2).
    rewrite H1. cbn [result_bind]. by apply IH.
  - cbn [aggregate] in *.
    apply result_bind_Ok in H as (d1 & H1 & H2).
    apply result_bind_Ok in H2 as (d2 & H2 & H3).
    assert (Hs : result_bind (aggregate_entry data r1) (fun d => aggregate_entry d r2) = Ok d2).
    { rewrite H1. done. }
    apply aggregate_entry_swap in Hs. apply result_bind_Ok in Hs as (d1' & H1' & H2').
    rewrite H1'. cbn [result_bind]. rewrite H2'. done.
  - by apply IH2, IH1.
Qed.

Lemma tally_add_assoc a b c :
  tally_add (tally_add a b) c = tally_add a (tally_add b c).
Proof.
  unfold tally_add. revert b c.
  induction a as [|x a IH]; intros [|y b] [|z c]; cbn; try done.
  f_equal; [lia | apply IH].
Qed.

Lemma tally_add_length a b :
  length (tally_add a b) = (length a `min` length b)%nat.
Proof. apply length_zip_with. Qed.

Lemma tally_add_zero t : length t = 4%nat -> tally_add t [0; 0; 0; 0] = t.
Proof.
  destruct t as [|a0 [|a1 [|a2 [|a3 [|]]]]]; try discriminate. intros _.
  cbn. by rewrite !Z.add_0_r.
Qed.

Lemma entry_values_length entry vs : entry_values entry = Some vs -> length vs = 4%nat.
Proof.
  unfold entry_values. intros H.
  destruct (field_int entry 7); [|discriminate]; cbn in H.
  destruct (field_int entry 8); [|discriminate]; cbn in H.
  destruct (field_int entry 9); [|discriminate]; cbn in H.
  destruct (field_int entry 10); [|discriminate]; cbn in H.
  by injection H as <-.
Qed.

Lemma entry_values_country entry vs :
  entry_values entry = Some vs -> is_Some (row_country entry).
Proof.
  unfold entry_values, field_int, row_country. intros H.
  destruct_entry entry; cbn in H; try discriminate H; cbn; eauto.
Qed.

Lemma country_sum_length c rows :
  Forall row_ok rows -> length (country_sum c rows) = 4%nat.
Proof.
  unfold country_sum, country_rows. induction 1 as [|r rows [vs Hr] _ IH]; [done|].
  rewrite filter_cons. case_decide; [|done]. cbn [foldr].
  rewrite Hr, tally_add_length, IH.
  rewrite (entry_values_length _ _ Hr). done.
Qed.

Lemma aggregate_sums rows :
  Forall row_ok rows ->
  forall data : gmap string (list Z),
    (forall c t, data !! c = Some t -> length t = 4%nat) ->
    exists m, aggregate data rows = Ok m /\
      forall c, m !! c =
        match data !! c with
        | Some t => Some (tally_add t (country_sum c rows))
        | None => if decide (country_rows c rows = []) then None
                  else Some (country_sum c rows)
        end.
Proof.
  induction 1 as [|r rows [vs Hr] Hrows IH]; intros data Hlen.
  - exists data. split; [done|]. intros c.
    destruct (data !! c) as [t|] eqn:E; [|done].
    cbn. by rewrite tally_add_zero by eauto.
  - cbn [aggregate]. rewrite aggregate_entry_step.
    destruct (entry_values_country _ _ Hr) as [cr Hc].
    assert (Hn : normalise_entry r !! 3%nat = Some cr)
      by (rewrite normalise_entry_lookup; exact Hc).
    rewrite Hn.
    assert (Hstep : exists t1, entry_step r (data !! cr) = Ok t1 /\ length t1 = 4%nat /\
              t1 = match data !! cr with Some t => tally_add t vs | None => vs end).
    { destruct (data !! cr) as [t|] eqn:E; cbn [entry_step].
      - pose proof (Hlen _ _ E) as Ht. pose proof (entry_values_length _ _ Hr) as Hv.
        destruct t as [|a0 [|a1 [|a2 [|a3 [|]]]]]; try discriminate.
        destruct vs as [|v0 [|v1 [|v2 [|v3 [|]]]]]; try discriminate.
        eexists. split; [apply add_fields_Ok; eauto 15|]. done.
      - exists vs. split; [by apply map_int_slice_of_values|].
        split; [by eapply entry_values_length | done]. }
    destruct Hstep as (t1 & Hs & Hl1 & Ht1). rewrite Hs. cbn [result_bind].
    destruct (IH (<[cr := t1]> data)) as (m & Hm & Hlk).
    { intros c t. rewrite lookup_insert. case_decide; [congruence | eauto]. }
    exists m. split; [exact Hm|]. intros c. rewrite Hlk, lookup_insert.
    unfold country_sum, country_rows. rewrite filter_cons.
    destruct (decide (cr = c)) as [<- | Hne].
    + rewrite (decide_True (P := row_country r = Some cr)) by done.
      cbn [foldr]. rewrite Hr.
      fold (country_rows cr rows). fold (country_sum cr rows).
      destruct (data !! cr) as [t|]; subst t1.
      * by rewrite tally_add_assoc.
      * by rewrite decide_False.
    + rewrite (decide_False (P := row_country r = Some c)) by congruence. done.
Qed.

(** * The cache directory *)

Lemma raw_files_lookup w name text :
  raw_files w !! name = Some text <-> files w !! name = Some (Report text).
Proof.
  unfold raw_files. rewrite lookup_omap.
  destruct (files w !! name) as [[t|d]|]; cbn; split; congruence.
Qed.

Lemma derived_files_lookup w name data :
  derived_files w !! name = Some data <-> files w !! name = Some (Aggregate data).
Proof.
  unfold derived_files. rewrite lookup_omap.
  destruct (files w !! name) as [[t|d]|]; cbn; split; congruence.
Qed.

Lemma files_lookup_None w name :
  files w !! name = None ->
  raw_files w !! name = None /\ derived_files w !! name = None.
Proof.
  intros H. unfold raw_files, derived_files. by rewrite !lookup_omap, H.
Qed.

Lemma files_write_file name c w name' :
  files (write_file name c w) !! name'
  = if decide (name = name') then Some c else files w !! name'.
Proof. apply lookup_insert. Qed.

Lemma raw_files_write_report name text w :
  raw_files (write_file name (Report text) w) = <[name := text]> (raw_files w).
Proof. unfold raw_files. cbn. by apply omap_insert_Some. Qed.

Lemma derived_files_write_report name text w :
  derived_files (write_file name (Report text) w) = delete name (derived_files w).
Proof. unfold derived_files. cbn. by apply omap_insert_None. Qed.

Lemma raw_files_write_aggregate name data w :
  raw_files (write_file name (Aggregate data) w) = delete name (raw_files w).
Proof. unfold raw_files. cbn. by apply omap_insert_None. Qed.

Lemma derived_files_write_aggregate name data w :
  derived_files (write_file name (Aggregate data) w)
  = <[name := data]> (derived_files w).
Proof. unfold derived_files. cbn. by apply omap_insert_Some. Qed.

(** A file is a report or an aggregate: the two kinds make up the
    directory. *)
Lemma files_kinds w name :
  files w !! name
  = match raw_files w !! name with
    | Some text => Some (Report text)
    | None => Aggregate <$> derived_files w !! name
    end.
Proof.
  unfold raw_files, derived_files. rewrite !lookup_omap.
  by destruct (files w !! name) as [[t|d]|].
Qed.

Lemma set_derived_files_insert name data w :
  set_derived_files (<[name := data]> (derived_files w)) w
  = write_file name (Aggregate data) w.
Proof.
  unfold set_derived_files, write_file. f_equal. apply map_eq. intros k.
  rewrite lookup_union, !lookup_fmap, !lookup_insert, (files_kinds w k).
  destruct (decide (name = k)) as [-> | Hne].
  - cbn. by destruct (raw_files w !! k).
  - destruct (raw_files w !! k) as [text|] eqn:Hraw; cbn.
    + apply raw_files_lookup in Hraw.
      destruct (derived_files w !! k) as [d|] eqn:Hder; [|done].
      apply derived_files_lookup in Hder. congruence.
    + by destruct (derived_files w !! k).
Qed.

Lemma set_raw_files_insert name text w :
  set_raw_files (<[name := text]> (raw_files w)) w
  = write_file name (Report text) w.
Proof.
  unfold set_raw_files, write_file. f_equal. apply map_eq. intros k.
  rewrite lookup_union, !lookup_fmap, !lookup_insert, (files_kinds w k).
  destruct (decide (name = k)) as [-> | Hne].
  - cbn. by destruct (derived_files w !! k).
  - destruct (raw_files w !! k) as [t|] eqn:Hraw; cbn.
    + apply raw_files_lookup in Hraw.
      destruct (derived_files w !! k) as [d|] eqn:Hder; [|done].
      apply derived_files_lookup in Hder. congruence.
    + by destruct (derived_files w !! k).
Qed.

(** The caches of [w] are kept in [w'] when the files of [w] are. *)
Lemma cache_le_files w w' : cache_le w w' <-> files w ⊆ files w'.
Proof.
  unfold cache_le. rewrite !map_subseteq_spec. split.
  - intros [Hraw Hder] k [text|data] Hk.
    + by apply raw_files_lookup, Hraw, raw_files_lookup.
    + by apply derived_files_lookup, Hder, derived_files_lookup.
  - intros Hfiles. split; intros k x Hk.
    + by apply raw_files_lookup, Hfiles, raw_files_lookup.
    + by apply derived_files_lookup, Hfiles, derived_files_lookup.
Qed.

Lemma cache_le_refl w : cache_le w w.
Proof. by split. Qed.

Lemma cache_le_trans w1 w2 w3 : cache_le w1 w2 -> cache_le w2 w3 -> cache_le w1 w3.
Proof. intros [? ?] [? ?]. split; by etrans. Qed.

(** ** Text files *)

Lemma string_app_assoc (s1 s2 s3 : string) :
  (s1 +:+ s2) +:+ s3 = s1 +:+ (s2 +:+ s3).
Proof.
  induction s1 as [|a s1 IH]; [done|].
  change (String a ((s1 +:+ s2) +:+ s3) = String a (s1 +:+ (s2 +:+ s3))).
  by rewrite IH.
Qed.

Lemma join_readlines_from line text :
  join (readlines_from line text) = line +:+ text.
Proof.
  revert line. induction text as [|a text IH]; intros line; cbn [readlines_from].
  - destruct (String.eqb_spec line "") as [-> | _]; [done|].
    cbn. done.
  - destruct (Ascii.eqb a "010").
    + cbn [join fold_right]. fold (join (readlines_from "" text)).
      rewrite IH, string_app_assoc. done.
    + rewrite IH, string_app_assoc. done.
Qed.

(** The lines that are read back make up the text as text mode reads it. *)
Lemma join_readlines text : join (readlines text) = translate_newlines text.
Proof. apply join_readlines_from. Qed.

Lemma translate_newlines_step a text :
  translate_newlines (String a text)
  = if Ascii.eqb a "013"
    then String "010"
           (translate_newlines
              match text with
              | String b text' => if Ascii.eqb b "010" then text' else text
              | EmptyString => text
              end)
    else String a (translate_newlines text).
Proof.
  destruct a as [[] [] [] [] [] [] [] []]; try reflexivity.
  destruct text as [|b text]; [reflexivity|].
  destruct b as [[] [] [] [] [] [] [] []]; reflexivity.
Qed.

(** What has been read in text mode is read again as it is. *)
Lemma translate_newlines_idem text :
  translate_newlines (translate_newlines text) = translate_newlines text.
Proof.
  assert (H : forall n text, (String.length text <= n)%nat ->
            translate_newlines (translate_newlines text) = translate_newlines text).
  { clear text. induction n as [|n IH]; intros [|a text] Hlen; try done;
      [cbn in Hlen; lia|].
    rewrite (translate_newlines_step a text).
    destruct (Ascii.eqb a "013") eqn:Ea.
    - rewrite (translate_newlines_step "010"). cbn [Ascii.eqb Bool.eqb].
      f_equal. apply IH. destruct text as [|b text]; [cbn in *; lia|].
      destruct (Ascii.eqb b "010"); cbn in *; lia.
    - rewrite (translate_newlines_step a), Ea. f_equal. apply IH.
      cbn in Hlen. lia. }
  by apply (H (String.length text)).
Qed.

Lemma readlines_join_readlines text :
  readlines (join (readlines text)) = readlines text.
Proof.
  unfold readlines at 1 3. by rewrite join_readlines, translate_newlines_idem.
Qed.

Lemma readlines_plain text :
  plain_newlines text -> join (readlines text) = text.
Proof. intros H. by rewrite join_readlines. Qed.

(** * The aggregator *)

(** Two rows for country X with tallies (1,2,3,4) and (5,0,0,1) give X the
    tally (6,2,3,5). *)
Example extract_two_rows_X :
  let report := [sample_header; sample_row "North" "X" "1" "2" "3" "4";
                 sample_row "South" "X" "5" "0" "0" "1"] in
  exists m,
    (extract_source_data sample_json_loads report None false empty_world).1.1
    = Ok m
    /\ m !! "X" = Some [6; 2; 3; 5] /\ dom m = {[ "X" ]}.
Proof. eexists. split; [vm_compute; reflexivity|]. split; vm_compute; reflexivity. Qed.

(** An empty numeric field counts as 0 and raises nothing. *)
Example extract_empty_field :
  let report := [sample_header; sample_row "North" "X" "1" "" "3" "";
                 sample_row "" "Y" "" "" "" ""] in
  exists m,
    (extract_source_data sample_json_loads report None false empty_world).1.1
    = Ok m
    /\ m !! "X" = Some [1; 0; 3; 0] /\ m !! "Y" = Some [0; 0; 0; 0].
Proof. eexists. split; [vm_compute; reflexivity|]. split; vm_compute; reflexivity. Qed.

Section Aggregator.
Context (json_loads : string -> result (gmap string (list Z))).

Local Abbreviation extract_source_data := (extract_source_data json_loads).
Local Abbreviation derived_cache_hit := (derived_cache_hit json_loads).

(** C1, as the code has it: when [extract_source_data] aggregates (no
    derived cache entry is returned) a report whose data rows have integers,
    or nothing, at offsets 7 to 10, it returns a mapping whose keys are the
    countries of the rows, each with the field-wise sum of the four integers
    of the rows of that country, an empty field counting as 0; every tally
    has four fields.  The country of a row is its field 3 as the loop reads
    every field: an empty one reads "0". *)
Theorem extract_source_data_sums header rows cache_file force w :
  Forall row_ok rows ->
  derived_cache_hit cache_file force w = None ->
  exists m, (extract_source_data (header :: rows) cache_file force w).1.1 = Ok m
    /\ (forall country,
          m !! country =
          if decide (country_rows country rows = []) then None
          else Some (country_sum country rows))
    /\ (forall country tally, m !! country = Some tally -> length tally = 4%nat).
Proof.
  intros Hrows Hmiss.
  destruct (aggregate_sums rows Hrows ∅) as (m & Hm & Hlk).
  { intros c t. by rewrite lookup_empty. }
  assert (Hsum : forall country,
             m !! country =
             if decide (country_rows country rows = []) then None
             else Some (country_sum country rows)).
  { intros country. rewrite Hlk, lookup_empty. done. }
  exists m. split; [|split; [exact Hsum|]].
  - unfold extract_source_data. rewrite Hmiss, Hm. done.
  - intros country tally. rewrite Hsum. case_decide; [discriminate|].
    intros [= <-]. by apply country_sum_length.
Qed.

(** C7: permuting the data rows of a report, the header staying first, does
    not change what [extract_source_data] returns: the same mapping, and the
    same cache afterwards. *)
Theorem extract_source_data_permutation header rows rows' cache_file force w m w' :
  rows ≡ₚ rows' ->
  extract_source_data (header :: rows) cache_file force w = (Ok m, rows, w') ->
  extract_source_data (header :: rows') cache_file force w = (Ok m, rows', w').
Proof.
  intros Hperm. unfold extract_source_data.
  destruct (derived_cache_hit cache_file force w) as [loaded|].
  - intros [= <- <-]. done.
  - destruct (aggregate ∅ rows) as [data|e] eqn:Hagg; [|discriminate].
    intros [= <- <-].
    by rewrite (aggregate_permutation _ _ Hperm _ _ Hagg).
Qed.

(** C10: [extract_source_data] removes the first element of the caller's
    non-empty list on every call, before the derived cache is looked at: also
    a call that returns a cached aggregate removes it, and a second call on
    the same list removes the first data row, which is then not counted. *)
Theorem extract_source_data_pops_header :
  (forall header rows cache_file force w,
      (extract_source_data (header :: rows) cache_file force w).1.2 = rows)
  /\ (forall header rows f data w,
         let w1 := set_derived_files (<[f := data]> (derived_files w)) w in
         extract_source_data (header :: rows) (Some f) false w1 = (Ok data, rows, w1))
  /\ (forall header row rows cache_file force w,
         let '(_, after_first, w1) :=
           extract_source_data (header :: row :: rows) cache_file force w in
         after_first = row :: rows
         /\ forall cache_file' force',
             (extract_source_data after_first cache_file' force' w1).1.2 = rows
             /\ (derived_cache_hit cache_file' force' w1 = None ->
                 (extract_source_data after_first cache_file' force' w1).1.1
                 = aggregate ∅ rows)).
Proof.
  split; [|split].
  - intros. unfold extract_source_data.
    destruct (derived_cache_hit _ _ _); [done|]. by destruct (aggregate _ _).
  - intros. unfold w1. rewrite set_derived_files_insert.
    unfold extract_source_data, derived_cache_hit.
    by rewrite files_write_file, decide_True.
  - intros.
    destruct (extract_source_data (header :: row :: rows) cache_file force w)
      as [[r after_first] w1] eqn:E.
    assert (after_first = row :: rows) as ->.
    { unfold extract_source_data in E.
      destruct (derived_cache_hit _ _ _); [by injection E|].
      destruct (aggregate _ _); by injection E. }
    split; [done|]. intros cache_file' force'. unfold extract_source_data. split.
    + destruct (derived_cache_hit _ _ _); [done|]. by destruct (aggregate _ _).
    + intros ->. by destruct (aggregate _ _).
Qed.

End Aggregator.

Lemma extract_source_data_sums_witness :
  let rows := [sample_row "North" "X" "1" "2" "3" "4";
               sample_row "South" "X" "5" "" "" "1"] in
  exists m,
    (extract_source_data sample_json_loads (sample_header :: rows) None false
       empty_world).1.1 = Ok m
    /\ m !! "X" = Some [6; 2; 3; 5] /\ m !! "Y" = None.
Proof.
  intros rows.
  assert (Hrows : Forall row_ok rows).
  { repeat constructor; eexists; vm_compute; reflexivity. }
  destruct (extract_source_data_sums sample_json_loads sample_header rows None
              false empty_world Hrows eq_refl) as (m & Hm & Hlk & _).
  exists m. split; [exact Hm|]. split; rewrite Hlk; vm_compute; reflexivity.
Defined.

(** C1, as stated, fails.  The rows whose field 3 is empty are counted under
    the country "0", not under the empty name; and when the cache file is
    there and [force] is not set, the cached mapping is returned, whatever
    the rows hold. *)
Lemma extract_source_data_empty_country :
  let rows := [sample_row "" "" "9" "1" "2" "3"] in
  let cached : gmap string (list Z) := {["Y" := [1; 1; 1; 1]]} in
  let w := write_file "extracted-12-02-2020.json" (Aggregate cached) empty_world in
  (exists data,
      (extract_source_data sample_json_loads (sample_header :: rows) None false
         empty_world).1.1 = Ok data
      /\ named_rows "" rows = rows
      /\ data !! "" = None
      /\ data !! "0" = Some [9; 1; 2; 3]
      /\ ~ (forall country,
               named_rows country rows <> [] -> is_Some (data !! country)))
  /\ (extract_source_data sample_json_loads (sample_header :: rows)
        (Some "extracted-12-02-2020.json") false w).1.1 = Ok cached.
Proof.
  intros rows cached w. split; [|vm_compute; reflexivity].
  eexists. split; [vm_compute; reflexivity|].
  split; [vm_compute; reflexivity|]. split; [vm_compute; reflexivity|].
  split; [vm_compute; reflexivity|].
  intros H. destruct (H "") as [tally Htally]; [discriminate|].
  vm_compute in Htally. discriminate Htally.
Qed.

Lemma extract_source_data_permutation_witness :
  let r1 := sample_row "North" "X" "1" "2" "3" "4" in
  let r2 := sample_row "" "Y" "7" "" "" "7" in
  let r3 := sample_row "South" "X" "5" "0" "0" "1" in
  let f := "extracted-12-03-2020.json" in
  let m : gmap string (list Z) := <["X" := [6; 2; 3; 5]]> {["Y" := [7; 0; 0; 7]]} in
  let w' := set_derived_files {[f := m]} empty_world in
  extract_source_data sample_json_loads [sample_header; r1; r2; r3] (Some f)
    false empty_world
  = (Ok m, [r1; r2; r3], w')
  /\ extract_source_data sample_json_loads [sample_header; r3; r1; r2] (Some f)
       false empty_world
     = (Ok m, [r3; r1; r2], w').
Proof.
  intros r1 r2 r3 f m w'.
  assert (Hperm : [r1; r2; r3] ≡ₚ [r3; r1; r2]).
  { change [r3; r1; r2] with ([r3] ++ [r1; r2])%list.
    change [r1; r2; r3] with ([r1; r2] ++ [r3])%list. apply Permutation_app_comm. }
  assert (H1 : extract_source_data sample_json_loads [sample_header; r1; r2; r3]
                 (Some f) false empty_world = (Ok m, [r1; r2; r3], w')).
  { vm_compute. reflexivity. }
  split; [exact H1|].
  exact (extract_source_data_permutation _ _ _ _ _ _ _ _ _ Hperm H1).
Defined.

(** * The calendar *)

Lemma days_before_year_split n400 n100 n4 n1 :
  0 <= n100 <= 3 -> 0 <= n4 <= 24 -> 0 <= n1 <= 3 ->
  days_before_year (n400 * 400 + 1 + n100 * 100 + n4 * 4 + n1)
  = 146097 * n400 + 36524 * n100 + 1461 * n4 + 365 * n1.
Proof. intros. unfold days_before_year. Z.div_mod_to_equations. lia. Qed.

Lemma is_leap_split n400 n100 n4 n1 :
  0 <= n100 <= 3 -> 0 <= n4 <= 24 -> 0 <= n1 <= 3 ->
  is_leap (n400 * 400 + 1 + n100 * 100 + n4 * 4 + n1)
  = ((n1 =? 3) && (negb (n4 =? 24) || (n100 =? 3)))%bool.
Proof.
  intros. unfold is_leap.
  set (y := n400 * 400 + 1 + n100 * 100 + n4 * 4 + n1).
  assert (H4 : y mod 4 = (n1 + 1) mod 4)
    by (unfold y; Z.div_mod_to_equations; lia).
  assert (H100 : y mod 100 = (4 * n4 + n1 + 1) mod 100)
    by (unfold y; Z.div_mod_to_equations; lia).
  assert (H400 : y mod 400 = (100 * n100 + 4 * n4 + n1 + 1) mod 400)
    by (unfold y; Z.div_mod_to_equations; lia).
  rewrite H4, H100, H400.
  destruct (Z.eqb_spec n1 3), (Z.eqb_spec n4 24), (Z.eqb_spec n100 3);
    subst; simpl;
    repeat match goal with
      | |- context [?a mod ?b =? 0] => destruct (Z.eqb_spec (a mod b) 0)
      end; simpl; try reflexivity; exfalso; Z.div_mod_to_equations; lia.
Qed.

(** The month and day that [ord2ymd] finds for day [r] of a year. *)
Lemma month_day_split (leap : bool) (r : Z) :
  0 <= r < 365 ->
  let month := (r + 50) / 32 in
  let preceding :=
    days_before_month_table month
    + (if ((2 <? month) && leap)%bool then 1 else 0) in
  let '(m, d) :=
    if r <? preceding then
      (month - 1,
       r - (preceding - (days_in_month_table (month - 1)
                         + (if ((month - 1 =? 2) && leap)%bool then 1 else 0))) + 1)
    else (month, r - preceding + 1) in
  1 <= m <= 12 /\ 1 <= d <= 31 /\
  d <= (if ((m =? 2) && leap)%bool then 29 else days_in_month_table m) /\
  days_before_month_table m + (if ((2 <? m) && leap)%bool then 1 else 0) + d
  = r + 1.
Proof.
  intros Hr. cbv zeta.
  assert (Hm : 1 <= (r + 50) / 32 <= 12) by (Z.div_mod_to_equations; lia).
  assert (Hb : 32 * ((r + 50) / 32) <= r + 50 < 32 * ((r + 50) / 32) + 32)
    by (Z.div_mod_to_equations; lia).
  set (month := (r + 50) / 32) in *. clearbody month.
  assert (Hc : month = 1 \/ month = 2 \/ month = 3 \/ month = 4 \/ month = 5
               \/ month = 6 \/ month = 7 \/ month = 8 \/ month = 9
               \/ month = 10 \/ month = 11 \/ month = 12) by lia.
  destruct leap;
    repeat (destruct Hc as [-> | Hc]); try subst month; simpl;
    match goal with |- context [?a <? ?b] => destruct (Z.ltb_spec a b) end;
    simpl; lia.
Qed.

(** [ord2ymd] gives a date of the calendar, whose ordinal is the one given. *)
Lemma ymd2ord_ord2ymd n :
  1 <= n ->
  let '(y, m, d) := ord2ymd n in
  ymd2ord y m d = n /\ 1 <= m <= 12 /\ 1 <= d <= 31 /\ 1 <= y
  /\ d <= days_in_month y m.
Proof.
  intros Hn. unfold ord2ymd.
  set (a := n - 1).
  set (n400 := a / 146097). set (r400 := a mod 146097).
  set (n100 := r400 / 36524). set (r100 := r400 mod 36524).
  set (n4 := r100 / 1461). set (r4 := r100 mod 1461).
  set (n1 := r4 / 365). set (r1 := r4 mod 365).
  assert (H400 : a = 146097 * n400 + r400 /\ 0 <= r400 < 146097)
    by (unfold n400, r400; split;
        [apply Z.div_mod; lia | apply Z.mod_pos_bound; lia]).
  assert (H100 : r400 = 36524 * n100 + r100 /\ 0 <= r100 < 36524)
    by (unfold n100, r100; split;
        [apply Z.div_mod; lia | apply Z.mod_pos_bound; lia]).
  assert (H4 : r100 = 1461 * n4 + r4 /\ 0 <= r4 < 1461)
    by (unfold n4, r4; split;
        [apply Z.div_mod; lia | apply Z.mod_pos_bound; lia]).
  assert (H1 : r4 = 365 * n1 + r1 /\ 0 <= r1 < 365)
    by (unfold n1, r1; split;
        [apply Z.div_mod; lia | apply Z.mod_pos_bound; lia]).
  assert (0 <= n400) by (unfold n400; apply Z.div_pos; lia).
  assert (0 <= n100 <= 4) by lia.
  assert (0 <= n4 <= 24) by lia.
  assert (0 <= n1 <= 4) by lia.
  clearbody n400 r400 n100 r100 n4 r4 n1 r1.
  destruct ((n1 =? 4) || (n100 =? 4))%bool eqn:E.
  - assert (Hy : ymd2ord (n400 * 400 + 1 + n100 * 100 + n4 * 4 + n1 - 1) 12 31 = n).
    { unfold ymd2ord, days_before_month, days_before_year, is_leap.
      apply orb_true_iff in E as [E | E]; apply Z.eqb_eq in E; subst.
      - assert (n100 <= 3 \/ n100 = 4) as [Hle | ->] by lia; [|exfalso; lia].
        replace ((n400 * 400 + 1 + n100 * 100 + n4 * 4 + 4 - 1) mod 4) with 0
          by (Z.div_mod_to_equations; lia).
        assert (n4 <> 24) by lia.
        destruct (Z.eqb_spec
                    ((n400 * 400 + 1 + n100 * 100 + n4 * 4 + 4 - 1) mod 100) 0);
          [exfalso; Z.div_mod_to_equations; lia|].
        simpl. Z.div_mod_to_equations. lia.
      - assert (n4 = 0 /\ n1 = 0) as [-> ->] by lia.
        replace ((n400 * 400 + 1 + 4 * 100 + 0 * 4 + 0 - 1) mod 4) with 0
          by (Z.div_mod_to_equations; lia).
        replace ((n400 * 400 + 1 + 4 * 100 + 0 * 4 + 0 - 1) mod 400) with 0
          by (Z.div_mod_to_equations; lia).
        rewrite orb_true_r. simpl. Z.div_mod_to_equations. lia. }
    split; [exact Hy|]. unfold days_in_month. cbn. lia.
  - apply orb_false_iff in E as [E1 E2]. apply Z.eqb_neq in E1, E2.
    pose proof (month_day_split
                  ((n1 =? 3) && (negb (n4 =? 24) || (n100 =? 3)))%bool r1
                  ltac:(lia)) as Hmd.
    cbv zeta in Hmd.
    destruct (r1 <? _) eqn:Elt; destruct Hmd as (Hm & Hd & Hdim & Hsum);
      unfold ymd2ord, days_before_month, days_in_month;
      rewrite days_before_year_split, is_leap_split by lia; lia.
Qed.


Lemma digit_char_inj a b :
  digit_char a = digit_char b -> a mod 10 = b mod 10.
Proof.
  unfold digit_char. intros H.
  apply (f_equal nat_of_ascii) in H.
  rewrite !nat_ascii_embedding in H
    by (pose proof (Z.mod_pos_bound a 10); pose proof (Z.mod_pos_bound b 10); lia).
  pose proof (Z.mod_pos_bound a 10). pose proof (Z.mod_pos_bound b 10). lia.
Qed.

Lemma pad2_inj a b : 0 <= a <= 99 -> 0 <= b <= 99 -> pad2 a = pad2 b -> a = b.
Proof.
  unfold pad2. intros Ha Hb [= H1 H2].
  apply digit_char_inj in H1, H2. Z.div_mod_to_equations. lia.
Qed.


Lemma days_before_year_succ y :
  days_before_year (y + 1)
  = days_before_year y + 365 + (if is_leap y then 1 else 0).
Proof.
  unfold days_before_year, is_leap.
  replace (y + 1 - 1) with y by lia.
  destruct (Z.eqb_spec (y mod 4) 0), (Z.eqb_spec (y mod 100) 0),
    (Z.eqb_spec (y mod 400) 0); cbn; Z.div_mod_to_equations; lia.
Qed.

Lemma days_before_year_mono y y' :
  y <= y' -> days_before_year y <= days_before_year y'.
Proof. unfold days_before_year. intros. Z.div_mod_to_equations. lia. Qed.

Lemma month_cases m :
  1 <= m <= 12 ->
  m = 1 \/ m = 2 \/ m = 3 \/ m = 4 \/ m = 5 \/ m = 6 \/ m = 7 \/ m = 8
  \/ m = 9 \/ m = 10 \/ m = 11 \/ m = 12.
Proof. lia. Qed.

(** The day of the year of a date of the calendar. *)
Lemma day_of_year_bound y m d :
  1 <= m <= 12 -> 1 <= d <= days_in_month y m ->
  1 <= days_before_month y m + d <= 365 + (if is_leap y then 1 else 0).
Proof.
  intros Hm Hd. unfold days_before_month, days_in_month in *.
  apply month_cases in Hm.
  destruct (is_leap y);
    repeat (destruct Hm as [-> | Hm]); try subst m; cbn in *; lia.
Qed.

Lemma day_of_year_inj y m d m' d' :
  1 <= m <= 12 -> 1 <= d <= days_in_month y m ->
  1 <= m' <= 12 -> 1 <= d' <= days_in_month y m' ->
  days_before_month y m + d = days_before_month y m' + d' ->
  m = m' /\ d = d'.
Proof.
  intros Hm Hd Hm' Hd'. unfold days_before_month, days_in_month in *.
  apply month_cases in Hm, Hm'.
  destruct (is_leap y);
    repeat (destruct Hm as [-> | Hm]); try subst m;
    repeat (destruct Hm' as [-> | Hm']); try subst m'; cbn in *; lia.
Qed.

Lemma ymd2ord_inj y m d y' m' d' :
  1 <= m <= 12 -> 1 <= d <= days_in_month y m ->
  1 <= m' <= 12 -> 1 <= d' <= days_in_month y' m' ->
  ymd2ord y m d = ymd2ord y' m' d' -> y = y' /\ m = m' /\ d = d'.
Proof.
  intros Hm Hd Hm' Hd' Heq. unfold ymd2ord in Heq.
  pose proof (day_of_year_bound y m d Hm Hd) as Hb.
  pose proof (day_of_year_bound y' m' d' Hm' Hd') as Hb'.
  pose proof (days_before_year_succ y) as Hs.
  pose proof (days_before_year_succ y') as Hs'.
  destruct (Z.lt_trichotomy y y') as [Hlt | [<- | Hgt]].
  - pose proof (days_before_year_mono (y + 1) y' ltac:(lia)). lia.
  - split; [done|]. eapply day_of_year_inj; eauto. lia.
  - pose proof (days_before_year_mono (y' + 1) y ltac:(lia)). lia.
Qed.

(** [ord2ymd] undoes [ymd2ord] on the dates of the calendar. *)
Lemma ord2ymd_ymd2ord y m d :
  1 <= y -> 1 <= m <= 12 -> 1 <= d <= days_in_month y m ->
  ord2ymd (ymd2ord y m d) = (y, m, d).
Proof.
  intros Hy Hm Hd.
  assert (Hn : 1 <= ymd2ord y m d).
  { pose proof (day_of_year_bound y m d Hm Hd).
    pose proof (days_before_year_mono 1 y Hy).
    unfold ymd2ord. change (days_before_year 1) with 0 in *. lia. }
  pose proof (ymd2ord_ord2ymd _ Hn) as H.
  destruct (ord2ymd (ymd2ord y m d)) as [[y' m'] d'].
  destruct H as (Heq & Hm' & Hd' & Hy' & Hdim).
  apply ymd2ord_inj in Heq as (-> & -> & ->); [done | lia..].
Qed.

Lemma ordinal_of_datetime_of y m d :
  ordinal_of (datetime_of y m d) = ymd2ord y m d.
Proof.
  unfold ordinal_of, datetime_of, day_us. Z.div_mod_to_equations. lia.
Qed.

Lemma digit_char_digit n :
  is_digit (digit_char n) = true /\ digit_value (digit_char n) = n mod 10.
Proof.
  unfold is_digit, digit_value, digit_char.
  pose proof (Z.mod_pos_bound n 10 ltac:(lia)) as Hb.
  rewrite nat_ascii_embedding by lia. split.
  - apply andb_true_iff. split; apply Nat.leb_le; lia.
  - lia.
Qed.

Lemma two_digits_pad n :
  0 <= n <= 99 ->
  two_digits (digit_char (n / 10)) (digit_char n) = Some n.
Proof.
  intros Hn. unfold two_digits.
  destruct (digit_char_digit (n / 10)) as [-> ->].
  destruct (digit_char_digit n) as [-> ->]. cbn. f_equal.
  Z.div_mod_to_equations. lia.
Qed.

Lemma parse_numeric_date_pad a b c :
  0 <= a <= 99 -> 0 <= b <= 99 -> 1000 <= c <= 9999 ->
  parse_numeric_date (pad2 a +:+ "-" +:+ pad2 b +:+ "-" +:+ pad4 c)
  = Some (let '(year, month, day) := resolve_ymd_dayfirst a b c in
          make_datetime year month day).
Proof.
  intros Ha Hb Hc.
  cbv [parse_numeric_date pad2 pad4 String.append].
  rewrite (two_digits_pad a Ha), (two_digits_pad b Hb).
  replace (digit_char (c / 10)) with (digit_char ((c mod 100) / 10)).
  2:{ unfold digit_char. do 3 f_equal. Z.div_mod_to_equations. lia. }
  replace (digit_char c) with (digit_char (c mod 100)).
  2:{ unfold digit_char. do 3 f_equal. Z.div_mod_to_equations. lia. }
  replace (digit_char (c / 1000)) with (digit_char ((c / 100) / 10)).
  2:{ unfold digit_char. do 3 f_equal. Z.div_mod_to_equations. lia. }
  rewrite (two_digits_pad (c / 100)) by (Z.div_mod_to_equations; lia).
  rewrite (two_digits_pad (c mod 100)) by (Z.div_mod_to_equations; lia).
  replace (100 * (c / 100) + c mod 100) with c by (Z.div_mod_to_equations; lia).
  rewrite (proj2 (Z.leb_le 1000 c)) by lia.
  by destruct (resolve_ymd_dayfirst a b c) as [[year month] day].
Qed.

(** * Date normalisation *)

Lemma days_in_month_ge_28 y m : 1 <= m <= 12 -> 28 <= days_in_month y m.
Proof.
  intros Hm. unfold days_in_month. apply month_cases in Hm.
  destruct (is_leap y); repeat (destruct Hm as [-> | Hm]); try subst m; cbn; lia.
Qed.

Lemma make_datetime_valid y m d :
  1 <= y <= 9999 -> 1 <= m <= 12 -> 1 <= d <= days_in_month y m ->
  make_datetime y m d = Ok (datetime_of y m d).
Proof.
  intros Hy Hm Hd. unfold make_datetime.
  rewrite (proj2 (Z.leb_le 1 y)), (proj2 (Z.leb_le y 9999)) by lia.
  rewrite (proj2 (Z.leb_le 1 m)), (proj2 (Z.leb_le m 12)) by lia.
  rewrite (proj2 (Z.leb_le 1 d)), (proj2 (Z.leb_le d _)) by lia. done.
Qed.

Lemma strftime_datetime_of y m d :
  1 <= y -> 1 <= m <= 12 -> 1 <= d <= days_in_month y m ->
  strftime (datetime_of y m d) = pad2 m +:+ "-" +:+ pad2 d +:+ "-" +:+ pad4 y.
Proof.
  intros Hy Hm Hd. unfold strftime.
  by rewrite ordinal_of_datetime_of, ord2ymd_ymd2ord.
Qed.

Section Normalise.
Context (parse : string -> result datetime).

(** On the numeric dates the parser reads as dateutil does. *)
Hypothesis parse_numeric :
  forall s r, parse_numeric_date s = Some r -> parse s = r.

(** C2, as the code has it: the text [MM-DD-YYYY] that [normalise_datetime]
    returns is read day first when it is given back, so a second call
    returns the same text when the day of the month is greater than 12 or
    equal to the month, and the date with day and month exchanged otherwise
    (for a date from the year 1000 on). *)
Theorem normalise_datetime_twice date_string t year month day :
  parse date_string = Ok t ->
  0 <= t ->
  ord2ymd (ordinal_of t) = (year, month, day) ->
  1000 <= year <= 9999 ->
  normalise_datetime parse date_string = Ok (strftime t)
  /\ normalise_datetime parse (strftime t)
     = Ok (if day <=? 12
           then pad2 day +:+ "-" +:+ pad2 month +:+ "-" +:+ pad4 year
           else strftime t)
  /\ (12 < day \/ day = month ->
      normalise_datetime parse (strftime t) = Ok (strftime t))
  /\ (day <= 12 /\ day <> month ->
      normalise_datetime parse (strftime t) <> Ok (strftime t)).
Proof.
  intros Hparse Ht Hymd Hyear.
  assert (Hord : 1 <= ordinal_of t)
    by (unfold ordinal_of, day_us; Z.div_mod_to_equations; lia).
  pose proof (ymd2ord_ord2ymd _ Hord) as Hcal. rewrite Hymd in Hcal.
  destruct Hcal as (Hback & Hm & Hd & Hy & Hdim).
  assert (Htext : strftime t
                  = pad2 month +:+ "-" +:+ pad2 day +:+ "-" +:+ pad4 year)
    by (unfold strftime; by rewrite Hymd).
  assert (Hsecond :
            normalise_datetime parse (strftime t)
            = Ok (if day <=? 12
                  then pad2 day +:+ "-" +:+ pad2 month +:+ "-" +:+ pad4 year
                  else strftime t)).
  { unfold normalise_datetime.
    rewrite (parse_numeric (strftime t)
               (let '(y, m, d) := resolve_ymd_dayfirst month day year in
                make_datetime y m d))
      by (rewrite Htext; apply parse_numeric_date_pad; lia).
    unfold resolve_ymd_dayfirst.
    rewrite (proj2 (Z.ltb_ge 31 month)), (proj2 (Z.ltb_ge 12 month)) by lia.
    cbn [orb]. destruct (Z.leb_spec day 12) as [Hle | Hgt].
    - pose proof (days_in_month_ge_28 year day ltac:(lia)).
      rewrite make_datetime_valid by lia.
      by rewrite strftime_datetime_of by lia.
    - rewrite make_datetime_valid by lia.
      rewrite strftime_datetime_of by lia. by rewrite Htext. }
  split; [|split; [exact Hsecond|split]].
  - unfold normalise_datetime. by rewrite Hparse.
  - intros [Hgt | ->]; rewrite Hsecond.
    + by rewrite (proj2 (Z.leb_gt day 12)) by lia.
    + destruct (month <=? 12); by rewrite ?Htext.
  - intros [Hle Hne]. rewrite Hsecond, (proj2 (Z.leb_le day 12) Hle), Htext.
    intros [= H1 H2 _]. apply Hne.
    apply pad2_inj; [lia | lia | unfold pad2; congruence].
Qed.

End Normalise.

Lemma normalise_datetime_twice_witness :
  normalise_datetime parse_numeric_only "25-12-2020" = Ok "12-25-2020"
  /\ normalise_datetime parse_numeric_only "12-25-2020" = Ok "12-25-2020".
Proof.
  assert (Hnum : forall s r,
             parse_numeric_date s = Some r -> parse_numeric_only s = r).
  { intros s r H. unfold parse_numeric_only. by rewrite H. }
  destruct (normalise_datetime_twice parse_numeric_only Hnum "25-12-2020"
              (datetime_of 2020 12 25) 2020 12 25)
    as (H1 & _ & H3 & _).
  - vm_compute. reflexivity.
  - vm_compute. discriminate.
  - vm_compute. reflexivity.
  - lia.
  - split; [exact H1|]. apply H3. lia.
Defined.

(** C2, as stated, fails: with the day-first reading of dateutil, 3 April
    2021 written [03-04-2021] is normalised to [04-03-2021], and that text
    is normalised to [03-04-2021]. *)
Lemma normalise_datetime_not_idempotent :
  normalise_datetime parse_numeric_only "03-04-2021" = Ok "04-03-2021"
  /\ normalise_datetime parse_numeric_only "04-03-2021" = Ok "03-04-2021"
  /\ ~ (forall date_string normalised,
           normalise_datetime parse_numeric_only date_string = Ok normalised ->
           normalise_datetime parse_numeric_only normalised = Ok normalised).
Proof.
  split; [vm_compute; reflexivity|]. split; [vm_compute; reflexivity|].
  intros H. specialize (H "03-04-2021" "04-03-2021" eq_refl).
  vm_compute in H. discriminate H.
Qed.

(** * Date texts *)

Lemma month_digits_pad m :
  1 <= m <= 12 -> month_digits (digit_char (m / 10)) (digit_char m) = true.
Proof.
  intros Hm. apply month_cases in Hm.
  repeat (destruct Hm as [-> | Hm]); try subst m; reflexivity.
Qed.

Lemma day_digits_pad d :
  1 <= d <= 31 -> day_digits (digit_char (d / 10)) (digit_char d) = true.
Proof.
  intros Hd.
  assert (Hn : exists n : nat, (1 <= n <= 31)%nat /\ d = Z.of_nat n)
    by (exists (Z.to_nat d); lia).
  destruct Hn as (n & Hn & ->).
  do 32 (destruct n as [|n]; [try lia; reflexivity|]). lia.
Qed.

Lemma digit_char_mod n : digit_char (n mod 10) = digit_char n.
Proof. unfold digit_char. by rewrite Z.mod_mod by lia. Qed.

(** The text of a date matches the pattern of the source location exactly
    in the years 2000 to 2099. *)
Lemma strftime_matches t year month day :
  ord2ymd (ordinal_of t) = (year, month, day) ->
  0 <= t -> year <= 9999 ->
  matches_date_pattern (strftime t) = ((2000 <=? year) && (year <=? 2099))%bool.
Proof.
  intros Hymd Ht Hyear.
  assert (Hord : 1 <= ordinal_of t)
    by (unfold ordinal_of, day_us; Z.div_mod_to_equations; lia).
  pose proof (ymd2ord_ord2ymd _ Hord) as Hcal. rewrite Hymd in Hcal.
  destruct Hcal as (_ & Hm & Hd & Hy & _).
  unfold strftime. rewrite Hymd.
  cbv [String.append pad2 pad4 matches_date_pattern].
  rewrite (month_digits_pad month Hm), (day_digits_pad day Hd).
  destruct (digit_char_digit (year / 10)) as [-> _].
  destruct (digit_char_digit year) as [-> _].
  rewrite <- (digit_char_mod (year / 1000)), <- (digit_char_mod (year / 100)).
  assert (Ha : 0 <= (year / 1000) mod 10 <= 9) by (Z.div_mod_to_equations; lia).
  assert (Hb : 0 <= (year / 100) mod 10 <= 9) by (Z.div_mod_to_equations; lia).
  assert (Hab : ((2000 <=? year) && (year <=? 2099))%bool
                = (((year / 1000) mod 10 =? 2) && ((year / 100) mod 10 =? 0))%bool).
  { destruct (Z.leb_spec 2000 year), (Z.leb_spec year 2099),
      (Z.eqb_spec ((year / 1000) mod 10) 2), (Z.eqb_spec ((year / 100) mod 10) 0);
      cbn; try reflexivity; exfalso; Z.div_mod_to_equations; lia. }
  rewrite Hab.
  set (a := (year / 1000) mod 10) in *. set (b := (year / 100) mod 10) in *.
  clearbody a b.
  assert (Hca : a = 0 \/ a = 1 \/ a = 2 \/ a = 3 \/ a = 4 \/ a = 5 \/ a = 6
                \/ a = 7 \/ a = 8 \/ a = 9) by lia.
  assert (Hcb : b = 0 \/ b = 1 \/ b = 2 \/ b = 3 \/ b = 4 \/ b = 5 \/ b = 6
                \/ b = 7 \/ b = 8 \/ b = 9) by lia.
  repeat (destruct Hca as [-> | Hca]); try subst a;
    repeat (destruct Hcb as [-> | Hcb]); try subst b; reflexivity.
Qed.

Lemma ord2ymd_year_le n year month day bound :
  ord2ymd n = (year, month, day) -> 1 <= n ->
  n <= days_before_year (bound + 1) -> year <= bound.
Proof.
  intros Hymd Hn Hle.
  pose proof (ymd2ord_ord2ymd n Hn) as Hcal. rewrite Hymd in Hcal.
  destruct Hcal as (Hback & Hm & Hd & Hy & Hdim).
  pose proof (day_of_year_bound year month day Hm ltac:(lia)) as Hdoy.
  destruct (Z.le_gt_cases year bound) as [|Hgt]; [done|].
  pose proof (days_before_year_mono (bound + 1) year ltac:(lia)).
  unfold ymd2ord in Hback. lia.
Qed.

Lemma ord2ymd_year_ge n year month day bound :
  ord2ymd n = (year, month, day) -> 1 <= n ->
  days_before_year bound < n -> bound <= year.
Proof.
  intros Hymd Hn Hlt.
  pose proof (ymd2ord_ord2ymd n Hn) as Hcal. rewrite Hymd in Hcal.
  destruct Hcal as (Hback & Hm & Hd & Hy & Hdim).
  pose proof (day_of_year_bound year month day Hm ltac:(lia)) as Hdoy.
  pose proof (days_before_year_succ year) as Hsucc.
  destruct (Z.le_gt_cases bound year) as [|Hgt]; [done|].
  pose proof (days_before_year_mono (year + 1) bound ltac:(lia)).
  unfold ymd2ord in Hback. destruct (is_leap year); lia.
Qed.

(** A [datetime] of Python has a year of four digits at most. *)
Lemma datetime_year_bound t year month day :
  ord2ymd (ordinal_of t) = (year, month, day) ->
  0 <= t < datetime_max -> 1 <= year <= 9999.
Proof.
  intros Hymd Ht.
  assert (Hord : 1 <= ordinal_of t <= 3652059)
    by (unfold ordinal_of, datetime_max, day_us in *; Z.div_mod_to_equations; lia).
  split.
  - pose proof (ymd2ord_ord2ymd _ (proj1 Hord)) as Hcal. rewrite Hymd in Hcal. lia.
  - eapply ord2ymd_year_le; [exact Hymd | lia |].
    change (days_before_year (9999 + 1)) with 3652059. lia.
Qed.

Lemma pad4_inj a b :
  0 <= a <= 9999 -> 0 <= b <= 9999 -> pad4 a = pad4 b -> a = b.
Proof.
  unfold pad4. intros Ha Hb [= H1 H2 H3 H4].
  apply digit_char_inj in H1, H2, H3, H4. Z.div_mod_to_equations. lia.
Qed.

(** Two instants with one date text lie on one day. *)
Lemma strftime_inj a b :
  0 <= a < datetime_max -> 0 <= b < datetime_max ->
  strftime a = strftime b -> ordinal_of a = ordinal_of b.
Proof.
  intros Ha Hb Heq.
  assert (Hoa : 1 <= ordinal_of a)
    by (unfold ordinal_of, day_us; Z.div_mod_to_equations; lia).
  assert (Hob : 1 <= ordinal_of b)
    by (unfold ordinal_of, day_us; Z.div_mod_to_equations; lia).
  pose proof (ymd2ord_ord2ymd _ Hoa) as Hca.
  pose proof (ymd2ord_ord2ymd _ Hob) as Hcb.
  pose proof (fun y m d => datetime_year_bound a y m d) as Hya.
  pose proof (fun y m d => datetime_year_bound b y m d) as Hyb.
  unfold strftime in Heq.
  destruct (ord2ymd (ordinal_of a)) as [[y m] d].
  destruct (ord2ymd (ordinal_of b)) as [[y' m'] d'].
  specialize (Hya y m d eq_refl Ha). specialize (Hyb y' m' d' eq_refl Hb).
  destruct Hca as (Hba & Hm & Hd & _), Hcb as (Hbb & Hm' & Hd' & _).
  cbv [String.append pad2 pad4] in Heq.
  injection Heq as M1 M2 D1 D2 Y1 Y2 Y3 Y4.
  assert (m = m') as <- by (apply pad2_inj; [lia | lia | unfold pad2; congruence]).
  assert (d = d') as <- by (apply pad2_inj; [lia | lia | unfold pad2; congruence]).
  assert (y = y') as <- by (apply pad4_inj; [lia | lia | unfold pad4; congruence]).
  congruence.
Qed.

(** * Source locations *)

Ltac destruct_ascii c :=
  destruct c as [[] [] [] [] [] [] [] []].

(** The shape of a date text that the pattern accepts. *)
Lemma matches_date_pattern_shape s :
  matches_date_pattern s = true ->
  exists m1 m2 d1 d2 y1 y2 rest,
    s = String m1 (String m2 (String "-" (String d1 (String d2 (String "-"
          (String "2" (String "0" (String y1 (String y2 rest)))))))))
    /\ month_digits m1 m2 = true /\ day_digits d1 d2 = true
    /\ is_digit y1 = true /\ is_digit y2 = true
    /\ (rest = "" \/ rest = String "010" "").
Proof.
  intros H.
  destruct s as [|m1 [|m2 [|c1 s]]]; try discriminate H.
  destruct_ascii c1; try discriminate H.
  destruct s as [|d1 [|d2 [|c2 s]]]; try discriminate H.
  destruct_ascii c2; try discriminate H.
  destruct s as [|c3 s]; try discriminate H.
  destruct_ascii c3; try discriminate H.
  destruct s as [|c4 s]; try discriminate H.
  destruct_ascii c4; try discriminate H.
  destruct s as [|y1 [|y2 rest]]; try discriminate H.
  cbn in H. apply andb_prop in H as [H Hrest].
  apply andb_prop in H as [H Hy2]. apply andb_prop in H as [H Hy1].
  apply andb_prop in H as [Hm Hd].
  exists m1, m2, d1, d2, y1, y2, rest. repeat split; try done.
  apply orb_prop in Hrest as [E | E]; apply String.eqb_eq in E; auto.
Qed.

Lemma path_name_from_step name cur a p :
  path_name_from name cur (String a p) =
  if Ascii.eqb a "/" then path_name_from (component name cur) "" p
  else path_name_from name (cur +:+ String a "") p.
Proof. destruct_ascii a; reflexivity. Qed.

Lemma split_dot_head_step a s :
  split_dot_head (String a s) =
  if Ascii.eqb a "." then "" else String a (split_dot_head s).
Proof. destruct_ascii a; reflexivity. Qed.

Lemma is_digit_plain a : is_digit a = true -> plain_char a.
Proof. destruct_ascii a; cbn; intros; done. Qed.

Lemma month_digits_plain a b :
  month_digits a b = true -> plain_char a /\ plain_char b.
Proof.
  unfold month_digits. intros H.
  destruct_ascii a; try discriminate H; destruct_ascii b; try discriminate H; done.
Qed.

Lemma day_digits_plain a b :
  day_digits a b = true -> plain_char a /\ plain_char b.
Proof.
  unfold day_digits. intros H.
  destruct_ascii a; try discriminate H; destruct_ascii b; try discriminate H; done.
Qed.

Lemma path_name_prefix p :
  path_name (gh_branch_url +:+ source_path +:+ p)
  = path_name_from "csse_covid_19_daily_reports" "" p.
Proof. vm_compute. reflexivity. Qed.

Lemma path_name_from_plain name cur a p :
  Ascii.eqb a "/" = false ->
  path_name_from name cur (String a p)
  = path_name_from name (cur +:+ String a "") p.
Proof. intros H. by rewrite path_name_from_step, H. Qed.

Lemma split_dot_head_plain a s :
  Ascii.eqb a "." = false ->
  split_dot_head (String a s) = String a (split_dot_head s).
Proof. intros H. by rewrite split_dot_head_step, H. Qed.

(** The files of a date: the report of [d] is kept under [d.csv], and the
    text before the first dot of a name that starts with [d.] is [d]. *)
Lemma created_url_names d :
  matches_date_pattern d = true ->
  path_name (gh_branch_url +:+ source_path +:+ (d +:+ ".csv")) = raw_name d
  /\ forall ext, split_dot_head (d +:+ String "." ext) = d.
Proof.
  intros H. apply matches_date_pattern_shape in H
    as (m1 & m2 & d1 & d2 & y1 & y2 & rest & -> & Hm & Hd & Hy1 & Hy2 & Hrest).
  apply month_digits_plain in Hm as [[M1 M1'] [M2 M2']].
  apply day_digits_plain in Hd as [[D1 D1'] [D2 D2']].
  apply is_digit_plain in Hy1 as [Y1 Y1'], Hy2 as [Y2 Y2'].
  rewrite path_name_prefix. unfold raw_name.
  destruct Hrest as [-> | ->]; cbv [String.append]; split.
  - do 14 (rewrite path_name_from_plain by (assumption || reflexivity)).
    cbv [String.append path_name_from component].
    rewrite (proj2 (String.eqb_neq _ "")), (proj2 (String.eqb_neq _ "."))
      by discriminate. done.
  - intros ext.
    do 10 (rewrite split_dot_head_plain by (assumption || reflexivity)).
    done.
  - do 15 (rewrite path_name_from_plain by (assumption || reflexivity)).
    cbv [String.append path_name_from component].
    rewrite (proj2 (String.eqb_neq _ "")), (proj2 (String.eqb_neq _ "."))
      by discriminate. done.
  - intros ext.
    do 11 (rewrite split_dot_head_plain by (assumption || reflexivity)).
    done.
Qed.

(** What [create_source_url] returns is the URL of the daily report: the
    location of the reports followed by the date and [.csv]. *)
Lemma create_source_url_Ok d url :
  create_source_url d = Ok url <->
  matches_date_pattern d = true
  /\ url = gh_branch_url +:+ source_path +:+ (d +:+ ".csv").
Proof.
  unfold create_source_url.
  destruct (matches_date_pattern d); cbn; split.
  - intros [= <-]. done.
  - intros [_ ->]. done.
  - discriminate.
  - intros [? _]. discriminate.
Qed.


(** * Fetch with cache *)

(** The two files of a date have different names. *)
Lemma raw_name_not_derived d d' :
  matches_date_pattern d = true -> raw_name d <> derived_name d'.
Proof.
  intros Hmatch Heq. apply matches_date_pattern_shape in Hmatch
    as (m1 & m2 & d1 & d2 & y1 & y2 & rest & -> & Hm & _).
  injection Heq as -> _. discriminate Hm.
Qed.

Section Cache.
Context (urlopen : string -> result (list string)).
Context (csv_reader : string -> result (list (list string))).
Context (json_dumps : gmap string (list Z) -> string).
Context (json_loads : string -> result (gmap string (list Z))).
Context (latest_date : datetime).

Local Abbreviation get_source_file_with := get_source_file.
Local Abbreviation get_data_for_date_with := get_data_for_date.
Local Abbreviation country_loop_with := country_loop.
Local Abbreviation get_source_file := (get_source_file urlopen json_dumps).
Local Abbreviation extract_source_data := (extract_source_data json_loads).
Local Abbreviation derived_cache_hit := (derived_cache_hit json_loads).
Local Abbreviation get_data_for_date :=
  (get_data_for_date urlopen csv_reader json_dumps json_loads).
Local Abbreviation country_loop :=
  (country_loop urlopen csv_reader json_dumps json_loads).
Local Abbreviation get_country_data :=
  (get_country_data urlopen csv_reader json_dumps json_loads latest_date).
Local Abbreviation cache_loop :=
  (cache_loop urlopen csv_reader json_dumps json_loads).
Local Abbreviation cache_data :=
  (cache_data urlopen csv_reader json_dumps json_loads latest_date).

(** Without [force], a file under the name of the URL is read, whatever has
    written it. *)
Lemma get_source_file_hit url c w :
  files w !! path_name url = Some c ->
  get_source_file url false w = (Ok (readlines (file_text json_dumps c)), w).
Proof. intros H. unfold get_source_file, bind, gets. by rewrite H. Qed.

(** With [force] the cache is not read: the report comes from the remote. *)
Lemma get_source_file_forced url w :
  get_source_file url true w =
  match urlopen url with
  | Raise e => (Raise e, log_request url w)
  | Ok lines =>
      if is_directory (path_name url)
      then (Raise IsADirectoryError, log_request url w)
      else (Ok lines,
            write_file (path_name url) (Report (join lines)) (log_request url w))
  end.
Proof.
  unfold get_source_file, bind, gets, modify, lift, raise, ret.
  destruct (files w !! path_name url);
    destruct (urlopen url); try done; by destruct (is_directory _).
Qed.

Lemma get_source_file_miss url w :
  files w !! path_name url = None ->
  get_source_file url false w =
  match urlopen url with
  | Raise e => (Raise e, log_request url w)
  | Ok lines =>
      if is_directory (path_name url)
      then (Raise IsADirectoryError, log_request url w)
      else (Ok lines,
            write_file (path_name url) (Report (join lines)) (log_request url w))
  end.
Proof.
  intros H. unfold get_source_file, bind, gets, modify, lift, raise, ret.
  rewrite H. destruct (urlopen url); [|done]. by destruct (is_directory _).
Qed.

(** What a call of [get_source_file] can touch. *)
Lemma get_source_file_effect url force w r w1 :
  get_source_file url force w = (r, w1) ->
  lookups w1 = lookups w
  /\ (forall f, f <> path_name url -> files w1 !! f = files w !! f)
  /\ (forall e, r = Raise e -> files w1 = files w)
  /\ (forall lines, r = Ok lines ->
        exists c, files w1 !! path_name url = Some c
          /\ (lines = readlines (file_text json_dumps c) /\ w1 = w
              /\ force = false
              \/ c = Report (join lines) /\ urlopen url = Ok lines
                 /\ (force = true \/ files w !! path_name url = None)
                 /\ requests w1 = url :: requests w))
  /\ (force = true -> requests w1 = url :: requests w)
  /\ (force = false -> files w ⊆ files w1)
  /\ (requests w1 = requests w \/ requests w1 = url :: requests w).
Proof.
  assert (Hdown : force = true \/ files w !! path_name url = None ->
    match urlopen url with
    | Raise e => (Raise e, log_request url w)
    | Ok lines =>
        if is_directory (path_name url)
        then (Raise IsADirectoryError, log_request url w)
        else (Ok lines,
              write_file (path_name url) (Report (join lines))
                (log_request url w))
    end = (r, w1) ->
    lookups w1 = lookups w
    /\ (forall f, f <> path_name url -> files w1 !! f = files w !! f)
    /\ (forall e, r = Raise e -> files w1 = files w)
    /\ (forall lines, r = Ok lines ->
          exists c, files w1 !! path_name url = Some c
            /\ (lines = readlines (file_text json_dumps c) /\ w1 = w
                /\ force = false
                \/ c = Report (join lines) /\ urlopen url = Ok lines
                   /\ (force = true \/ files w !! path_name url = None)
                   /\ requests w1 = url :: requests w))
    /\ (force = true -> requests w1 = url :: requests w)
    /\ (force = false -> files w ⊆ files w1)
    /\ (requests w1 = requests w \/ requests w1 = url :: requests w)).
  { intros Hwhy. destruct (urlopen url) as [string_data|e].
    - destruct (is_directory (path_name url)); intros [= <- <-].
      + split_and!; try done. by right.
      + split_and!; try done.
        * intros f Hf. by rewrite files_write_file, decide_False.
        * intros lines [= <-]. exists (Report (join string_data)).
          split; [by rewrite files_write_file, decide_True|]. by right.
        * intros ->. destruct Hwhy as [|Hnone]; [done|].
          by apply insert_subseteq.
        * by right.
    - intros [= <- <-]. split_and!; try done. by right. }
  destruct force.
  - rewrite get_source_file_forced. apply Hdown. by left.
  - destruct (files w !! path_name url) as [c|] eqn:E.
    + rewrite (get_source_file_hit _ c) by done. intros [= <- <-].
      split_and!; try done; [|by left].
      intros lines [= <-]. exists c. split; [done|]. by left.
    + rewrite get_source_file_miss by done. apply Hdown. by right.
Qed.

(** What a call of [extract_source_data] can touch. *)
Lemma extract_source_data_effect parsed cache_file force w r rest w1 :
  extract_source_data parsed cache_file force w = (r, rest, w1) ->
  requests w1 = requests w
  /\ lookups w1 = lookups w
  /\ (forall e, r = Raise e -> w1 = w)
  /\ (cache_file = None -> w1 = w)
  /\ (forall f data, cache_file = Some f -> r = Ok data ->
        exists c, files w1 !! f = Some c /\ file_json json_loads c = Ok data)
  /\ (forall f g, cache_file = Some f -> g <> f -> files w1 !! g = files w !! g)
  /\ (force = false -> files w ⊆ files w1).
Proof.
  unfold extract_source_data, derived_cache_hit.
  destruct parsed as [|header rows]; [intros [= <- <- <-]; by split_and!|].
  destruct cache_file as [f|].
  - destruct force.
    + destruct (aggregate ∅ rows) as [data|e]; intros [= <- <- <-];
        split_and!; try done.
      * intros f' data' [= <-] [= <-]. exists (Aggregate data).
        by rewrite files_write_file, decide_True.
      * intros f' g [= <-] Hg. by rewrite files_write_file, decide_False.
    + destruct (files w !! f) as [c|] eqn:E; cbn [fmap option_fmap option_map].
      * intros [= <- <- <-]. split_and!; try done.
        intros f' data' [= <-] Hdata. by exists c.
      * destruct (aggregate ∅ rows) as [data|e]; intros [= <- <- <-];
          split_and!; try done.
        -- intros f' data' [= <-] [= <-]. exists (Aggregate data).
           by rewrite files_write_file, decide_True.
        -- intros f' g [= <-] Hg. by rewrite files_write_file, decide_False.
        -- intros _. by apply insert_subseteq.
  - destruct (aggregate ∅ rows) as [data|e]; intros [= <- <- <-];
      by split_and!.
Qed.

Lemma get_data_for_date_unfold date_string force w :
  get_data_for_date date_string force w =
  let w0 := log_lookup date_string w in
  if negb (matches_date_pattern date_string)
  then (Raise (ValueError invalid_date_message), w0)
  else
    let url := gh_branch_url +:+ source_path +:+ (date_string +:+ ".csv") in
    match get_source_file url force w0 with
    | (Raise e, w1) => (Raise e, w1)
    | (Ok source_file, w1) =>
        match csv_reader (join source_file) with
        | Raise e => (Raise e, w1)
        | Ok parsed =>
            let '(r, _, w2) :=
              extract_source_data parsed
                (Some ("extracted-" +:+ split_dot_head (path_name url) +:+ ".json"))
                force w1 in
            (r, w2)
        end
    end.
Proof.
  unfold get_data_for_date, create_source_url, bind, modify, lift, raise, ret,
    parse_source_data.
  cbn zeta. destruct (negb (matches_date_pattern date_string)); [done|].
  destruct (get_source_file_with _ _ _ _ _) as [[source_file|e] w1]; [|done].
  by destruct (csv_reader _).
Qed.

(** [get_data_for_date] on a date that the pattern accepts, with the names
    of its two cache files. *)
Lemma get_data_for_date_accepted d force w :
  matches_date_pattern d = true ->
  path_name (report_url d) = raw_name d
  /\ get_data_for_date d force w =
     match get_source_file (report_url d) force (log_lookup d w) with
     | (Raise e, w1) => (Raise e, w1)
     | (Ok source_file, w1) =>
         match csv_reader (join source_file) with
         | Raise e => (Raise e, w1)
         | Ok parsed =>
             let '(r, _, w2) :=
               extract_source_data parsed (Some (derived_name d)) force w1 in
             (r, w2)
         end
     end.
Proof.
  intros Hmatch. destruct (created_url_names d Hmatch) as [Hname Hhead].
  split; [exact Hname|].
  rewrite get_data_for_date_unfold. cbn zeta. rewrite Hmatch. cbn [negb].
  change (gh_branch_url +:+ source_path +:+ (d +:+ ".csv")) with (report_url d).
  change (path_name (report_url d)) with
    (path_name (gh_branch_url +:+ source_path +:+ (d +:+ ".csv"))).
  rewrite Hname. unfold raw_name. rewrite Hhead. done.
Qed.

Lemma get_data_for_date_rejected d force w :
  matches_date_pattern d = false ->
  get_data_for_date d force w
  = (Raise (ValueError invalid_date_message), log_lookup d w).
Proof.
  intros Hmatch. rewrite get_data_for_date_unfold. cbn zeta.
  by rewrite Hmatch.
Qed.

(** With the two files of a date there, a call without [force] is served
    from them: it returns what [json.load] makes of the second one, as soon
    as the first one is read as a text with one row or more. *)
Lemma get_data_for_date_cached d c c' header rows w :
  matches_date_pattern d = true ->
  files w !! raw_name d = Some c ->
  csv_reader (translate_newlines (file_text json_dumps c)) = Ok (header :: rows) ->
  files w !! derived_name d = Some c' ->
  get_data_for_date d false w = (file_json json_loads c', log_lookup d w).
Proof.
  intros Hmatch Hraw Hcsv Hder.
  destruct (get_data_for_date_accepted d false w Hmatch) as [Hname ->].
  rewrite (get_source_file_hit _ c) by (by rewrite Hname).
  rewrite join_readlines, Hcsv.
  unfold extract_source_data, derived_cache_hit. cbn [files log_lookup].
  by rewrite Hder.
Qed.

End Cache.

Section Stability.
Context (urlopen : string -> result (list string)).
Context (csv_reader : string -> result (list (list string))).
Context (json_dumps : gmap string (list Z) -> string).
Context (json_loads : string -> result (gmap string (list Z))).
Context (latest_date : datetime).

Local Abbreviation get_source_file_with := get_source_file.
Local Abbreviation get_data_for_date_with := get_data_for_date.
Local Abbreviation country_loop_with := country_loop.
Local Abbreviation get_source_file := (get_source_file urlopen json_dumps).
Local Abbreviation extract_source_data := (extract_source_data json_loads).
Local Abbreviation derived_cache_hit := (derived_cache_hit json_loads).
Local Abbreviation get_data_for_date :=
  (get_data_for_date urlopen csv_reader json_dumps json_loads).
Local Abbreviation country_loop :=
  (country_loop urlopen csv_reader json_dumps json_loads).
Local Abbreviation get_country_data :=
  (get_country_data urlopen csv_reader json_dumps json_loads latest_date).
Local Abbreviation cache_loop :=
  (cache_loop urlopen csv_reader json_dumps json_loads).
Local Abbreviation cache_data :=
  (cache_data urlopen csv_reader json_dumps json_loads latest_date).

(** What a call of [get_data_for_date] can touch: the two files of its date,
    and without [force] only when they are not there yet. *)
Lemma get_data_for_date_effect d force w r w1 :
  get_data_for_date d force w = (r, w1) ->
  lookups w1 = d :: lookups w
  /\ (forall f, f <> raw_name d -> f <> derived_name d ->
        files w1 !! f = files w !! f)
  /\ (force = false -> cache_le w w1)
  /\ (requests w1 = requests w \/ requests w1 = report_url d :: requests w).
Proof.
  destruct (matches_date_pattern d) eqn:Hmatch.
  - destruct (get_data_for_date_accepted urlopen csv_reader json_dumps
                json_loads d force w Hmatch) as [Hname ->].
    destruct (get_source_file _ _ _) as [[lines|e] wa] eqn:Hget;
      apply get_source_file_effect in Hget
        as (Hlook & Hframe & _ & _ & _ & Hsub & Hreq);
      rewrite Hname in Hframe; cbn in Hlook, Hframe, Hsub, Hreq.
    + destruct (csv_reader (join lines)) as [parsed|e].
      * destruct (extract_source_data _ _ _ _) as [[r' rest] wb] eqn:Hext.
        apply extract_source_data_effect in Hext
          as (Hreq' & Hlook' & _ & _ & _ & Hframe' & Hsub').
        intros [= <- <-]. rewrite Hreq', Hlook'.
        split_and!; try done.
        -- intros f Hf Hf'. rewrite (Hframe' (derived_name d)) by done.
           by apply Hframe.
        -- intros ->. apply cache_le_files. etrans; [by apply Hsub|].
           by apply Hsub'.
      * intros [= <- <-]. split_and!; try done.
        -- intros f Hf _. by apply Hframe.
        -- intros ->. apply cache_le_files. by apply Hsub.
    + intros [= <- <-]. split_and!; try done.
      * intros f Hf _. by apply Hframe.
      * intros ->. apply cache_le_files. by apply Hsub.
  - rewrite get_data_for_date_rejected by done. intros [= <- <-].
    split_and!; try done. by left.
Qed.

(** What a call of [get_data_for_date] that returns leaves behind. *)
Lemma get_data_for_date_Ok d force w data w1 :
  get_data_for_date d force w = (Ok data, w1) ->
  matches_date_pattern d = true
  /\ (exists c', files w1 !! derived_name d = Some c'
                 /\ file_json json_loads c' = Ok data)
  /\ exists c text header rows,
       files w1 !! raw_name d = Some c
       /\ csv_reader text = Ok (header :: rows)
       /\ (text = translate_newlines (file_text json_dumps c)
           /\ force = false /\ files w !! raw_name d = Some c
           \/ c = Report text
              /\ exists lines, urlopen (report_url d) = Ok lines
                               /\ text = join lines)
       /\ (force = true ->
             c = Report text
             /\ aggregate ∅ rows = Ok data
             /\ files w1 !! derived_name d = Some (Aggregate data)
             /\ requests w1 = report_url d :: requests w).
Proof.
  destruct (matches_date_pattern d) eqn:Hmatch;
    [|rewrite get_data_for_date_rejected by done; discriminate].
  destruct (get_data_for_date_accepted urlopen csv_reader json_dumps
              json_loads d force w Hmatch) as [Hname ->].
  pose proof (raw_name_not_derived d d Hmatch) as Hne.
  destruct (get_source_file _ _ _) as [[lines|e] wa] eqn:Hget; [|discriminate].
  pose proof Hget as Heff.
  apply get_source_file_effect in Heff
    as (_ & _ & _ & Hentry & Hforce & _ & _).
  destruct (Hentry lines eq_refl) as (c & Hc & Hhow). rewrite Hname in Hc, Hhow.
  destruct (csv_reader (join lines)) as [parsed|e] eqn:Hcsv; [|discriminate].
  destruct (extract_source_data _ _ _ _) as [[r' rest] wb] eqn:Hext.
  intros [= -> ->]. pose proof Hext as Heff.
  apply extract_source_data_effect in Heff
    as (Hreq' & _ & _ & _ & Hentry' & Hframe' & _).
  split; [done|]. split; [by apply Hentry'|].
  destruct parsed as [|header rows]; [discriminate Hext|].
  exists c, (join lines), header, rows.
  rewrite (Hframe' (derived_name d)) by done. split_and!; try done.
  - destruct Hhow as [(-> & -> & ->) | (-> & Hopen & _ & _)].
    + left. by rewrite join_readlines.
    + right. split; [done|]. by exists lines.
  - intros ->. destruct Hhow as [(_ & _ & ?) | (-> & _ & _ & _)]; [done|].
    revert Hext. unfold extract_source_data, derived_cache_hit.
    destruct (aggregate ∅ rows) as [agg|]; [|discriminate]. intros [= -> _ <-].
    split_and!; try done.
    + by rewrite files_write_file, decide_True.
    + cbn. by apply Hforce.
Qed.

(** An aggregate once returned is returned again from the caches alone, as
    long as they keep their files: whatever the remote has become, and
    whatever else has been cached since. *)
Lemma get_data_for_date_stable (urlopen' : string -> result (list string))
  d force w data w1 w2 :
  accepts_reread csv_reader ->
  get_data_for_date d force w = (Ok data, w1) ->
  cache_le w1 w2 ->
  get_data_for_date_with urlopen' csv_reader json_dumps json_loads d false w2
  = (Ok data, log_lookup d w2).
Proof.
  intros Hreread Hget Hle. apply cache_le_files in Hle.
  apply get_data_for_date_Ok in Hget
    as (Hmatch & (c' & Hc' & Hload) & c & text & header & rows & Hc & Hcsv
        & Hhow & _).
  assert (exists header' rows',
             csv_reader (translate_newlines (file_text json_dumps c))
             = Ok (header' :: rows')) as (header' & rows' & Hcsv').
  { destruct Hhow as [(<- & _ & _) | (-> & _)]; [by eauto|].
    by eapply Hreread. }
  rewrite <- Hload.
  eapply (get_data_for_date_cached urlopen' csv_reader json_dumps json_loads);
    [done | | exact Hcsv' |]; by eapply lookup_weaken.
Qed.

Lemma country_loop_cache_le country start_date indices result w r w1 :
  country_loop country start_date indices result w = (r, w1) -> cache_le w w1.
Proof.
  revert result w. induction indices as [|i indices IH]; intros result w.
  - intros [= <- <-]. apply cache_le_refl.
  - cbn [country_loop]. cbv zeta. unfold bind.
    destruct (get_data_for_date _ _ _) as [[data|e] w0] eqn:Hget;
      apply get_data_for_date_effect in Hget as (_ & _ & Hle & _);
      specialize (Hle eq_refl).
    + destruct (data !! country).
      * intros H. apply IH in H. by eapply cache_le_trans.
      * by intros [= <- <-].
    + by intros [= <- <-].
Qed.

Lemma cache_loop_cache_le date n w r w1 :
  cache_loop date false n w = (r, w1) -> cache_le w w1.
Proof.
  revert date w. induction n as [|n IH]; intros date w.
  - intros [= <- <-]. apply cache_le_refl.
  - cbn [cache_loop]. unfold bind at 1, except_HTTPError, bind, ret.
    destruct (get_data_for_date _ _ _) as [[data|e] w0] eqn:Hget;
      apply get_data_for_date_effect in Hget as (_ & _ & Hle & _);
      specialize (Hle eq_refl).
    + intros H. apply IH in H. by eapply cache_le_trans.
    + destruct e; try (by intros [= <- <-]).
      intros H. apply IH in H. by eapply cache_le_trans.
Qed.

(** A series once returned is returned again from the caches alone. *)
Lemma country_loop_repeat (urlopen' : string -> result (list string))
  country start_date indices result w series w1 w2 :
  accepts_reread csv_reader ->
  country_loop country start_date indices result w = (Ok series, w1) ->
  cache_le w1 w2 ->
  exists w3,
    country_loop_with urlopen' csv_reader json_dumps json_loads
      country start_date indices result w2 = (Ok series, w3)
    /\ files w3 = files w2 /\ requests w3 = requests w2.
Proof.
  intros Hreread.
  revert result w w2. induction indices as [|i indices IH]; intros result w w2.
  - intros [= <- <-] _. by exists w2.
  - cbn [country_loop]. cbv zeta. unfold bind.
    destruct (get_data_for_date _ _ _) as [[data|e] w0] eqn:Hget; [|discriminate].
    destruct (data !! country) as [country_data|] eqn:Hc; [|discriminate].
    intros Hrest Hle.
    pose proof (country_loop_cache_le _ _ _ _ _ _ _ Hrest) as Hle0.
    rewrite (get_data_for_date_stable urlopen' _ _ _ _ _ w2 Hreread Hget)
      by (by eapply cache_le_trans).
    rewrite Hc.
    destruct (IH _ _ (log_lookup (strftime (add_days start_date i)) w2) Hrest)
      as (w3 & Hrun & Hfiles & Hreq); [done|].
    by exists w3.
Qed.

Lemma add_days_add_days t i j : add_days (add_days t i) j = add_days t (i + j).
Proof. unfold add_days. lia. Qed.

(** After the rounds of [cache_data], each date that it went through is
    served from the caches, unless its lookup raised [HTTPError]. *)
Lemma cache_loop_warm date n w w1 :
  accepts_reread csv_reader ->
  cache_loop date false n w = (Ok tt, w1) ->
  forall i, 0 <= i < Z.of_nat n ->
    (exists data, forall (urlopen' : string -> result (list string)) w2,
        cache_le w1 w2 ->
        get_data_for_date_with urlopen' csv_reader json_dumps json_loads
          (strftime (add_days date (- i))) false w2
        = (Ok data, log_lookup (strftime (add_days date (- i))) w2))
    \/ (exists code wa wb,
          cache_le w wa /\ cache_le wb w1
          /\ get_data_for_date (strftime (add_days date (- i))) false wa
             = (Raise (HTTPError code), wb)).
Proof.
  intros Hreread.
  revert date w. induction n as [|n IH]; intros date w; [intros _ i; lia|].
  cbn [cache_loop]. unfold bind at 1, except_HTTPError, bind, ret.
  destruct (get_data_for_date _ _ _) as [[data|e] w0] eqn:Hget.
  - intros Hrest i Hi.
    pose proof (cache_loop_cache_le _ _ _ _ _ Hrest) as Hle.
    destruct (decide (i = 0)) as [-> | Hne].
    + left. exists data. intros urlopen' w2 Hle2.
      replace (add_days date (- 0)) with date by (unfold add_days; lia).
      eapply get_data_for_date_stable; [done | exact Hget|].
      by eapply cache_le_trans.
    + destruct (IH _ _ Hrest (i - 1)) as [Hl | (code & wa & wb & H1 & H2 & H3)];
        [lia| |]; rewrite add_days_add_days in *;
        replace (-1 + - (i - 1)) with (- i) in * by lia; [by left|].
      right. exists code, wa, wb. split_and!; try done.
      apply get_data_for_date_effect in Hget as (_ & _ & Hle0 & _).
      eapply cache_le_trans; [by apply Hle0 | done].
  - destruct e as [ | |code| | | ]; try discriminate.
    intros Hrest i Hi.
    pose proof (cache_loop_cache_le _ _ _ _ _ Hrest) as Hle.
    destruct (decide (i = 0)) as [-> | Hne].
    + right. exists code, w, w0.
      replace (add_days date (- 0)) with date by (unfold add_days; lia).
      split_and!; [apply cache_le_refl | done | done].
    + destruct (IH _ _ Hrest (i - 1)) as [Hl | (code' & wa & wb & H1 & H2 & H3)];
        [lia| |]; rewrite add_days_add_days in *;
        replace (-1 + - (i - 1)) with (- i) in * by lia; [by left|].
      right. exists code', wa, wb. split_and!; try done.
      apply get_data_for_date_effect in Hget as (_ & _ & Hle0 & _).
      eapply cache_le_trans; [by apply Hle0 | done].
Qed.

End Stability.

(** The sample reader yields no row for the empty text alone, and reads a
    text again after a read in text mode. *)
Lemma csv_rows_nil field row text :
  csv_rows field row text = [] -> text = "" /\ field = "" /\ row = [].
Proof.
  revert field row. induction text as [|a text IH]; intros field row.
  - cbn [csv_rows]. destruct (String.eqb_spec field "") as [-> | _];
      [|discriminate]. destruct row; [done|discriminate].
  - cbn [csv_rows]. destruct (Ascii.eqb a ","); [|destruct (Ascii.eqb a "010")].
    + intros H. apply IH in H as (_ & _ & H). by destruct row.
    + discriminate.
    + intros H. apply IH in H as (_ & H & _). by destruct field.
Qed.

Lemma translate_newlines_nil text : translate_newlines text = "" -> text = "".
Proof.
  destruct text as [|a text]; [done|]. rewrite translate_newlines_step.
  by destruct (Ascii.eqb a "013").
Qed.

Lemma csv_unquoted_accepts_reread : accepts_reread csv_unquoted.
Proof.
  intros text header rows H. unfold csv_unquoted in *.
  destruct (csv_rows "" [] (translate_newlines text)) as [|header' rows'] eqn:E;
    [|by eauto].
  apply csv_rows_nil in E as (E & _). apply translate_newlines_nil in E as ->.
  discriminate H.
Qed.

(** C3, as the code has it: without [force], a location whose file is in
    the cache directory is served from it: [get_source_file] returns the
    lines of the file as a read in text mode gives them (a carriage return,
    alone or before a line feed, comes back as a line feed, and a text
    without one comes back as it is) and leaves the world as it was, with
    no request on the network, whatever the remote holds.  Hence once
    [get_data_for_date] has returned an aggregate for a date, every later
    call without [force] returns the same aggregate, from the caches alone:
    no request is made and no file changes, whatever the remote has become,
    [csv.reader] accepting the text that is read back as it has accepted
    the download. *)
Theorem get_source_file_cache_hit :
  (forall urlopen json_dumps url c w,
      files w !! path_name url = Some c ->
      get_source_file urlopen json_dumps url false w
      = (Ok (readlines (file_text json_dumps c)), w)
      /\ join (readlines (file_text json_dumps c))
         = translate_newlines (file_text json_dumps c)
      /\ (plain_newlines (file_text json_dumps c) ->
          join (readlines (file_text json_dumps c)) = file_text json_dumps c))
  /\ (forall urlopen urlopen' csv_reader json_dumps json_loads
        date_string data w w',
         accepts_reread csv_reader ->
         get_data_for_date urlopen csv_reader json_dumps json_loads
           date_string false w = (Ok data, w') ->
         get_data_for_date urlopen' csv_reader json_dumps json_loads
           date_string false w'
         = (Ok data, log_lookup date_string w')).
Proof.
  split.
  - intros urlopen json_dumps url c w H. split_and!.
    + by apply get_source_file_hit.
    + apply join_readlines.
    + apply readlines_plain.
  - intros urlopen urlopen' csv_reader json_dumps json_loads d data w w'
      Hreread Hget.
    eapply get_data_for_date_stable; [exact Hreread | exact Hget |].
    apply cache_le_refl.
Qed.

Lemma get_source_file_cache_hit_witness :
  exists data w',
    get_data_for_date sample_remote csv_unquoted sample_json_dumps
      sample_json_loads "12-02-2020" false empty_world = (Ok data, w')
    /\ data !! "X" = Some [6; 2; 3; 5]
    /\ requests w' = [report_url "12-02-2020"]
    /\ get_data_for_date offline_remote csv_unquoted sample_json_dumps
         sample_json_loads "12-02-2020" false w'
       = (Ok data, log_lookup "12-02-2020" w').
Proof.
  eexists _, _. split; [vm_compute; reflexivity|].
  split; [vm_compute; reflexivity|]. split; [vm_compute; reflexivity|].
  apply (proj2 get_source_file_cache_hit sample_remote offline_remote
           csv_unquoted sample_json_dumps sample_json_loads "12-02-2020" _
           empty_world _ csv_unquoted_accepts_reread).
  vm_compute. reflexivity.
Defined.

(** C3, as stated, fails: what a cache hit returns is not always the
    content of the file.  A report that the remote sends with a carriage
    return before each line feed is written as it is, and the next call
    returns its lines without the carriage returns: neither the content of
    the file nor the lines of the first call. *)
Lemma get_source_file_cache_hit_translates :
  let url := report_url "12-02-2020" in
  exists lines w1 lines',
    get_source_file crlf_remote sample_json_dumps url false empty_world
    = (Ok lines, w1)
    /\ files w1 !! path_name url = Some (Report (join lines))
    /\ get_source_file offline_remote sample_json_dumps url false w1
       = (Ok lines', w1)
    /\ join lines' <> join lines
    /\ lines' <> lines.
Proof.
  intros url. eexists _, _, _.
  split; [vm_compute; reflexivity|]. split; [vm_compute; reflexivity|].
  split; [vm_compute; reflexivity|].
  split; vm_compute; intros H; discriminate H.
Qed.

(** * Range assembly *)

Lemma dict_get_set {V} k k' (v : V) d :
  dict_get k' (dict_set k v d) = if String.eqb k k' then Some v else dict_get k' d.
Proof.
  induction d as [|[k0 v0] d IH]; cbn.
  - by destruct (String.eqb k k').
  - destruct (String.eqb_spec k0 k) as [-> | Hne]; cbn.
    + by destruct (String.eqb k k').
    + rewrite IH. destruct (String.eqb_spec k0 k') as [-> | Hne'];
        [|done]. by rewrite (proj2 (String.eqb_neq k k')).
Qed.

Section Range.
Context (urlopen : string -> result (list string)).
Context (csv_reader : string -> result (list (list string))).
Context (json_dumps : gmap string (list Z) -> string).
Context (json_loads : string -> result (gmap string (list Z))).
Context (latest_date : datetime).

Local Abbreviation get_data_for_date :=
  (get_data_for_date urlopen csv_reader json_dumps json_loads).
Local Abbreviation country_loop :=
  (country_loop urlopen csv_reader json_dumps json_loads).
Local Abbreviation get_country_data :=
  (get_country_data urlopen csv_reader json_dumps json_loads latest_date).
Local Abbreviation cache_loop :=
  (cache_loop urlopen csv_reader json_dumps json_loads).
Local Abbreviation cache_data :=
  (cache_data urlopen csv_reader json_dumps json_loads latest_date).
Local Abbreviation get_new_changes :=
  (get_new_changes urlopen csv_reader json_dumps json_loads latest_date).

(** Each call of [get_data_for_date] is one lookup. *)
Lemma get_data_for_date_lookups date_string force w r w1 :
  get_data_for_date date_string force w = (r, w1) ->
  lookups w1 = date_string :: lookups w.
Proof. intros H. by apply get_data_for_date_effect in H as (H & _). Qed.

Lemma country_loop_app country start_date l1 l2 result w :
  country_loop country start_date (l1 ++ l2) result w =
  match country_loop country start_date l1 result w with
  | (Ok result1, w1) => country_loop country start_date l2 result1 w1
  | (Raise e, w1) => (Raise e, w1)
  end.
Proof.
  revert result w. induction l1 as [|i l1 IH]; intros result w; [done|].
  cbn [country_loop app]. cbv zeta. unfold bind.
  destruct (get_data_for_date _ _ _) as [[data|e] w1]; [|done].
  destruct (data !! country); [apply IH | done].
Qed.

(** The loop looks the dates up in order, and stops at the first failure. *)
Lemma country_loop_lookups country start_date indices result w r w1 :
  country_loop country start_date indices result w = (r, w1) ->
  exists n, (n <= length indices)%nat
    /\ lookups w1
       = (rev (map (fun i => strftime (add_days start_date i)) (take n indices))
          ++ lookups w)%list
    /\ (forall series, r = Ok series -> n = length indices).
Proof.
  revert result w. induction indices as [|i indices IH]; intros result w.
  - intros [= <- <-]. exists 0%nat. done.
  - cbn [country_loop]. cbv zeta. unfold bind.
    destruct (get_data_for_date _ _ _) as [[data|e] w0] eqn:Hget;
      apply get_data_for_date_lookups in Hget.
    + destruct (data !! country).
      * intros H. apply IH in H as (n & Hn & Hl & Hok).
        exists (S n). split; [cbn; lia|]. split.
        -- rewrite Hl, Hget, firstn_cons. cbn. by rewrite <- app_assoc.
        -- intros series Hs. by rewrite (Hok _ Hs).
      * intros [= <- <-]. exists 1%nat. split; [cbn; lia|].
        split; [|discriminate]. by rewrite Hget, firstn_cons, firstn_O.
    + intros [= <- <-]. exists 1%nat. split; [cbn; lia|].
      split; [|discriminate]. by rewrite Hget, firstn_cons, firstn_O.
Qed.

(** A series that the loop returns has an entry for each date of the loop. *)
Lemma country_loop_keys country start_date indices result w series w1 :
  country_loop country start_date indices result w = (Ok series, w1) ->
  forall k,
    (is_Some (dict_get k result)
     \/ k ∈ map (fun i => strftime (add_days start_date i)) indices) ->
    is_Some (dict_get k series).
Proof.
  revert result w. induction indices as [|i indices IH]; intros result w.
  - intros [= <- <-] k [H | H]; [done|]. by apply elem_of_nil in H.
  - cbn [country_loop]. cbv zeta. unfold bind.
    destruct (get_data_for_date _ _ _) as [[data|e] w0]; [|discriminate].
    destruct (data !! country) as [country_data|]; [|discriminate].
    intros H k Hk. eapply IH; [exact H|].
    rewrite dict_get_set. cbn [map] in Hk.
    destruct (String.eqb_spec (strftime (add_days start_date i)) k) as [Heq | Hne];
      [left; eauto|].
    destruct Hk as [Hk | Hk]; [by left|]. right.
    apply elem_of_cons in Hk as [-> | Hk]; done.
Qed.

Lemma origin_date_midnight : origin_date = 737760 * day_us.
Proof. reflexivity. Qed.

(** A date text is the text of its day counted from the origin. *)
Lemma strftime_from_origin t :
  strftime t = strftime (add_days origin_date (days_between t origin_date)).
Proof.
  unfold strftime, ordinal_of, add_days, days_between.
  rewrite origin_date_midnight. unfold day_us.
  replace ((737760 * 86400000000 + (t - 737760 * 86400000000) / 86400000000
            * 86400000000) / 86400000000) with (t / 86400000000)
    by (Z.div_mod_to_equations; lia).
  done.
Qed.

Lemma range_dates_cover e t :
  origin_date <= t <= e -> strftime t ∈ range_dates origin_date e.
Proof.
  intros Ht. rewrite (strftime_from_origin t). unfold range_dates.
  apply list_elem_of_fmap. exists (days_between t origin_date). split; [done|].
  apply elem_of_seqZ. unfold days_between, day_us.
  Z.div_mod_to_equations. lia.
Qed.

Lemma range_dates_within s e x :
  x ∈ range_dates s e -> exists t, s <= t <= e /\ x = strftime t.
Proof.
  unfold range_dates. intros H.
  apply list_elem_of_fmap in H as (i & -> & Hi). apply elem_of_seqZ in Hi.
  exists (add_days s i). split; [|done].
  unfold days_between, add_days, day_us in *. Z.div_mod_to_equations. lia.
Qed.

Lemma clamp_start_ge start_date : origin_date <= clamp_start start_date.
Proof.
  unfold clamp_start. destruct start_date as [t|]; [|lia].
  destruct (Z.ltb_spec t origin_date); lia.
Qed.

Lemma clamp_end_le end_date : clamp_end latest_date end_date <= latest_date.
Proof.
  unfold clamp_end. destruct end_date as [t|]; [|lia].
  destruct (Z.ltb_spec latest_date t); lia.
Qed.




Lemma backward_dates_S date n :
  backward_dates date (S n)
  = strftime date :: backward_dates (add_days date (-1)) n.
Proof.
  unfold backward_dates. rewrite seqZ_cons by lia. cbn [map]. f_equal.
  - f_equal. unfold add_days. lia.
  - replace (Z.pred (Z.of_nat (S n))) with (Z.of_nat n) by lia.
    change (Z.succ 0) with (1 + 0). rewrite <- fmap_add_seqZ.
    rewrite <- list_fmap_compose. apply list_fmap_ext. intros _ i _. cbn.
    f_equal. unfold add_days. lia.
Qed.

(** The rounds of [cache_data]: one lookup a round, a missing report is
    passed over, and what stops the loop is no [HTTPError]. *)
Lemma cache_loop_lookups date force n w r w' :
  cache_loop date force n w = (r, w') ->
  exists k, (k <= n)%nat
    /\ lookups w' = (rev (backward_dates date k) ++ lookups w)%list
    /\ (r = Ok tt /\ k = n \/ exists e, r = Raise e /\ is_HTTPError e = false).
Proof.
  revert date w. induction n as [|n IH]; intros date w.
  - intros [= <- <-]. exists 0%nat. eauto.
  - cbn [cache_loop]. unfold bind at 1, except_HTTPError, bind, ret.
    destruct (get_data_for_date _ _ _) as [[data|e] w0] eqn:Hget;
      apply get_data_for_date_lookups in Hget.
    + intros H. apply IH in H as (k & Hk & Hl & Hr).
      exists (S k). split; [lia|]. split.
      * rewrite Hl, Hget, backward_dates_S. cbn. by rewrite <- app_assoc.
      * destruct Hr as [[-> ->] | Hr]; [by left | by right].
    + destruct e; try (intros [= <- <-]; exists 1%nat;
        split; [lia|]; split; [by rewrite Hget, backward_dates_S | right; eauto]).
      intros H. apply IH in H as (k & Hk & Hl & Hr).
      exists (S k). split; [lia|]. split.
      * rewrite Hl, Hget, backward_dates_S. cbn. by rewrite <- app_assoc.
      * destruct Hr as [[-> ->] | Hr]; [by left | by right].
Qed.

(** C4: [get_country_data] goes through the dates in ascending order, and at
    the first date whose aggregate lacks the country it raises a [ValueError]
    that carries the country name: the dates before it, which had the
    country, do not mask the error, and no date after it is looked up,
    whether or not it has the country. *)
Theorem get_country_data_first_absent
  country start_date end_date k series data w w1 w2 :
  let s := clamp_start start_date in
  let e := clamp_end latest_date end_date in
  0 <= k <= days_between e s ->
  country_loop country s (seqZ 0 k) [] w = (Ok series, w1) ->
  get_data_for_date (strftime (add_days s k)) false w1 = (Ok data, w2) ->
  data !! country = None ->
  get_country_data country start_date end_date w = (Raise (ValueError country), w2)
  /\ lookups w2
     = (rev (map (fun i => strftime (add_days s i)) (seqZ 0 (k + 1)))
        ++ lookups w)%list.
Proof.
  intros s e Hk Hbefore Hget Habsent. split.
  - unfold get_country_data. fold s e.
    replace (days_between e s + 1) with (k + (1 + (days_between e s - k))) by lia.
    rewrite seqZ_app by lia. rewrite country_loop_app, Hbefore.
    rewrite (seqZ_cons (0 + k)) by lia. cbn [country_loop]. cbv zeta.
    unfold bind. rewrite Z.add_0_l, Hget, Habsent. done.
  - apply country_loop_lookups in Hbefore as (n & Hn & Hl & Hok).
    rewrite (Hok _ eq_refl), firstn_all in Hl.
    apply get_data_for_date_lookups in Hget. rewrite Hget, Hl.
    rewrite seqZ_app by lia. rewrite (seqZ_cons (0 + k) 1) by lia.
    rewrite (seqZ_nil _ (Z.pred 1)) by lia.
    rewrite map_app, rev_app_distr. cbn. by rewrite Z.add_0_l.
Qed.

(** C5: [get_country_data] clamps its bounds before it iterates.  An end
    date that is absent or later than [latest_date] becomes [latest_date],
    a start date that is absent or earlier than [origin_date] becomes
    [origin_date], and a bound inside the interval stays.  Whatever the
    bounds, the query is the query between the clamped bounds: a run that
    returns has looked up the dates of the clamped range, each of them and
    no other, in ascending order, and its series has an entry for each; a
    run that raises has looked up the first of them only.  So a query from
    before the origin to after the latest date is the query from
    [origin_date] to [latest_date], raises nothing for its bounds, and goes
    through the day of every instant of that closed interval, both ends
    included. *)
Theorem get_country_data_clamps :
  (forall end_date,
      end_date = None \/ (exists e, end_date = Some e /\ latest_date < e) ->
      clamp_end latest_date end_date = latest_date)
  /\ (forall start_date,
         start_date = None \/ (exists s, start_date = Some s /\ s < origin_date) ->
         clamp_start start_date = origin_date)
  /\ (forall e, e <= latest_date -> clamp_end latest_date (Some e) = e)
  /\ (forall s, origin_date <= s -> clamp_start (Some s) = s)
  /\ (forall country start_date end_date w,
         let s := clamp_start start_date in
         let e := clamp_end latest_date end_date in
         get_country_data country start_date end_date w
         = get_country_data country (Some s) (Some e) w
         /\ (forall r w',
                get_country_data country start_date end_date w = (r, w') ->
                exists n : nat,
                  lookups w'
                  = (rev (take n (range_dates s e)) ++ lookups w)%list
                  /\ (forall series, r = Ok series ->
                        lookups w' = (rev (range_dates s e) ++ lookups w)%list
                        /\ forall x, x ∈ range_dates s e ->
                             is_Some (dict_get x series)))
         /\ (forall x, x ∈ range_dates s e ->
                exists t, s <= t <= e /\ x = strftime t)
         /\ (s = origin_date ->
              forall t, origin_date <= t <= e -> strftime t ∈ range_dates s e))
  /\ (forall country start_date end_date w,
         clamp_start start_date = origin_date ->
         clamp_end latest_date end_date = latest_date ->
         get_country_data country start_date end_date w
         = get_country_data country (Some origin_date) (Some latest_date) w
         /\ (forall t, origin_date <= t <= latest_date ->
                strftime t ∈ range_dates origin_date latest_date)
         /\ (forall x, x ∈ range_dates origin_date latest_date ->
                exists t, origin_date <= t <= latest_date /\ x = strftime t)
         /\ (forall series w',
                get_country_data country start_date end_date w = (Ok series, w') ->
                lookups w'
                = (rev (range_dates origin_date latest_date) ++ lookups w)%list
                /\ forall t, origin_date <= t <= latest_date ->
                     is_Some (dict_get (strftime t) series))).
Proof.
  split_and!.
  - intros end_date [-> | (e & -> & He)]; cbn; [done|].
    by rewrite (proj2 (Z.ltb_lt _ _) He).
  - intros start_date [-> | (s & -> & Hs)]; cbn; [done|].
    by rewrite (proj2 (Z.ltb_lt _ _) Hs).
  - intros e He. cbn. by rewrite (proj2 (Z.ltb_ge _ _) He).
  - intros s Hs. cbn. by rewrite (proj2 (Z.ltb_ge _ _) Hs).
  - intros country start_date end_date w s e. split_and!.
    + unfold get_country_data. cbn [clamp_start clamp_end]. fold s e.
      rewrite (proj2 (Z.ltb_ge s origin_date) (clamp_start_ge start_date)).
      by rewrite (proj2 (Z.ltb_ge latest_date e) (clamp_end_le end_date)).
    + unfold get_country_data. fold s e. intros r w' Hloop.
      pose proof Hloop as Hl.
      apply country_loop_lookups in Hl as (n & Hn & Hl & Hok).
      exists n. split; [by rewrite Hl; unfold range_dates; rewrite <- fmap_take|].
      intros series ->. split.
      * by rewrite (Hok _ eq_refl), firstn_all in Hl.
      * intros x Hx. eapply country_loop_keys; [exact Hloop|]. by right.
    + apply range_dates_within.
    + intros ->. apply range_dates_cover.
  - intros country start_date end_date w Hs He. split_and!.
    + unfold get_country_data. rewrite Hs, He. cbn.
      by rewrite !Z.ltb_irrefl.
    + apply range_dates_cover.
    + apply range_dates_within.
    + unfold get_country_data. rewrite Hs, He. intros series w' Hloop.
      split.
      * apply country_loop_lookups in Hloop as (n & Hn & Hl & Hok).
        by rewrite (Hok _ eq_refl), firstn_all in Hl.
      * intros t Ht. eapply country_loop_keys; [exact Hloop|].
        right. by apply range_dates_cover.
Qed.


(** C8, as the code has it: [cache_data] makes at most [no_of_days]
    lookups, and no more than there are days between [origin_date] and
    [latest_date]: it walks back from [latest_date] and looks up no date
    before [origin_date]; a day whose lookup raises an [HTTPError], whatever
    its status (the one of a missing report as any other), is passed over
    and the walk goes on with the day before; any exception that is no
    [HTTPError] ends the run with that exception; so [cache_data] never
    raises for a missing report, and what it returns holds no value. *)
Theorem cache_data_tolerates_missing_days :
  (forall no_of_days force w,
      let '(r, w') := cache_data no_of_days force w in
      (exists n : nat,
          Z.of_nat n <= Z.max 0 no_of_days
          /\ Z.of_nat n <= Z.max 0 (days_between latest_date origin_date)
          /\ lookups w' = (rev (backward_dates latest_date n) ++ lookups w)%list
          /\ (forall i, 0 <= i < Z.of_nat n ->
                 origin_date <= add_days latest_date (- i))
          /\ (r = Ok tt ->
               Z.of_nat n
               = Z.max 0 (Z.min no_of_days (days_between latest_date origin_date))))
      /\ (r = Ok tt \/ exists e, r = Raise e /\ is_HTTPError e = false))
  /\ (forall date force n w code w1,
         get_data_for_date (strftime date) force w = (Raise (HTTPError code), w1) ->
         cache_loop date force (S n) w = cache_loop (add_days date (-1)) force n w1)
  /\ (forall date force n w e w1,
         get_data_for_date (strftime date) force w = (Raise e, w1) ->
         is_HTTPError e = false ->
         cache_loop date force (S n) w = (Raise e, w1)).
Proof.
  split; [|split].
  - intros no_of_days force w.
    destruct (cache_data no_of_days force w) as [r w'] eqn:H.
    unfold cache_data in H.
    apply cache_loop_lookups in H as (k & Hk & Hl & Hr).
    split; [|destruct Hr as [[-> _] | Hr]; [by left | by right]].
    exists k. split; [|split; [|split; [done|split]]].
    + destruct (_ <? _) eqn:E; [apply Z.ltb_lt in E | apply Z.ltb_ge in E]; lia.
    + destruct (_ <? _) eqn:E; [apply Z.ltb_lt in E | apply Z.ltb_ge in E]; lia.
    + intros i Hi.
      assert (Hspan : i + 1 <= days_between latest_date origin_date)
        by (destruct (_ <? _) eqn:E;
            [apply Z.ltb_lt in E | apply Z.ltb_ge in E]; lia).
      unfold days_between, add_days, day_us in *.
      Z.div_mod_to_equations. lia.
    + intros ->. destruct Hr as [[_ ->] | (e & He & _)]; [|discriminate].
      destruct (_ <? _) eqn:E; [apply Z.ltb_lt in E | apply Z.ltb_ge in E]; lia.
  - intros date force n w code w1 H. cbn [cache_loop].
    unfold bind at 1, except_HTTPError, bind. by rewrite H.
  - intros date force n w e w1 H He. cbn [cache_loop].
    unfold bind at 1, except_HTTPError, bind. rewrite H.
    by destruct e.
Qed.

End Range.

(** ** Runs on the sample remote *)

Lemma get_country_data_first_absent_witness :
  get_country_data sample_remote csv_unquoted sample_json_dumps
    sample_json_loads sample_latest "Testland" None None empty_world
  = (Raise (ValueError "Testland"),
     (get_data_for_date sample_remote csv_unquoted sample_json_dumps
        sample_json_loads "12-03-2020" false
        (get_data_for_date sample_remote csv_unquoted sample_json_dumps
           sample_json_loads "12-02-2020" false empty_world).2).2).
Proof.
  refine (proj1 (get_country_data_first_absent sample_remote csv_unquoted
                   sample_json_dumps sample_json_loads
                   sample_latest "Testland" None None 1 _ _ empty_world _ _
                   _ _ _ _)).
  - vm_compute. split; discriminate.
  - vm_compute. reflexivity.
  - vm_compute. reflexivity.
  - vm_compute. reflexivity.
Defined.

Lemma get_country_data_clamps_witness :
  (exists series w',
      get_country_data sample_remote csv_unquoted sample_json_dumps
        sample_json_loads sample_latest "X"
        (Some (datetime_of 2020 1 1)) (Some (datetime_of 2021 1 1)) empty_world
      = (Ok series, w')
      /\ series = [("12-02-2020", [6; 2; 3; 5]); ("12-03-2020", [10; 1; 2; 3]);
                   ("12-04-2020", [15; 1; 3; 5])]
      /\ lookups w' = ["12-04-2020"; "12-03-2020"; "12-02-2020"]
      /\ is_Some (dict_get (strftime sample_latest) series))
  /\ (exists series w',
        get_country_data sample_remote csv_unquoted sample_json_dumps
          sample_json_loads sample_latest "X"
          (Some (datetime_of 2020 12 3)) (Some (datetime_of 2021 1 1))
          empty_world
        = (Ok series, w')
        /\ lookups w' = ["12-04-2020"; "12-03-2020"]
        /\ is_Some (dict_get "12-04-2020" series))
  /\ (exists series w',
        get_country_data sample_remote csv_unquoted sample_json_dumps
          sample_json_loads sample_latest "X"
          None (Some (datetime_of 2020 12 3)) empty_world
        = (Ok series, w')
        /\ lookups w' = ["12-03-2020"; "12-02-2020"]
        /\ is_Some (dict_get "12-02-2020" series)).
Proof.
  destruct (get_country_data_clamps sample_remote csv_unquoted
              sample_json_dumps sample_json_loads sample_latest)
    as (Hend & Hstart & _ & _ & Hany & Hquery).
  split_and!.
  - destruct (Hquery "X" (Some (datetime_of 2020 1 1))
                (Some (datetime_of 2021 1 1)) empty_world) as (_ & _ & _ & Hrun).
    + apply Hstart. right. eexists. split; [reflexivity | vm_compute; reflexivity].
    + apply Hend. right. eexists. split; [reflexivity | vm_compute; reflexivity].
    + eexists _, _. split; [vm_compute; reflexivity|].
      split; [reflexivity|].
      destruct (Hrun _ _ ltac:(vm_compute; reflexivity)) as [Hl Hk].
      split; [rewrite Hl; vm_compute; reflexivity|].
      apply Hk. vm_compute. split; discriminate.
  - destruct (Hany "X" (Some (datetime_of 2020 12 3))
                (Some (datetime_of 2021 1 1)) empty_world) as (_ & Hrun & _).
    eexists _, _. split; [vm_compute; reflexivity|].
    destruct (Hrun _ _ ltac:(vm_compute; reflexivity)) as (n & _ & Hok).
    destruct (Hok _ eq_refl) as [Hl Hk].
    split; [rewrite Hl; vm_compute; reflexivity|].
    apply Hk. vm_compute. apply list_elem_of_further, list_elem_of_here.
  - destruct (Hany "X" None (Some (datetime_of 2020 12 3)) empty_world)
      as (_ & Hrun & _).
    eexists _, _. split; [vm_compute; reflexivity|].
    destruct (Hrun _ _ ltac:(vm_compute; reflexivity)) as (n & _ & Hok).
    destruct (Hok _ eq_refl) as [Hl Hk].
    split; [rewrite Hl; vm_compute; reflexivity|].
    apply Hk. vm_compute. apply list_elem_of_here.
Defined.



Lemma cache_data_tolerates_missing_days_witness :
  (exists w1,
      get_data_for_date early_remote csv_unquoted sample_json_dumps
        sample_json_loads (strftime sample_latest) false
        empty_world = (Raise (HTTPError 404), w1)
      /\ cache_loop early_remote csv_unquoted sample_json_dumps
           sample_json_loads sample_latest false 2 empty_world
         = cache_loop early_remote csv_unquoted sample_json_dumps
             sample_json_loads (add_days sample_latest (-1)) false 1 w1)
  /\ (cache_data early_remote csv_unquoted sample_json_dumps sample_json_loads
        sample_latest 5 false empty_world).1
     = Ok tt
  /\ lookups
       (cache_data early_remote csv_unquoted sample_json_dumps
          sample_json_loads sample_latest 5 false empty_world).2
     = ["12-03-2020"; "12-04-2020"]
  /\ (cache_data offline_remote csv_unquoted sample_json_dumps
        sample_json_loads sample_latest 5 false empty_world).1
     = Raise URLError.
Proof.
  destruct (cache_data_tolerates_missing_days early_remote csv_unquoted
              sample_json_dumps sample_json_loads sample_latest)
    as (_ & Hskip & _).
  destruct (cache_data_tolerates_missing_days offline_remote csv_unquoted
              sample_json_dumps sample_json_loads sample_latest)
    as (_ & _ & Hstop).
  split; [|split; [|split]].
  - eexists. split; [vm_compute; reflexivity|].
    apply (Hskip sample_latest false 1%nat empty_world 404). vm_compute. reflexivity.
  - vm_compute. reflexivity.
  - vm_compute. reflexivity.
  - unfold cache_data. replace (Z.to_nat _) with 2%nat by (vm_compute; reflexivity).
    erewrite Hstop; [reflexivity | vm_compute; reflexivity | reflexivity].
Defined.

(** C8, as stated, fails: an error that is no missing report does not
    always end the run.  A remote that answers every request with the
    status 500 makes every lookup raise [HTTPError], and [cache_data]
    passes over each of them and returns. *)
Lemma cache_data_passes_over_server_errors :
  (get_data_for_date failing_remote csv_unquoted sample_json_dumps
     sample_json_loads "12-04-2020" false empty_world).1
  = Raise (HTTPError 500)
  /\ (get_data_for_date failing_remote csv_unquoted sample_json_dumps
        sample_json_loads "12-03-2020" false empty_world).1
     = Raise (HTTPError 500)
  /\ (cache_data failing_remote csv_unquoted sample_json_dumps
        sample_json_loads sample_latest 5 false empty_world).1 = Ok tt
  /\ lookups
       (cache_data failing_remote csv_unquoted sample_json_dumps
          sample_json_loads sample_latest 5 false empty_world).2
     = ["12-03-2020"; "12-04-2020"].
Proof. split_and!; vm_compute; reflexivity. Qed.

(** At [origin_date] the day before is clamped away: the series has one
    entry, and unpacking it into two raises. *)
Example get_new_changes_at_origin :
  raised (get_new_changes sample_remote csv_unquoted sample_json_dumps
            sample_json_loads sample_latest "X" origin_date empty_world).1
  = Some (ValueError "not enough values to unpack (expected 2, got 1)").
Proof. vm_compute. reflexivity. Qed.

(** * Errors *)

Lemma int_of_Raise s e :
  int_of s = Raise e -> py_int s = None /\ e = int_error s.
Proof. unfold int_of. destruct (py_int s); [discriminate|]. by intros [= <-]. Qed.

Lemma map_int_Raise fields e :
  map_int fields = Raise e ->
  exists i field,
    fields !! i = Some field /\ py_int field = None /\ e = int_error field.
Proof.
  induction fields as [|s fields IH]; [discriminate|]. cbn [map_int].
  destruct (int_of s) as [v|e0] eqn:Hs; cbn [result_bind].
  - destruct (map_int fields) as [vs|e1]; [discriminate|]. cbn [result_bind].
    intros [= <-]. destruct (IH eq_refl) as (i & field & Hi & Hfield).
    by exists (S i), field.
  - intros [= <-]. apply int_of_Raise in Hs as [Hs ->]. by exists 0%nat, s.
Qed.

Lemma add_fields_Raise entry tally i n e :
  add_fields entry tally i n = Raise e ->
  e = IndexError
  \/ exists j field,
       (i <= j < i + n)%nat /\ entry !! (starting_index + j)%nat = Some field
       /\ py_int field = None /\ e = int_error field.
Proof.
  revert tally i. induction n as [|n IH]; intros tally i; [discriminate|].
  cbn [add_fields]. unfold add_field.
  destruct (tally !! i) as [old|]; [|intros [= <-]; by left].
  destruct (entry !! (starting_index + i)%nat) as [s|] eqn:Hs;
    [|intros [= <-]; by left].
  destruct (int_of s) as [v|e0] eqn:Hint; cbn [result_bind].
  - intros H. apply IH in H as [-> | (j & field & Hj & Hfield)]; [by left|].
    right. exists j, field. split; [lia | done].
  - intros [= <-]. apply int_of_Raise in Hint as [Hint ->].
    right. exists i, s. split; [lia | done].
Qed.

(** The first field that is no integer stops [map(int, ...)] and the loop
    over the fields of a country that is there. *)
Lemma map_int_first_bad fields i field :
  fields !! i = Some field -> py_int field = None ->
  (forall j s, (j < i)%nat -> fields !! j = Some s -> is_Some (py_int s)) ->
  map_int fields = Raise (int_error field).
Proof.
  revert fields. induction i as [|i IH]; intros [|s fields] Hi Hbad Hgood;
    try discriminate.
  - injection Hi as ->. cbn [map_int]. unfold int_of. by rewrite Hbad.
  - cbn [map_int]. destruct (Hgood 0%nat s) as [v Hv]; [lia | done |].
    unfold int_of at 1. rewrite Hv. cbn [result_bind].
    rewrite (IH fields); [done | done | done |].
    intros j s' Hj Hs'. apply (Hgood (S j)); [lia | done].
Qed.

Lemma add_fields_first_bad entry tally k n i field :
  (k <= i < k + n)%nat -> (i < length tally)%nat ->
  entry !! (starting_index + i)%nat = Some field -> py_int field = None ->
  (forall j s, (k <= j < i)%nat -> entry !! (starting_index + j)%nat = Some s ->
               is_Some (py_int s)) ->
  (forall j, (k <= j < i)%nat -> is_Some (entry !! (starting_index + j)%nat)) ->
  add_fields entry tally k n = Raise (int_error field).
Proof.
  revert tally k. induction n as [|n IH]; intros tally k Hk Hlen Hi Hbad Hgood Hthere;
    [lia|].
  cbn [add_fields]. unfold add_field.
  destruct (lookup_lt_is_Some_2 tally k) as [old ->]; [lia|].
  destruct (decide (k = i)) as [-> | Hne].
  - rewrite Hi. unfold int_of. by rewrite Hbad.
  - destruct (Hthere k) as [s Hs]; [lia|]. rewrite Hs.
    destruct (Hgood k s) as [v Hv]; [lia | done |].
    unfold int_of. rewrite Hv. cbn [result_bind].
    apply IH; try done; [lia | by rewrite length_insert | |].
    + intros j s' Hj. apply Hgood. lia.
    + intros j Hj. apply Hthere. lia.
Qed.

Lemma aggregate_entry_Raise data entry e :
  aggregate_entry data entry = Raise e ->
  e = IndexError
  \/ exists i field,
       (7 <= i < 11)%nat /\ entry !! i = Some field
       /\ py_int (empty_as_zero field) = None
       /\ e = int_error (empty_as_zero field).
Proof.
  unfold aggregate_entry.
  destruct (normalise_entry entry !! 3%nat) as [country_name|];
    [|intros [= <-]; by left].
  destruct (data !! country_name) as [tally|].
  - destruct (add_fields _ _ _ _) as [tally'|e0] eqn:H; [discriminate|].
    cbn [result_bind]. intros [= <-].
    apply add_fields_Raise in H as [-> | (j & field & Hj & Hfield & Hbad & ->)];
      [by left|].
    right. rewrite normalise_entry_lookup in Hfield.
    destruct (entry !! (starting_index + j)%nat) as [s|] eqn:Hs; [|discriminate].
    injection Hfield as <-. exists (starting_index + j)%nat, s.
    unfold starting_index, number_of_field in *. split; [lia | done].
  - destruct (map_int _) as [tally|e0] eqn:H; [discriminate|].
    cbn [result_bind]. intros [= <-].
    apply map_int_Raise in H as (i & field & Hi & Hbad & ->).
    right. apply lookup_take_Some in Hi as [Hi Hlt].
    rewrite lookup_drop, normalise_entry_lookup in Hi.
    destruct (entry !! (starting_index + i)%nat) as [s|] eqn:Hs; [|discriminate].
    injection Hi as <-. exists (starting_index + i)%nat, s.
    unfold starting_index, number_of_field in *. split; [lia | done].
Qed.

Lemma int_error_message field :
  int_error field
  = ValueError ("invalid literal for int() with base 10: "
                +:+ String.substring 0 200 (py_repr field))
  /\ int_error field <> ValueError invalid_date_message
  /\ int_error field <> ValueError "Invalid date format".
Proof.
  split; [done|]. unfold int_error.
  split; intros [= H]; cbv [String.append] in H; discriminate H.
Qed.

Section Errors.
Context (urlopen : string -> result (list string)).
Context (csv_reader : string -> result (list (list string))).
Context (json_dumps : gmap string (list Z) -> string).
Context (json_loads : string -> result (gmap string (list Z))).
Context (latest_date : datetime).

Local Abbreviation get_data_for_date :=
  (get_data_for_date urlopen csv_reader json_dumps json_loads).
Local Abbreviation country_loop :=
  (country_loop urlopen csv_reader json_dumps json_loads).

(** What stops the loop of [get_country_data] is the exception of a lookup,
    or an aggregate without the country. *)
Lemma country_loop_Raise country start_date indices result w e w1 :
  country_loop country start_date indices result w = (Raise e, w1) ->
  exists i w0,
    i ∈ indices
    /\ (get_data_for_date (strftime (add_days start_date i)) false w0
        = (Raise e, w1)
        \/ exists data,
             get_data_for_date (strftime (add_days start_date i)) false w0
             = (Ok data, w1)
             /\ data !! country = None /\ e = ValueError country).
Proof.
  revert result w. induction indices as [|i indices IH]; intros result w;
    [discriminate|].
  cbn [country_loop]. cbv zeta. unfold bind.
  destruct (get_data_for_date _ _ _) as [[data|e0] w0] eqn:Hget.
  - destruct (data !! country) as [country_data|] eqn:Hc.
    + intros H. apply IH in H as (j & wj & Hj & H).
      exists j, wj. split; [by apply list_elem_of_further | done].
    + intros [= <- <-]. exists i, w. split; [apply list_elem_of_here|].
      right. by exists data.
  - intros [= <- <-]. exists i, w. split; [apply list_elem_of_here | by left].
Qed.

End Errors.

(** C9, as the code has it: every failure is a Python exception, and the
    code has no error kinds of its own.  A malformed date raises a
    [ValueError] with one of two fixed messages, neither of which holds the
    date text: the one of [create_source_url] and [get_data_for_date], and
    the one of [normalise_datetime].  An absent country raises [ValueError]
    with the country name, at the first day of the range without it, and a
    query raises nothing else of its own.  A field at the offsets 7 to 10
    that is no integer, of a row of a new country as of a country that is
    there, raises the [ValueError] of [int], whose message quotes the field
    as [repr] writes it (its first 200 characters); a row that is too short
    raises [IndexError]; a row raises nothing else.  What [urlopen] raises
    ([HTTPError] for a missing report, another [URLError] otherwise) is
    raised unchanged.  So a caller tells the remote failures from the
    [ValueError]s by their class, and the [ValueError]s from each other by
    their message alone: the one of an absent country is the one of a
    malformed date exactly when the country name is that fixed message, and
    it is the one of a field exactly when the country name is the message
    of [int]; the one of a field is never the one of a malformed date. *)
Theorem pipeline_exceptions :
  (forall urlopen csv_reader json_dumps json_loads date_string force w,
      matches_date_pattern date_string = false ->
      get_data_for_date urlopen csv_reader json_dumps json_loads
        date_string force w
      = (Raise (ValueError invalid_date_message), log_lookup date_string w)
      /\ create_source_url date_string
         = Raise (ValueError invalid_date_message))
  /\ (forall parse date_string message,
         parse date_string = Raise (ValueError message) ->
         normalise_datetime parse date_string
         = Raise (ValueError "Invalid date format"))
  /\ (forall urlopen csv_reader json_dumps json_loads latest_date
        country start_date end_date data w w1,
         0 <= days_between (clamp_end latest_date end_date) (clamp_start start_date) ->
         get_data_for_date urlopen csv_reader json_dumps json_loads
           (strftime (clamp_start start_date)) false w = (Ok data, w1) ->
         data !! country = None ->
         get_country_data urlopen csv_reader json_dumps json_loads latest_date
           country start_date end_date w = (Raise (ValueError country), w1))
  /\ (forall urlopen csv_reader json_dumps json_loads latest_date
        country start_date end_date w e w1,
         get_country_data urlopen csv_reader json_dumps json_loads latest_date
           country start_date end_date w = (Raise e, w1) ->
         exists d w0,
           d ∈ range_dates (clamp_start start_date)
                 (clamp_end latest_date end_date)
           /\ (get_data_for_date urlopen csv_reader json_dumps json_loads
                 d false w0 = (Raise e, w1)
               \/ exists data,
                    get_data_for_date urlopen csv_reader json_dumps json_loads
                      d false w0 = (Ok data, w1)
                    /\ data !! country = None /\ e = ValueError country))
  /\ (forall data entry country i field,
         (i < 4)%nat ->
         row_country entry = Some country ->
         (data !! country = None
          \/ exists tally, data !! country = Some tally
                           /\ (i < length tally)%nat) ->
         (forall j, (j < i)%nat -> is_Some (field_int entry (7 + j))) ->
         entry !! (7 + i)%nat = Some field ->
         py_int (empty_as_zero field) = None ->
         aggregate_entry data entry = Raise (int_error (empty_as_zero field)))
  /\ (forall data entry e,
         aggregate_entry data entry = Raise e ->
         e = IndexError
         \/ exists i field,
              (7 <= i < 11)%nat /\ entry !! i = Some field
              /\ py_int (empty_as_zero field) = None
              /\ e = int_error (empty_as_zero field))
  /\ (forall data entry,
         (length entry <= 3)%nat -> aggregate_entry data entry = Raise IndexError)
  /\ (forall urlopen json_dumps url force w,
         (forall e, urlopen url = Raise e ->
            force = true \/ files w !! path_name url = None ->
            get_source_file urlopen json_dumps url force w
            = (Raise e, log_request url w))
         /\ (forall e w1,
               get_source_file urlopen json_dumps url force w = (Raise e, w1) ->
               urlopen url = Raise e \/ e = IsADirectoryError))
  /\ (forall urlopen csv_reader json_dumps json_loads date_string force w name,
         matches_date_pattern date_string = false ->
         (get_data_for_date urlopen csv_reader json_dumps json_loads
            date_string force w).1 = Raise (ValueError name)
         <-> name = invalid_date_message)
  /\ (forall parse date_string message name,
         parse date_string = Raise (ValueError message) ->
         normalise_datetime parse date_string = Raise (ValueError name)
         <-> name = "Invalid date format")
  /\ (forall field,
         int_error field
         = ValueError ("invalid literal for int() with base 10: "
                       +:+ String.substring 0 200 (py_repr field))
         /\ int_error field <> ValueError invalid_date_message
         /\ int_error field <> ValueError "Invalid date format").
Proof.
  split_and!.
  - intros urlopen csv_reader json_dumps json_loads date_string force w H.
    split; [by apply get_data_for_date_rejected|].
    unfold create_source_url. by rewrite H.
  - intros parse date_string message H. unfold normalise_datetime. by rewrite H.
  - intros urlopen csv_reader json_dumps json_loads latest_date country
      start_date end_date data w w1 Hdays Hget Habsent.
    unfold get_country_data. rewrite seqZ_cons by lia. cbn [country_loop].
    cbv zeta. unfold bind.
    replace (add_days (clamp_start start_date) 0) with (clamp_start start_date)
      by (unfold add_days; lia).
    by rewrite Hget, Habsent.
  - intros urlopen csv_reader json_dumps json_loads latest_date country
      start_date end_date w e w1 H. unfold get_country_data in H.
    apply country_loop_Raise in H as (i & w0 & Hi & H).
    exists (strftime (add_days (clamp_start start_date) i)), w0.
    split; [|done]. unfold range_dates. apply list_elem_of_fmap. eauto.
  - intros data entry country i field Hi Hc Hdata Hgood Hfield Hbad.
    unfold aggregate_entry. rewrite normalise_entry_lookup.
    unfold row_country in Hc. rewrite Hc.
    assert (Hfield' : normalise_entry entry !! (starting_index + i)%nat
                      = Some (empty_as_zero field))
      by (by rewrite normalise_entry_lookup; unfold starting_index; rewrite Hfield).
    assert (Hgood' : forall j s, (j < i)%nat ->
              normalise_entry entry !! (starting_index + j)%nat = Some s ->
              is_Some (py_int s)).
    { intros j s Hj Hs. destruct (Hgood j Hj) as [v Hv].
      unfold field_int in Hv. rewrite normalise_entry_lookup in Hs.
      unfold starting_index in Hs.
      destruct (entry !! (7 + j)%nat) as [s0|]; [|discriminate].
      injection Hs as <-. by exists v. }
    destruct Hdata as [-> | (tally & -> & Hlen)].
    + rewrite (map_int_first_bad _ i (empty_as_zero field)); try done.
      * apply lookup_take_Some. split; [|unfold number_of_field; lia].
        by rewrite lookup_drop.
      * intros j s Hj Hs. apply lookup_take_Some in Hs as [Hs _].
        rewrite lookup_drop in Hs. by eapply Hgood'.
    + rewrite (add_fields_first_bad _ _ _ _ i (empty_as_zero field)); try done.
      * unfold number_of_field. lia.
      * intros j s Hj. apply Hgood'. lia.
      * intros j Hj. destruct (Hgood j) as [v Hv]; [lia|].
        unfold field_int in Hv. rewrite normalise_entry_lookup.
        unfold starting_index.
        by destruct (entry !! (7 + j)%nat).
  - apply aggregate_entry_Raise.
  - intros data entry Hlen. unfold aggregate_entry.
    rewrite normalise_entry_lookup, lookup_ge_None_2 by lia. done.
  - intros urlopen json_dumps url force w. split.
    + intros e He Hmiss. destruct Hmiss as [-> | Hnone].
      * by rewrite get_source_file_forced, He.
      * destruct force; [by rewrite get_source_file_forced, He|].
        by rewrite get_source_file_miss, He.
    + intros e w1 H.
      assert (Hdown :
        match urlopen url with
        | Raise e => (Raise e, log_request url w)
        | Ok lines =>
            if is_directory (path_name url)
            then (Raise IsADirectoryError, log_request url w)
            else (Ok lines,
                  write_file (path_name url) (Report (join lines))
                    (log_request url w))
        end = (Raise e, w1) ->
        urlopen url = Raise e \/ e = IsADirectoryError).
      { destruct (urlopen url) as [lines|e0]; [|intros [= <- _]; by left].
        destruct (is_directory _); [|discriminate]. intros [= <- _]. by right. }
      destruct force; [rewrite get_source_file_forced in H; by apply Hdown|].
      destruct (files w !! path_name url) as [c|] eqn:E.
      * by rewrite (get_source_file_hit _ _ _ c) in H.
      * rewrite get_source_file_miss in H by done. by apply Hdown.
  - intros urlopen csv_reader json_dumps json_loads date_string force w name H.
    rewrite get_data_for_date_rejected by done. cbn [fst].
    split; [by intros [= <-] | by intros ->].
  - intros parse date_string message name H. unfold normalise_datetime.
    rewrite H. split; [by intros [= <-] | by intros ->].
  - apply int_error_message.
Qed.

Lemma pipeline_exceptions_witness :
  get_data_for_date sample_remote csv_unquoted sample_json_dumps
    sample_json_loads "2020-12-03" false empty_world
  = (Raise (ValueError invalid_date_message), log_lookup "2020-12-03" empty_world)
  /\ (get_country_data sample_remote csv_unquoted sample_json_dumps
        sample_json_loads sample_latest "Testland"
        (Some (datetime_of 2020 12 3)) None empty_world).1
     = Raise (ValueError "Testland")
  /\ aggregate_entry {["X" := [1; 2; 3; 4]]}
       (sample_row "" "X" "5" "6" "it's" "8")
     = Raise (ValueError
                ("invalid literal for int() with base 10: "
                 +:+ String double_quote ("it's" +:+ String double_quote "")))
  /\ (get_source_file offline_remote sample_json_dumps
        (report_url "12-03-2020") false empty_world).1 = Raise URLError.
Proof.
  destruct pipeline_exceptions
    as (Hdate & _ & Hcountry & _ & Hfield & _ & _ & Hremote & _).
  split_and!.
  - apply Hdate. vm_compute. reflexivity.
  - erewrite Hcountry; [reflexivity | vm_compute; discriminate
                       | vm_compute; reflexivity | vm_compute; reflexivity].
  - rewrite (Hfield _ _ "X" 2%nat "it's").
    + vm_compute. reflexivity.
    + lia.
    + reflexivity.
    + right. eexists. split; [vm_compute; reflexivity | cbn; lia].
    + intros j Hj. destruct j as [|[|j]]; [by eexists | by eexists | lia].
    + reflexivity.
    + vm_compute. reflexivity.
  - erewrite (proj1 (Hremote offline_remote sample_json_dumps _ false empty_world));
      [reflexivity | reflexivity | right; vm_compute; reflexivity].
Defined.

(** C9, as stated, fails: the exception of a malformed date is the same for
    every malformed date, so it does not hold the date text, and it is the
    very exception raised for an absent country of that name; so it is for
    the exception of [normalise_datetime]; and these, and the one of a field
    that is no integer, are [ValueError]s. *)
Lemma exceptions_not_distinguishable :
  let date_error d :=
    raised (get_data_for_date sample_remote csv_unquoted sample_json_dumps
              sample_json_loads d false empty_world).1 in
  let country_error c :=
    raised (get_country_data sample_remote csv_unquoted sample_json_dumps
              sample_json_loads sample_latest c None None empty_world).1 in
  let field_error field :=
    raised (extract_source_data sample_json_loads
              [sample_header; sample_row "" "X" field "1" "2" "3"]
              None false empty_world).1.1 in
  let text_error s := raised (normalise_datetime parse_numeric_only s) in
  date_error "2020-12-03" = date_error "3 December"
  /\ date_error "2020-12-03" = Some (ValueError invalid_date_message)
  /\ country_error invalid_date_message = Some (ValueError invalid_date_message)
  /\ text_error "31-02-2021" = text_error "tomorrow"
  /\ text_error "31-02-2021" = Some (ValueError "Invalid date format")
  /\ country_error "Invalid date format" = Some (ValueError "Invalid date format")
  /\ country_error "Atlantis" = Some (ValueError "Atlantis")
  /\ field_error "n/a"
     = Some (ValueError "invalid literal for int() with base 10: 'n/a'")
  /\ country_error "invalid literal for int() with base 10: 'n/a'"
     = field_error "n/a".
Proof. split_and!; vm_compute; reflexivity. Qed.

(** * Series *)

Lemma dict_set_fresh {V} k (v : V) d :
  dict_get k d = None -> dict_set k v d = (d ++ [(k, v)])%list.
Proof.
  induction d as [|[k' v'] d IH]; [done|]. cbn.
  destruct (String.eqb k' k); [discriminate|]. intros H. by rewrite IH.
Qed.

Lemma dict_set_length {V} k (v : V) d :
  (length d <= length (dict_set k v d) <= S (length d))%nat
  /\ (1 <= length (dict_set k v d))%nat.
Proof.
  induction d as [|[k' v'] d IH]; cbn; [lia|].
  destruct (String.eqb k' k); cbn; lia.
Qed.

Lemma ordinal_of_add_days t i : ordinal_of (add_days t i) = ordinal_of t + i.
Proof.
  unfold ordinal_of, add_days, day_us. Z.div_mod_to_equations. lia.
Qed.

(** Two days of a range print differently. *)
Lemma strftime_add_days_inj t i j :
  0 <= t -> 0 <= i -> 0 <= j ->
  add_days t i < datetime_max -> add_days t j < datetime_max ->
  strftime (add_days t i) = strftime (add_days t j) -> i = j.
Proof.
  intros Ht Hi Hj Hti Htj Heq.
  apply strftime_inj in Heq;
    [|unfold add_days, day_us in *; lia|unfold add_days, day_us in *; lia].
  rewrite !ordinal_of_add_days in Heq. lia.
Qed.

Section Series.
Context (urlopen : string -> result (list string)).
Context (csv_reader : string -> result (list (list string))).
Context (json_dumps : gmap string (list Z) -> string).
Context (json_loads : string -> result (gmap string (list Z))).
Context (latest_date : datetime).

Local Abbreviation get_data_for_date :=
  (get_data_for_date urlopen csv_reader json_dumps json_loads).
Local Abbreviation country_loop :=
  (country_loop urlopen csv_reader json_dumps json_loads).
Local Abbreviation cached_tally := (cached_tally json_loads).

(** The loop adds one entry a day at most, and loses none; after a day it
    has one entry at least. *)
Lemma country_loop_length country start_date indices result w series w1 :
  country_loop country start_date indices result w = (Ok series, w1) ->
  (length result <= length series <= length result + length indices)%nat
  /\ (indices <> [] -> 1 <= length series)%nat.
Proof.
  revert result w. induction indices as [|i indices IH]; intros result w.
  - intros [= <- <-]. cbn. split; [lia | done].
  - cbn [country_loop]. cbv zeta. unfold bind.
    destruct (get_data_for_date _ _ _) as [[data|e] w0]; [|discriminate].
    destruct (data !! country) as [country_data|]; [|discriminate].
    intros H. apply IH in H as [H _].
    pose proof (dict_set_length (strftime (add_days start_date i))
                  country_data result).
    cbn [length]. split; [lia|]. intros _. lia.
Qed.

(** The series that the loop returns: the entries it started from, then one
    entry for each date of the loop, in the order of the loop, with the
    tally of the country in the aggregate of that date. *)
Lemma country_loop_series country start_date indices result w series w1 :
  country_loop country start_date indices result w = (Ok series, w1) ->
  NoDup (map (fun i => strftime (add_days start_date i)) indices) ->
  (forall i, i ∈ indices ->
     dict_get (strftime (add_days start_date i)) result = None) ->
  exists tallies,
    series
    = (result
       ++ zip (map (fun i => strftime (add_days start_date i)) indices) tallies)%list
    /\ length tallies = length indices
    /\ Forall2 (fun i tally =>
                  cached_tally w1 country (strftime (add_days start_date i)) tally)
         indices tallies.
Proof.
  revert result w. induction indices as [|i indices IH]; intros result w.
  - intros [= <- <-] _ _. exists []. by rewrite app_nil_r.
  - cbn [country_loop]. cbv zeta. unfold bind.
    destruct (get_data_for_date _ _ _) as [[data|e] w0] eqn:Hget; [|discriminate].
    destruct (data !! country) as [country_data|] eqn:Hc; [|discriminate].
    intros Hrest Hnodup Hfresh. cbn [map] in Hnodup.
    apply NoDup_cons in Hnodup as [Hnotin Hnodup].
    rewrite dict_set_fresh in Hrest by (apply Hfresh; left).
    pose proof Hrest as Hle. apply country_loop_cache_le in Hle.
    apply cache_le_files in Hle.
    destruct (IH _ _ Hrest Hnodup) as (tallies & -> & Hlen & Hall).
    { intros j Hj. clear IH Hrest.
      assert (Hne : strftime (add_days start_date i)
                    <> strftime (add_days start_date j)).
      { intros Heq. apply Hnotin. rewrite Heq.
        apply list_elem_of_fmap. by exists j. }
      induction result as [|[k v] result IHr]; cbn.
      - by rewrite (proj2 (String.eqb_neq _ _) Hne).
      - pose proof (Hfresh j (list_elem_of_further _ _ _ Hj)) as Hfj.
        cbn in Hfj. destruct (String.eqb k _) eqn:Ek; [discriminate|].
        apply IHr. intros j' Hj'. specialize (Hfresh j' Hj'). cbn in Hfresh.
        by destruct (String.eqb k _). }
    exists (country_data :: tallies). split_and!.
    + by rewrite <- app_assoc.
    + cbn. by rewrite Hlen.
    + constructor; [|done].
      apply get_data_for_date_Ok in Hget as (_ & (c' & Hc' & Hload) & _).
      exists c', data. split_and!; [by eapply lookup_weaken | done | done].
Qed.

(** The date texts of a range are pairwise distinct. *)
Lemma range_dates_NoDup start_date n :
  0 <= start_date -> (0 < n -> add_days start_date (n - 1) < datetime_max) ->
  NoDup (map (fun i => strftime (add_days start_date i)) (seqZ 0 n)).
Proof.
  intros Hs Hn. apply NoDup_fmap_2_strong; [|apply NoDup_seqZ].
  intros i j Hi Hj Heq. apply elem_of_seqZ in Hi, Hj.
  specialize (Hn ltac:(lia)).
  apply (strftime_add_days_inj start_date); try lia; try done;
    unfold add_days, day_us in *; lia.
Qed.

End Series.

(** * The years of the reports *)

Lemma ord2ymd_year_iff n year month day bound :
  ord2ymd n = (year, month, day) -> 1 <= n ->
  (bound <= year <-> days_before_year bound < n).
Proof.
  intros Hymd Hn. split.
  - intros Hy. destruct (Z.lt_ge_cases (days_before_year bound) n) as [|Hle]; [done|].
    pose proof (ord2ymd_year_le n year month day (bound - 1) Hymd Hn) as H.
    replace (bound - 1 + 1) with bound in H by lia. specialize (H Hle). lia.
  - by apply (ord2ymd_year_ge n year month day).
Qed.

Lemma matches_strftime_iff t :
  0 <= t < datetime_max ->
  matches_date_pattern (strftime t) = true
  <-> datetime_of 2000 1 1 <= t < datetime_of 2100 1 1.
Proof.
  intros Ht. destruct (ord2ymd (ordinal_of t)) as [[year month] day] eqn:Hymd.
  pose proof (datetime_year_bound _ _ _ _ Hymd Ht) as Hyear.
  rewrite (strftime_matches t year month day Hymd) by lia.
  assert (Hord : 1 <= ordinal_of t)
    by (unfold ordinal_of, day_us; Z.div_mod_to_equations; lia).
  pose proof (ord2ymd_year_iff _ _ _ _ 2000 Hymd Hord) as H2000.
  pose proof (ord2ymd_year_iff _ _ _ _ 2100 Hymd Hord) as H2100.
  change (days_before_year 2000) with 730119 in H2000.
  change (days_before_year 2100) with 766644 in H2100.
  change (datetime_of 2000 1 1) with (730119 * day_us).
  change (datetime_of 2100 1 1) with (766644 * day_us).
  rewrite andb_true_iff, Z.leb_le, Z.leb_le.
  unfold ordinal_of, day_us in *. split.
  - intros [H1 H2]. apply H2000 in H1.
    assert (H3 : ~ 766644 < t / 86400000000 + 1) by (intros H; apply H2100 in H; lia).
    Z.div_mod_to_equations. lia.
  - intros [H1 H2]. split.
    + apply H2000. Z.div_mod_to_equations. lia.
    + destruct (Z.le_gt_cases year 2099) as [|Hgt]; [done|].
      assert (H3 : 2100 <= year) by lia. apply H2100 in H3.
      Z.div_mod_to_equations. lia.
Qed.

(** * The latest date *)

Section StartupFacts.
Context (urlopen : string -> result (list string)).
Context (json_dumps : gmap string (list Z) -> string).

Local Abbreviation probe := (probe urlopen json_dumps).
Local Abbreviation find_latest_date := (find_latest_date urlopen json_dumps).

Lemma probe_rejected date w :
  matches_date_pattern (strftime date) = false ->
  probe date w = (Raise (ValueError invalid_date_message), w).
Proof.
  intros H. unfold probe, bind, lift, create_source_url. by rewrite H.
Qed.

Lemma probe_accepted date w :
  matches_date_pattern (strftime date) = true ->
  probe date w
  = get_source_file urlopen json_dumps (report_url (strftime date)) false w.
Proof.
  intros H. unfold probe, bind, lift, create_source_url. rewrite H. cbn [negb].
  by destruct (get_source_file _ _ _ _ _) as [[?|?] ?].
Qed.

Lemma find_latest_date_S fuel date w :
  find_latest_date (S fuel) date w =
  match probe date w with
  | (Ok _, w') => (Ok (Some date), w')
  | (Raise (HTTPError _), w') =>
      find_latest_date fuel (add_days date (-1)) w'
  | (Raise e, w') => (Raise e, w')
  end.
Proof. reflexivity. Qed.

End StartupFacts.

(** * Totals *)

Lemma tally_add_comm a b : tally_add a b = tally_add b a.
Proof.
  unfold tally_add. revert b. induction a as [|x a IH]; intros [|y b]; cbn; try done.
  f_equal; [lia | apply IH].
Qed.

Lemma tally_add_swap a b c :
  tally_add a (tally_add b c) = tally_add b (tally_add a c).
Proof.
  by rewrite <- !tally_add_assoc, (tally_add_comm a b).
Qed.

Lemma grand_total_insert data c tally :
  data !! c = None ->
  grand_total (<[c := tally]> data) = tally_add tally (grand_total data).
Proof.
  intros H. unfold grand_total.
  rewrite map_fold_insert_L; [done| |done].
  intros. apply tally_add_swap.
Qed.

Lemma grand_total_update data c old tally :
  data !! c = Some old ->
  grand_total (<[c := tally_add old tally]> data)
  = tally_add tally (grand_total data).
Proof.
  intros H.
  rewrite <- (insert_delete_eq data c (tally_add old tally)).
  rewrite grand_total_insert by apply lookup_delete_eq.
  rewrite <- (insert_delete_id data c old H) at 2.
  rewrite grand_total_insert by apply lookup_delete_eq.
  by rewrite tally_add_assoc, tally_add_swap.
Qed.

Lemma grand_total_length (data : gmap string (list Z)) :
  (forall c t, data !! c = Some t -> length t = 4%nat) ->
  length (grand_total data) = 4%nat.
Proof.
  unfold grand_total.
  apply (map_fold_weak_ind
           (fun acc (m : gmap string (list Z)) =>
              (forall c t, m !! c = Some t -> length t = 4%nat) ->
              length acc = 4%nat)); [done|].
  intros c t m acc Hm IH Hlen. rewrite tally_add_length, IH.
  - rewrite (Hlen c t) by apply lookup_insert_eq. done.
  - intros c' t' H. apply (Hlen c').
    rewrite lookup_insert_ne; [done|]. intros ->. congruence.
Qed.

(** No row is lost and none is counted twice: the totals over the countries
    are the totals over the rows. *)
Lemma aggregate_total rows :
  Forall row_ok rows ->
  forall data : gmap string (list Z),
    (forall c t, data !! c = Some t -> length t = 4%nat) ->
    exists m, aggregate data rows = Ok m
      /\ grand_total m = tally_add (rows_total rows) (grand_total data).
Proof.
  induction 1 as [|r rows [vs Hr] Hrows IH]; intros data Hlen.
  - exists data. split; [done|]. change (rows_total []) with [0; 0; 0; 0].
    rewrite tally_add_comm. symmetry. by apply tally_add_zero, grand_total_length.
  - cbn [aggregate]. rewrite aggregate_entry_step.
    destruct (entry_values_country _ _ Hr) as [cr Hc].
    assert (Hn : normalise_entry r !! 3%nat = Some cr)
      by (rewrite normalise_entry_lookup; exact Hc).
    rewrite Hn.
    pose proof (entry_values_length _ _ Hr) as Hv.
    assert (Hstep : exists t1, entry_step r (data !! cr) = Ok t1 /\ length t1 = 4%nat /\
              t1 = match data !! cr with Some t => tally_add t vs | None => vs end).
    { destruct (data !! cr) as [t|] eqn:E; cbn [entry_step].
      - pose proof (Hlen _ _ E) as Ht.
        destruct t as [|a0 [|a1 [|a2 [|a3 [|]]]]]; try discriminate.
        destruct vs as [|v0 [|v1 [|v2 [|v3 [|]]]]]; try discriminate.
        eexists. split; [apply add_fields_Ok; eauto 15|]. done.
      - exists vs. split; [by apply map_int_slice_of_values|]. done. }
    destruct Hstep as (t1 & Hs & Hl1 & Ht1). rewrite Hs. cbn [result_bind].
    destruct (IH (<[cr := t1]> data)) as (m & Hm & Htotal).
    { intros c t. rewrite lookup_insert. case_decide; [congruence | eauto]. }
    exists m. split; [exact Hm|]. rewrite Htotal. cbn [rows_total foldr].
    fold (rows_total rows). rewrite Hr.
    destruct (data !! cr) as [t|] eqn:E; subst t1.
    + rewrite (grand_total_update _ _ _ _ E).
      by rewrite <- !tally_add_assoc, (tally_add_comm (rows_total rows) vs).
    + rewrite (grand_total_insert _ _ _ E).
      by rewrite <- !tally_add_assoc, (tally_add_comm (rows_total rows) vs).
Qed.

Lemma rows_total_length rows : length (rows_total rows) = 4%nat.
Proof.
  induction rows as [|r rows IH]; [done|]. cbn [rows_total foldr].
  fold (rows_total rows). destruct (entry_values r) as [vs|] eqn:E; [|done].
  by rewrite tally_add_length, IH, (entry_values_length _ _ E).
Qed.

(** * Countries *)

Lemma map_int_length fields vs : map_int fields = Ok vs -> length vs = length fields.
Proof.
  revert vs. induction fields as [|s fields IH]; intros vs; [by intros [= <-]|].
  cbn [map_int]. intros H. apply result_bind_Ok in H as (v & _ & H).
  apply result_bind_Ok in H as (vs' & Hvs & [= <-]). cbn. by rewrite (IH vs').
Qed.

Lemma add_fields_length entry tally i n tally' :
  add_fields entry tally i n = Ok tally' -> length tally' = length tally.
Proof.
  revert tally i. induction n as [|n IH]; intros tally i; [by intros [= <-]|].
  cbn [add_fields]. intros H. apply result_bind_Ok in H as (t1 & H1 & H2).
  apply IH in H2. rewrite H2. unfold add_field in H1.
  destruct (tally !! i); [|discriminate].
  destruct (entry !! _); [|discriminate].
  apply result_bind_Ok in H1 as (v & _ & [= <-]). apply length_insert.
Qed.

Lemma entry_step_length entry old tally :
  entry_step entry old = Ok tally ->
  match old with
  | Some t => length tally = length t /\ (4 <= length t)%nat
  | None => (length tally <= 4)%nat
  end.
Proof.
  destruct old as [t|]; cbn [entry_step]; intros H.
  - split; [by eapply add_fields_length|].
    apply add_fields_Ok in H as (a0 & a1 & a2 & a3 & rest & _ & _ & _ & _ & -> & _).
    cbn. lia.
  - apply map_int_length in H. rewrite H, length_take. unfold number_of_field. lia.
Qed.

Lemma aggregate_entry_Ok data entry data' :
  aggregate_entry data entry = Ok data' ->
  exists c tally,
    row_country entry = Some c
    /\ entry_step entry (data !! c) = Ok tally
    /\ data' = <[c := tally]> data.
Proof.
  rewrite aggregate_entry_step, normalise_entry_lookup.
  fold (row_country entry).
  destruct (row_country entry) as [c|]; [|discriminate]. cbn.
  intros H. apply result_bind_Ok in H as (t & Ht & [= <-]). eauto.
Qed.

(** The countries of an aggregate are the countries of its rows, and a tally
    has four entries at most. *)
Lemma aggregate_keys rows :
  forall data m,
    aggregate data rows = Ok m ->
    Forall (fun entry => is_Some (row_country entry)) rows
    /\ (forall c, is_Some (m !! c) <->
                  is_Some (data !! c)
                  \/ exists entry, entry ∈ rows /\ row_country entry = Some c)
    /\ ((forall c t, data !! c = Some t -> (length t <= 4)%nat) ->
        forall c t, m !! c = Some t -> (length t <= 4)%nat).
Proof.
  induction rows as [|r rows IH]; intros data m.
  - intros [= <-]. split_and!; [done| |done].
    intros c. split; [by left|]. intros [H | (entry & H & _)]; [done|].
    by apply elem_of_nil in H.
  - cbn [aggregate]. intros H. apply result_bind_Ok in H as (d1 & H1 & H2).
    apply aggregate_entry_Ok in H1 as (cr & t1 & Hcr & Hstep & ->).
    apply IH in H2 as (Hall & Hkeys & Hlen). split_and!.
    + constructor; [by rewrite Hcr | done].
    + intros c. rewrite Hkeys, lookup_insert_is_Some. split.
      * intros [[-> | [_ H]] | (entry & Hin & Hc)].
        -- right. exists r. split; [left|done].
        -- by left.
        -- right. exists entry. split; [by right|done].
      * intros [H | (entry & Hin & Hc)].
        -- left. destruct (decide (cr = c)); [by left | by right].
        -- apply elem_of_cons in Hin as [-> | Hin].
           ++ left. left. congruence.
           ++ right. eauto.
    + intros Hdata. apply Hlen. intros c t.
      rewrite lookup_insert. case_decide as Hc; [|by apply Hdata].
      intros [= <-]. apply entry_step_length in Hstep.
      destruct (data !! cr) as [t|] eqn:E; [|done].
      destruct Hstep as [-> _]. by eapply Hdata.
Qed.

(** * The validators *)

Lemma strptime_numeric_pad year month day :
  1 <= month <= 12 -> 1 <= day <= 31 -> 1 <= year <= 9999 ->
  strptime_numeric (pad2 month +:+ "-" +:+ pad2 day +:+ "-" +:+ pad4 year)
  = Some (make_datetime year month day).
Proof.
  intros Hm Hd Hy.
  cbv [strptime_numeric pad2 pad4 String.append].
  rewrite (two_digits_pad month), (two_digits_pad day) by lia.
  rewrite month_digits_pad, day_digits_pad by lia. cbn [andb negb].
  replace (digit_char (year / 10)) with (digit_char ((year mod 100) / 10)).
  2:{ unfold digit_char. do 3 f_equal. Z.div_mod_to_equations. lia. }
  replace (digit_char year) with (digit_char (year mod 100)).
  2:{ unfold digit_char. do 3 f_equal. Z.div_mod_to_equations. lia. }
  replace (digit_char (year / 1000)) with (digit_char ((year / 100) / 10)).
  2:{ unfold digit_char. do 3 f_equal. Z.div_mod_to_equations. lia. }
  rewrite (two_digits_pad (year / 100)) by (Z.div_mod_to_equations; lia).
  rewrite (two_digits_pad (year mod 100)) by (Z.div_mod_to_equations; lia).
  replace (100 * (year / 100) + year mod 100) with year
    by (Z.div_mod_to_equations; lia).
  by rewrite (proj2 (Z.eqb_neq year 0)) by lia.
Qed.

Section ValidatorFacts.
Context (parse strptime : string -> result datetime).
Context (latest_date : datetime).

Hypothesis strptime_numeric_agrees :
  forall s r, strptime_numeric s = Some r -> strptime s = r.

Lemma strptime_strftime t year month day :
  0 <= t -> ord2ymd (ordinal_of t) = (year, month, day) ->
  1000 <= year <= 9999 ->
  strptime (strftime t) = Ok (datetime_of year month day)
  /\ strftime (datetime_of year month day) = strftime t
  /\ datetime_of year month day <= t.
Proof.
  intros Ht Hymd Hyear.
  assert (Hord : 1 <= ordinal_of t)
    by (unfold ordinal_of, day_us; Z.div_mod_to_equations; lia).
  pose proof (ymd2ord_ord2ymd _ Hord) as Hcal. rewrite Hymd in Hcal.
  destruct Hcal as (Hback & Hm & Hd & Hy & Hdim).
  assert (Htext : strftime t
                  = pad2 month +:+ "-" +:+ pad2 day +:+ "-" +:+ pad4 year)
    by (unfold strftime; by rewrite Hymd).
  split_and!.
  - rewrite (strptime_numeric_agrees (strftime t) (make_datetime year month day))
      by (rewrite Htext; apply strptime_numeric_pad; lia).
    apply make_datetime_valid; lia.
  - rewrite strftime_datetime_of by lia. done.
  - unfold datetime_of. rewrite Hback. unfold ordinal_of, day_us.
    Z.div_mod_to_equations. lia.
Qed.

End ValidatorFacts.

(** * Coherence of the two caches *)

Lemma date_names_inj d d' :
  matches_date_pattern d = true -> matches_date_pattern d' = true ->
  raw_name d' = raw_name d \/ derived_name d' = derived_name d -> d' = d.
Proof.
  intros Hmatch Hmatch' Heq.
  destruct (created_url_names d Hmatch) as [_ Hhead].
  destruct (created_url_names d' Hmatch') as [_ Hhead'].
  destruct Heq as [Heq | Heq].
  - unfold raw_name in Heq. rewrite <- (Hhead' "csv"), Heq. apply Hhead.
  - unfold derived_name in Heq. apply (inj (String.append "extracted-")) in Heq.
    rewrite <- (Hhead' "json"), Heq. apply Hhead.
Qed.

Section Coherence.
Context (urlopen : string -> result (list string)).
Context (csv_reader : string -> result (list (list string))).
Context (json_dumps : gmap string (list Z) -> string).
Context (json_loads : string -> result (gmap string (list Z))).
Context (latest_date : datetime).

Local Abbreviation get_source_file := (get_source_file urlopen json_dumps).
Local Abbreviation extract_source_data := (extract_source_data json_loads).
Local Abbreviation derived_cache_hit := (derived_cache_hit json_loads).
Local Abbreviation get_data_for_date :=
  (get_data_for_date urlopen csv_reader json_dumps json_loads).
Local Abbreviation country_loop :=
  (country_loop urlopen csv_reader json_dumps json_loads).
Local Abbreviation cache_loop :=
  (cache_loop urlopen csv_reader json_dumps json_loads).
Local Abbreviation coherent := (coherent csv_reader).
Local Abbreviation coherent_at := (coherent_at csv_reader).

Lemma coherent_at_same w w' d :
  files w' !! raw_name d = files w !! raw_name d ->
  files w' !! derived_name d = files w !! derived_name d ->
  coherent_at w d -> coherent_at w' d.
Proof. unfold coherent_at. by intros -> ->. Qed.

Lemma coherent_at_fresh w d text :
  files w !! raw_name d = Some (Report text) ->
  files w !! derived_name d = None -> coherent_at w d.
Proof. unfold coherent_at. intros -> ->. by split_and!. Qed.

Lemma coherent_at_both w d text header rows data :
  files w !! raw_name d = Some (Report text) ->
  files w !! derived_name d = Some (Aggregate data) ->
  csv_reader text = Ok (header :: rows)
  \/ csv_reader (translate_newlines text) = Ok (header :: rows) ->
  aggregate ∅ rows = Ok data -> coherent_at w d.
Proof.
  unfold coherent_at. intros -> -> Hcsv Hagg. split_and!; try done.
  intros data' [= <-]. by exists text, header, rows.
Qed.

(** A lookup keeps the two files of its own date coherent, unless it is a
    forced lookup that raises. *)
Lemma get_data_for_date_coherent_self d force w r w1 :
  matches_date_pattern d = true ->
  coherent_at w d ->
  get_data_for_date d force w = (r, w1) ->
  force = false \/ (exists data, r = Ok data) ->
  coherent_at w1 d.
Proof.
  intros Hmatch Hco.
  destruct (get_data_for_date_accepted urlopen csv_reader json_dumps
              json_loads d force w Hmatch) as [Hname ->].
  pose proof (raw_name_not_derived d d Hmatch) as Hne.
  assert (Htail : forall lines wa text,
            files wa !! raw_name d = Some (Report text) ->
            join lines = text \/ join lines = translate_newlines text ->
            (force = false -> coherent_at wa d) ->
            match csv_reader (join lines) with
            | Ok parsed =>
                let '(r, _, w2) :=
                  extract_source_data parsed (Some (derived_name d)) force wa in
                (r, w2)
            | Raise e => (Raise e, wa)
            end = (r, w1) ->
            force = false \/ (exists data, r = Ok data) ->
            coherent_at w1 d).
  { intros lines wa text Hraw Htext Hwa.
    assert (Hstay : forall e, (Raise e, wa) = (r, w1) ->
              force = false \/ (exists data, r = Ok data) -> coherent_at w1 d).
    { intros e [= <- <-] [Hf | [? ?]]; [by apply Hwa | done]. }
    destruct (csv_reader (join lines)) as [[|header rows]|e] eqn:Hcsv;
      [apply Hstay | | apply Hstay].
    assert (Hcsv' : csv_reader text = Ok (header :: rows)
                    \/ csv_reader (translate_newlines text) = Ok (header :: rows))
      by (destruct Htext as [<- | <-]; auto).
    assert (Hnew : forall data,
              aggregate ∅ rows = Ok data ->
              coherent_at (write_file (derived_name d) (Aggregate data) wa) d).
    { intros data Hagg. eapply coherent_at_both; [| |exact Hcsv'|exact Hagg].
      - by rewrite files_write_file, decide_False.
      - by rewrite files_write_file, decide_True. }
    unfold extract_source_data, derived_cache_hit. destruct force.
    - destruct (aggregate ∅ rows) as [data|e] eqn:Hagg; [|apply Hstay].
      intros [= <- <-] _. by apply Hnew.
    - destruct (files wa !! derived_name d) as [c'|];
        cbn [fmap option_fmap option_map].
      + intros [= <- <-] _. by apply Hwa.
      + destruct (aggregate ∅ rows) as [data|e] eqn:Hagg; [|apply Hstay].
        intros [= <- <-] _. by apply Hnew. }
  destruct force.
  - rewrite get_source_file_forced, Hname.
    destruct (urlopen (report_url d)) as [lines|e];
      [|by intros [= <- <-] [? | [? ?]]].
    destruct (is_directory (raw_name d)); [by intros [= <- <-] [? | [? ?]]|].
    apply (Htail lines _ (join lines)); [|by left|done].
    by rewrite files_write_file, decide_True.
  - destruct (files w !! raw_name d) as [c|] eqn:Hraw.
    + destruct c as [text|data]; [|by destruct Hco as (Hco & _); destruct (Hco data)].
      rewrite (get_source_file_hit _ _ _ (Report text)) by (by rewrite Hname).
      apply (Htail _ _ text); [done | right; apply join_readlines|].
      intros _. by eapply coherent_at_same.
    + assert (Hnone : files w !! derived_name d = None).
      { destruct Hco as (_ & Hco2 & Hco3).
        destruct (files w !! derived_name d) as [[text|data]|] eqn:E; [| |done].
        - by destruct (Hco2 text).
        - destruct (Hco3 data eq_refl) as (? & ? & ? & ? & _). congruence. }
      rewrite get_source_file_miss, Hname by (by rewrite Hname).
      destruct (urlopen (report_url d)) as [lines|e];
        [|intros [= <- <-] _; by eapply coherent_at_same].
      destruct (is_directory (raw_name d));
        [intros [= <- <-] _; by eapply coherent_at_same|].
      apply (Htail lines _ (join lines)); [|by left|].
      * by rewrite files_write_file, decide_True.
      * intros _. eapply coherent_at_fresh.
        -- by rewrite files_write_file, decide_True.
        -- by rewrite files_write_file, decide_False.
Qed.

(** A lookup leaves the files of the other dates alone. *)
Lemma get_data_for_date_other d d' force w r w1 :
  matches_date_pattern d' = true -> d' <> d ->
  get_data_for_date d force w = (r, w1) ->
  files w1 !! raw_name d' = files w !! raw_name d'
  /\ files w1 !! derived_name d' = files w !! derived_name d'.
Proof.
  intros Hmatch' Hne Hrun.
  destruct (matches_date_pattern d) eqn:Hmatch.
  - apply get_data_for_date_effect in Hrun as (_ & Hframe & _).
    split; apply Hframe.
    + intros Heq. apply Hne, (date_names_inj d d'); auto.
    + by apply raw_name_not_derived.
    + intros Heq. by apply (raw_name_not_derived d d').
    + intros Heq. apply Hne, (date_names_inj d d'); auto.
  - rewrite get_data_for_date_rejected in Hrun by done.
    by injection Hrun as _ <-.
Qed.

Lemma get_data_for_date_coherent d force w r w1 :
  coherent w ->
  get_data_for_date d force w = (r, w1) ->
  force = false \/ (exists data, r = Ok data) ->
  coherent w1.
Proof.
  intros Hco Hrun Hok d' Hmatch'.
  destruct (decide (d' = d)) as [-> | Hne].
  - eapply get_data_for_date_coherent_self; eauto.
  - destruct (get_data_for_date_other d d' force w r w1 Hmatch' Hne Hrun)
      as [Hraw Hder].
    eapply coherent_at_same; [exact Hraw | exact Hder | by apply Hco].
Qed.

Lemma country_loop_coherent country start_date indices result w r w1 :
  coherent w ->
  country_loop country start_date indices result w = (r, w1) -> coherent w1.
Proof.
  revert result w. induction indices as [|i indices IH]; intros result w Hco.
  - by intros [= <- <-].
  - cbn [country_loop]. cbv zeta. unfold bind.
    destruct (get_data_for_date _ _ _) as [[data|e] w0] eqn:Hget;
      (assert (Hco0 : coherent w0)
         by (eapply get_data_for_date_coherent;
             [exact Hco | exact Hget | by left])).
    + destruct (data !! country); [by apply IH | by intros [= <- <-]].
    + by intros [= <- <-].
Qed.

Lemma cache_loop_coherent date n w r w1 :
  coherent w -> cache_loop date false n w = (r, w1) -> coherent w1.
Proof.
  revert date w. induction n as [|n IH]; intros date w Hco.
  - by intros [= <- <-].
  - cbn [cache_loop]. unfold bind at 1, except_HTTPError, bind, ret.
    destruct (get_data_for_date _ _ _) as [[data|e] w0] eqn:Hget;
      (assert (Hco0 : coherent w0)
         by (eapply get_data_for_date_coherent;
             [exact Hco | exact Hget | by left])).
    + by apply IH.
    + destruct e; try (by intros [= <- <-]). by apply IH.
Qed.

(** ** Requests *)

Lemma get_data_for_date_requests d w r w1 :
  matches_date_pattern d = true ->
  get_data_for_date d false w = (r, w1) ->
  requests w1
  = if uncached w d then report_url d :: requests w else requests w.
Proof.
  intros Hmatch.
  destruct (get_data_for_date_accepted urlopen csv_reader json_dumps
              json_loads d false w Hmatch) as [Hname ->].
  unfold uncached.
  assert (Hrest : forall lines wa,
            (match csv_reader (join lines) with
             | Ok parsed =>
                 let '(r, _, w2) :=
                   extract_source_data parsed (Some (derived_name d)) false wa in
                 (r, w2)
             | Raise e => (Raise e, wa)
             end) = (r, w1) -> requests w1 = requests wa).
  { intros lines wa. destruct (csv_reader (join lines)) as [parsed|e];
      [|by intros [= _ <-]].
    destruct (extract_source_data _ _ _ _) as [[r' rest] wb] eqn:Hext.
    apply extract_source_data_effect in Hext as (Hreq & _).
    by intros [= _ <-]. }
  destruct (files w !! raw_name d) as [c|] eqn:Hraw.
  - rewrite (get_source_file_hit _ _ _ c) by (by rewrite Hname).
    intros H. by apply Hrest in H.
  - rewrite get_source_file_miss by (by rewrite Hname).
    destruct (urlopen (report_url d)) as [lines|e]; [|by intros [= _ <-]].
    destruct (is_directory _); [by intros [= _ <-]|].
    intros H. by apply Hrest in H.
Qed.

Lemma country_loop_matches country start_date indices result w series w1 :
  country_loop country start_date indices result w = (Ok series, w1) ->
  Forall (fun i => matches_date_pattern (strftime (add_days start_date i)) = true)
    indices.
Proof.
  revert result w. induction indices as [|i indices IH]; intros result w; [done|].
  cbn [country_loop]. cbv zeta. unfold bind.
  destruct (get_data_for_date _ _ _) as [[data|e] w0] eqn:Hget; [|discriminate].
  destruct (data !! country); [|discriminate].
  intros H. constructor; [|by eapply IH].
  by apply get_data_for_date_Ok in Hget as [? _].
Qed.

(** The loop asks the remote for the reports of the dates without a file
    [<date>.csv], once each and in the order of the loop. *)
Lemma country_loop_requests country start_date indices result w series w1 :
  country_loop country start_date indices result w = (Ok series, w1) ->
  NoDup (map (fun i => strftime (add_days start_date i)) indices) ->
  requests w1
  = (rev (map report_url
            (filter (fun d => uncached w d = true)
               (map (fun i => strftime (add_days start_date i)) indices)))
     ++ requests w)%list.
Proof.
  revert result w. induction indices as [|i indices IH]; intros result w.
  - by intros [= _ <-].
  - intros Hrun Hnodup.
    pose proof (country_loop_matches _ _ _ _ _ _ _ Hrun) as Hall.
    revert Hrun. cbn [country_loop]. cbv zeta. unfold bind.
    destruct (get_data_for_date _ _ _) as [[data|e] w0] eqn:Hget; [|discriminate].
    destruct (data !! country); [|discriminate].
    intros Hrest. cbn [map] in Hnodup.
    apply NoDup_cons in Hnodup as [Hnotin Hnodup].
    apply Forall_cons in Hall as [Hmatch Hall].
    rewrite (IH _ _ Hrest Hnodup).
    rewrite (get_data_for_date_requests _ _ _ _ Hmatch Hget).
    cbn [map]. rewrite filter_cons.
    assert (Hsame :
              filter (fun d => uncached w0 d = true)
                (map (fun i => strftime (add_days start_date i)) indices)
              = filter (fun d => uncached w d = true)
                  (map (fun i => strftime (add_days start_date i)) indices)).
    { clear IH Hrest Hnodup.
      induction Hall as [|j indices Hj Hall IHall]; [done|].
      cbn [map]. rewrite !filter_cons.
      assert (Hne : strftime (add_days start_date j)
                    <> strftime (add_days start_date i)).
      { intros Heq. apply Hnotin. rewrite <- Heq. cbn [map]. left. }
      destruct (get_data_for_date_other _ _ false w _ w0 Hj Hne Hget) as [Hraw _].
      assert (Hun : uncached w0 (strftime (add_days start_date j))
                    = uncached w (strftime (add_days start_date j)))
        by (unfold uncached; by rewrite Hraw).
      rewrite Hun, IHall; [done|].
      intros Hin. apply Hnotin. cbn [map]. by right. }
    rewrite Hsame.
    destruct (uncached w (strftime (add_days start_date i))) eqn:Hun.
    + rewrite decide_True by done. cbn [map rev].
      by rewrite <- app_assoc.
    + by rewrite decide_False by done.
Qed.

End Coherence.

(** * Properties of the rest of the module *)

(** ** Source locations and cache files *)



(** X2: the text of a date is accepted as a source location exactly when the
    date lies in the years 2000 to 2099; for every other date
    [create_source_url] raises the [ValueError] of a malformed date. *)
Theorem create_source_url_years t :
  0 <= t < datetime_max ->
  (create_source_url (strftime t) = Ok (report_url (strftime t))
   <-> datetime_of 2000 1 1 <= t < datetime_of 2100 1 1)
  /\ (create_source_url (strftime t) = Raise (ValueError invalid_date_message)
      <-> ~ (datetime_of 2000 1 1 <= t < datetime_of 2100 1 1)).
Proof.
  intros Ht. rewrite <- (matches_strftime_iff t Ht). unfold create_source_url.
  destruct (matches_date_pattern (strftime t)); cbn; split; split;
    try done; try discriminate.
Qed.

Lemma create_source_url_years_witness :
  create_source_url (strftime origin_date) = Ok (report_url "12-02-2020")
  /\ create_source_url (strftime (datetime_of 2100 1 1))
     = Raise (ValueError invalid_date_message).
Proof.
  split.
  - apply (proj1 (create_source_url_years origin_date
                    ltac:(vm_compute; split; [discriminate | reflexivity]))).
    vm_compute. split; [discriminate | reflexivity].
  - apply (proj2 (create_source_url_years (datetime_of 2100 1 1)
                    ltac:(vm_compute; split; [discriminate | reflexivity]))).
    vm_compute. intros [_ H]. discriminate H.
Defined.

Section Properties.
Context (urlopen : string -> result (list string)).
Context (csv_reader : string -> result (list (list string))).
Context (json_dumps : gmap string (list Z) -> string).
Context (json_loads : string -> result (gmap string (list Z))).
Context (latest_date : datetime).

Local Abbreviation get_source_file_with := get_source_file.
Local Abbreviation get_data_for_date_with := get_data_for_date.
Local Abbreviation get_country_data_with := get_country_data.
Local Abbreviation get_source_file := (get_source_file urlopen json_dumps).
Local Abbreviation extract_source_data := (extract_source_data json_loads).
Local Abbreviation derived_cache_hit := (derived_cache_hit json_loads).
Local Abbreviation get_data_for_date :=
  (get_data_for_date urlopen csv_reader json_dumps json_loads).
Local Abbreviation country_loop :=
  (country_loop urlopen csv_reader json_dumps json_loads).
Local Abbreviation get_country_data :=
  (get_country_data urlopen csv_reader json_dumps json_loads latest_date).
Local Abbreviation cache_loop :=
  (cache_loop urlopen csv_reader json_dumps json_loads).
Local Abbreviation cache_data :=
  (cache_data urlopen csv_reader json_dumps json_loads latest_date).
Local Abbreviation get_new_changes :=
  (get_new_changes urlopen csv_reader json_dumps json_loads latest_date).
Local Abbreviation cached_tally := (cached_tally json_loads).

(** ** Fetch with cache *)

(** X3: [get_source_file] writes one file at most, the one named after its
    URL, whatever kind of file has that name: a call that raises leaves the
    directory as it was; a call that returns has either read the file that
    was there, which it does without [force] only, returning its lines as a
    read in text mode gives them and leaving the world as it was, or has
    asked the remote and left under that name the text of the lines it
    returns; with [force] the remote is always asked, and without [force]
    no existing file changes. *)
Theorem get_source_file_writes url force w r w1 :
  get_source_file url force w = (r, w1) ->
  (forall f, f <> path_name url -> files w1 !! f = files w !! f)
  /\ (forall e, r = Raise e -> files w1 = files w)
  /\ (forall lines, r = Ok lines ->
        exists c, files w1 !! path_name url = Some c
          /\ (lines = readlines (file_text json_dumps c) /\ w1 = w
              /\ force = false
              \/ c = Report (join lines) /\ urlopen url = Ok lines
                 /\ (force = true \/ files w !! path_name url = None)
                 /\ requests w1 = url :: requests w))
  /\ (force = true -> requests w1 = url :: requests w)
  /\ (force = false -> files w ⊆ files w1).
Proof.
  intros H. apply get_source_file_effect in H
    as (_ & H1 & H2 & H3 & H4 & H5 & _).
  done.
Qed.

(** X4: what [get_source_file] has returned can be read again: on any world
    that keeps the files, a later call without [force] makes no request and
    returns the returned text cut at its line feeds, as a read in text mode
    gives it: with each carriage return, alone or before a line feed, read
    as a line feed.  When the text has no carriage return,
    [parse_source_data] reads the lines of the second call as it reads
    those of the first. *)
Theorem get_source_file_reread (urlopen' : string -> result (list string))
  url force w lines w1 w2 :
  get_source_file url force w = (Ok lines, w1) ->
  files w1 ⊆ files w2 ->
  get_source_file_with urlopen' json_dumps url false w2
  = (Ok (readlines (join lines)), w2)
  /\ join (readlines (join lines)) = translate_newlines (join lines)
  /\ (plain_newlines (join lines) ->
      parse_source_data csv_reader (readlines (join lines))
      = parse_source_data csv_reader lines).
Proof.
  intros H Hsub. apply get_source_file_effect in H
    as (_ & _ & _ & Hentry & _).
  destruct (Hentry lines eq_refl) as (c & Hc & Hhow). split_and!.
  - rewrite (get_source_file_hit _ _ _ c) by (by eapply lookup_weaken).
    destruct Hhow as [(-> & _) | (-> & _)]; [|done].
    by rewrite readlines_join_readlines.
  - apply join_readlines.
  - intros Hplain. unfold parse_source_data. by rewrite readlines_plain.
Qed.

(** ** Extraction *)

(** X5: [extract_source_data] never touches the network, and writes one
    file at most, the one named by [cache_file], whatever kind of file has
    that name; a call that raises, or that has no cache file, leaves the
    world as it was.  Without [force], a file of that name is read as JSON,
    whatever has written it (what [json.load] makes of it is the result,
    also when it raises), and no existing file changes; otherwise a call
    that returns leaves in that file the aggregate it returns, in place of
    what was there.  A later [json.load] of the file gives what the call
    has returned. *)
Theorem extract_source_data_writes parsed cache_file force w r rest w1 :
  extract_source_data parsed cache_file force w = (r, rest, w1) ->
  requests w1 = requests w
  /\ (forall e, r = Raise e -> w1 = w)
  /\ (cache_file = None -> w1 = w)
  /\ (forall f data, cache_file = Some f -> r = Ok data ->
        exists c, files w1 !! f = Some c /\ file_json json_loads c = Ok data)
  /\ (forall f g, cache_file = Some f -> g <> f -> files w1 !! g = files w !! g)
  /\ (force = false -> files w ⊆ files w1)
  /\ (forall f c, cache_file = Some f -> force = false -> parsed <> [] ->
        files w !! f = Some c -> r = file_json json_loads c /\ w1 = w)
  /\ (forall f data, cache_file = Some f -> r = Ok data ->
        force = true \/ files w !! f = None ->
        w1 = write_file f (Aggregate data) w).
Proof.
  intros H. pose proof H as Heff. apply extract_source_data_effect in Heff
    as (H1 & _ & H3 & H4 & H5 & H6 & H7).
  split_and!; try done.
  - intros f c -> -> Hparsed Hc. revert H.
    unfold extract_source_data, derived_cache_hit.
    destruct parsed as [|header rows]; [done|]. rewrite Hc.
    cbn [fmap option_fmap option_map]. by intros [= <- _ <-].
  - intros f data -> -> Hmiss. revert H.
    unfold extract_source_data, derived_cache_hit.
    destruct parsed as [|header rows]; [discriminate|].
    assert ((if force then None else file_json json_loads <$> files w !! f)
            = None) as ->.
    { destruct Hmiss as [-> | ->]; [done | by destruct force]. }
    destruct (aggregate ∅ rows) as [agg|]; [|discriminate].
    by intros [= -> _ <-].
Qed.

(** X17: when every data row has integers (or nothing) at offsets 7 to 10,
    the aggregate that [extract_source_data] computes conserves the totals:
    the field-wise sum over its countries is the field-wise sum over the
    rows, so no row is lost and none is counted twice. *)
Theorem extract_source_data_totals header rows cache_file force w :
  Forall row_ok rows ->
  derived_cache_hit cache_file force w = None ->
  exists data w1,
    extract_source_data (header :: rows) cache_file force w = (Ok data, rows, w1)
    /\ grand_total data = rows_total rows.
Proof.
  intros Hrows Hmiss. unfold extract_source_data. rewrite Hmiss.
  destruct (aggregate_total rows Hrows ∅) as (m & Hm & Htotal); [done|].
  rewrite Hm. eexists _, _. split; [done|]. rewrite Htotal.
  change (grand_total ∅) with [0; 0; 0; 0].
  apply tally_add_zero, rows_total_length.
Qed.

(** X20: whatever the rows hold, when [extract_source_data] computes an
    aggregate every data row has a country field (a row of fewer than four
    fields, as the one of a blank line, raises), the countries of the
    aggregate are exactly the countries of the rows (an empty country field
    reads "0"), and a tally has four entries at most. *)
Theorem extract_source_data_countries header rows cache_file force w data rest w1 :
  derived_cache_hit cache_file force w = None ->
  extract_source_data (header :: rows) cache_file force w = (Ok data, rest, w1) ->
  Forall (fun entry => (4 <= length entry)%nat) rows
  /\ (forall c, is_Some (data !! c) <->
                exists entry, entry ∈ rows /\ row_country entry = Some c)
  /\ (forall c tally, data !! c = Some tally -> (length tally <= 4)%nat).
Proof.
  intros Hmiss. unfold extract_source_data. rewrite Hmiss.
  destruct (aggregate ∅ rows) as [m|e] eqn:Hagg; [|discriminate].
  intros [= <- _ _]. apply aggregate_keys in Hagg as (Hall & Hkeys & Hlen).
  split_and!.
  - eapply Forall_impl; [exact Hall|]. intros entry [c Hc].
    unfold row_country in Hc. destruct (entry !! 3%nat) eqn:E; [|discriminate].
    apply lookup_lt_Some in E. lia.
  - intros c. rewrite Hkeys. split; [|by right].
    intros [H | H]; [|done]. rewrite lookup_empty in H. by destruct H.
  - apply Hlen. intros c t. by rewrite lookup_empty.
Qed.

(** ** One date *)

(** X19: with [force], [get_data_for_date] reads neither cache: what it
    returns depends on the remote alone, and when it returns, the report of
    the remote and the aggregate of its rows have replaced the two cache
    files of the date, after one request. *)
Theorem get_data_for_date_force_refreshes date_string w :
  (forall w', (get_data_for_date date_string true w).1
              = (get_data_for_date date_string true w').1)
  /\ (forall data w1,
         get_data_for_date date_string true w = (Ok data, w1) ->
         exists lines header rows,
           urlopen (report_url date_string) = Ok lines
           /\ csv_reader (join lines) = Ok (header :: rows)
           /\ aggregate ∅ rows = Ok data
           /\ raw_files w1 !! raw_name date_string = Some (join lines)
           /\ derived_files w1 !! derived_name date_string = Some data
           /\ requests w1 = report_url date_string :: requests w).
Proof.
  split.
  - intros w'. destruct (matches_date_pattern date_string) eqn:Hmatch;
      [|by rewrite !get_data_for_date_rejected].
    rewrite (proj2 (get_data_for_date_accepted urlopen csv_reader json_dumps
                      json_loads _ true w Hmatch)).
    rewrite (proj2 (get_data_for_date_accepted urlopen csv_reader json_dumps
                      json_loads _ true w' Hmatch)).
    rewrite !get_source_file_forced.
    destruct (urlopen _) as [lines|e]; [|done].
    destruct (is_directory _); [done|].
    destruct (csv_reader _) as [[|header rows]|e]; try done.
    unfold extract_source_data, derived_cache_hit.
    by destruct (aggregate ∅ rows).
  - intros data w1 H. apply get_data_for_date_Ok in H
      as (_ & _ & c & text & header & rows & Hraw & Hcsv & Hhow & Hforce).
    destruct (Hforce eq_refl) as (-> & Hagg & Hder & Hreq).
    destruct Hhow as [(_ & ? & _) | (_ & lines & Hopen & ->)]; [done|].
    exists lines, header, rows. split_and!; try done.
    + by apply raw_files_lookup.
    + by apply derived_files_lookup.
Qed.

(** X18: once a file is there under the name of the report of a date, a
    lookup of that date that has raised raises the same exception again,
    from the caches alone and whatever the remote has become: a report that
    cannot be read stays in the way until a call with [force].  This holds
    when the file was there before the first lookup, and when the first
    lookup has downloaded a text without a carriage return (one with a
    carriage return is read back otherwise than it was downloaded). *)
Theorem get_data_for_date_failure_repeats
  (urlopen' : string -> result (list string)) date_string w e w1 :
  get_data_for_date date_string false w = (Raise e, w1) ->
  is_Some (files w1 !! raw_name date_string) ->
  (files w !! raw_name date_string = None ->
   forall text, files w1 !! raw_name date_string = Some (Report text) ->
                plain_newlines text) ->
  get_data_for_date_with urlopen' csv_reader json_dumps json_loads
    date_string false w1
  = (Raise e, log_lookup date_string w1).
Proof.
  destruct (matches_date_pattern date_string) eqn:Hmatch.
  2:{ rewrite !get_data_for_date_rejected by done. by intros [= <- _] _. }
  destruct (get_data_for_date_accepted urlopen csv_reader json_dumps json_loads
              date_string false w Hmatch) as [Hname ->].
  destruct (get_data_for_date_accepted urlopen' csv_reader json_dumps json_loads
              date_string false w1 Hmatch) as [_ ->].
  pose proof (raw_name_not_derived date_string date_string Hmatch) as Hne.
  assert (Htail : forall lines wa c,
            files wa !! raw_name date_string = Some c ->
            translate_newlines (file_text json_dumps c) = join lines ->
            match csv_reader (join lines) with
            | Ok parsed =>
                let '(r, _, w2) :=
                  extract_source_data parsed (Some (derived_name date_string))
                    false wa in
                (r, w2)
            | Raise e => (Raise e, wa)
            end = (Raise e, w1) ->
            match
              get_source_file_with urlopen' json_dumps (report_url date_string)
                false (log_lookup date_string w1)
            with
            | (Ok source_file, w2) =>
                match csv_reader (join source_file) with
                | Ok parsed =>
                    let '(r, _, w3) :=
                      extract_source_data parsed
                        (Some (derived_name date_string)) false w2 in
                    (r, w3)
                | Raise e => (Raise e, w2)
                end
            | (Raise e, w2) => (Raise e, w2)
            end = (Raise e, log_lookup date_string w1)).
  { intros lines wa c Hc Htext Hrun.
    assert (w1 = wa) as ->.
    { destruct (csv_reader (join lines)) as [parsed|e1]; [|by injection Hrun].
      destruct (extract_source_data _ _ _ wa) as [[r rest] wb] eqn:Hext.
      injection Hrun as -> ->.
      apply extract_source_data_effect in Hext as (_ & _ & Hsame & _).
      by apply (Hsame e). }
    rewrite (get_source_file_hit _ _ _ c) by (by rewrite Hname).
    rewrite join_readlines, Htext.
    destruct (csv_reader (join lines)) as [parsed|e1]; [|by injection Hrun as ->].
    revert Hrun. unfold extract_source_data, derived_cache_hit.
    cbn [files log_lookup].
    destruct parsed as [|header rows]; [by intros [= ->]|].
    destruct (files wa !! derived_name date_string);
      cbn [fmap option_fmap option_map]; [by intros [= ->]|].
    destruct (aggregate ∅ rows); [discriminate|]. by intros [= ->]. }
  destruct (files w !! raw_name date_string) as [c|] eqn:Hraw.
  - rewrite (get_source_file_hit _ _ _ c) by (by rewrite Hname).
    intros Hrun _ _.
    refine (Htail _ _ c _ _ Hrun); [exact Hraw | by rewrite join_readlines].
  - rewrite get_source_file_miss by (by rewrite Hname).
    destruct (urlopen (report_url date_string)) as [lines|e0].
    + destruct (is_directory _).
      * intros [= <- <-] [c Hc]. cbn in Hc. congruence.
      * rewrite Hname. intros Hrun _ Hplain.
        assert (Hfile : files w1 !! raw_name date_string
                        = Some (Report (join lines))).
        { destruct (csv_reader (join lines)) as [parsed|e1].
          - destruct (extract_source_data _ _ _ _) as [[r rest] wb] eqn:Hext.
            injection Hrun as -> ->.
            apply extract_source_data_effect in Hext
              as (_ & _ & _ & _ & _ & Hframe & _).
            rewrite (Hframe (derived_name date_string)) by done.
            by rewrite files_write_file, decide_True.
          - injection Hrun as _ <-. by rewrite files_write_file, decide_True. }
        refine (Htail lines _ (Report (join lines)) _ _ Hrun);
          [|by apply Hplain].
        by rewrite files_write_file, decide_True.
    + intros [= <- <-] [c Hc]. cbn in Hc. congruence.
Qed.

(** ** The caches grow *)

(** X6: without [force] no operation of the pipeline changes or removes a
    cache file that is there: after [get_source_file], [get_data_for_date],
    [get_country_data], [cache_data] and [get_new_changes], whether they
    return or raise, every file of the two caches is still there with the
    content it had. *)
Theorem unforced_calls_keep_cache :
  (forall url w r w1,
      get_source_file url false w = (r, w1) -> cache_le w w1)
  /\ (forall date_string w r w1,
         get_data_for_date date_string false w = (r, w1) -> cache_le w w1)
  /\ (forall country start_date end_date w r w1,
         get_country_data country start_date end_date w = (r, w1) ->
         cache_le w w1)
  /\ (forall no_of_days w r w1,
         cache_data no_of_days false w = (r, w1) -> cache_le w w1)
  /\ (forall country date w r w1,
         get_new_changes country date w = (r, w1) -> cache_le w w1).
Proof.
  split_and!.
  - intros url w r w1 H. apply get_source_file_effect in H
      as (_ & _ & _ & _ & _ & Hsub & _).
    apply cache_le_files. by apply Hsub.
  - intros d w r w1 H. apply get_data_for_date_effect in H as (_ & _ & H & _).
    by apply H.
  - intros country s e w r w1 H. by eapply country_loop_cache_le.
  - intros n w r w1 H. by eapply cache_loop_cache_le.
  - intros country date w r w1. unfold get_new_changes, bind.
    destruct (get_country_data _ _ _ _) as [[series|e] w0] eqn:H;
      apply country_loop_cache_le in H.
    + destruct (dict_values series) as [|y [|t [|? ?]]];
        unfold raise, lift; by intros [= _ <-].
    + by intros [= _ <-].
Qed.

(** ** A country over a range of days *)

(** X7: [get_country_data] catches nothing: when the lookup of a day of the
    range raises, whatever the exception (the [HTTPError] of a missing
    report as well, which [cache_data] passes over), the query raises it at
    that day: the entries of the days before are lost, and no later day is
    looked up. *)
Theorem get_country_data_propagates
  country start_date end_date k series e w w1 w2 :
  let s := clamp_start start_date in
  let e' := clamp_end latest_date end_date in
  0 <= k <= days_between e' s ->
  country_loop country s (seqZ 0 k) [] w = (Ok series, w1) ->
  get_data_for_date (strftime (add_days s k)) false w1 = (Raise e, w2) ->
  get_country_data country start_date end_date w = (Raise e, w2)
  /\ lookups w2
     = (rev (map (fun i => strftime (add_days s i)) (seqZ 0 (k + 1)))
        ++ lookups w)%list.
Proof.
  intros s e' Hk Hbefore Hget. split.
  - unfold get_country_data. fold s e'.
    replace (days_between e' s + 1) with (k + (1 + (days_between e' s - k)))
      by lia.
    rewrite seqZ_app by lia. rewrite country_loop_app, Hbefore.
    rewrite (seqZ_cons (0 + k)) by lia. cbn [country_loop]. cbv zeta.
    unfold bind. by rewrite Z.add_0_l, Hget.
  - apply country_loop_lookups in Hbefore as (n & Hn & Hl & Hok).
    rewrite (Hok _ eq_refl), firstn_all in Hl.
    apply get_data_for_date_lookups in Hget. rewrite Hget, Hl.
    rewrite seqZ_app by lia. rewrite (seqZ_cons (0 + k) 1) by lia.
    rewrite (seqZ_nil _ (Z.pred 1)) by lia.
    rewrite map_app, rev_app_distr. cbn. by rewrite Z.add_0_l.
Qed.

(** X8: a series that [get_country_data] has returned is returned again by
    the same query on any world that keeps the caches, whatever the remote
    has become: the second run makes no request and writes no file.  The
    reports are read back in text mode, and [csv.reader] accepts the text
    that is read back as it has accepted the download. *)
Theorem get_country_data_repeatable
  (urlopen' : string -> result (list string))
  country start_date end_date w series w1 w2 :
  accepts_reread csv_reader ->
  get_country_data country start_date end_date w = (Ok series, w1) ->
  cache_le w1 w2 ->
  exists w3,
    get_country_data_with urlopen' csv_reader json_dumps json_loads latest_date
      country start_date end_date w2 = (Ok series, w3)
    /\ files w3 = files w2
    /\ raw_files w3 = raw_files w2 /\ derived_files w3 = derived_files w2
    /\ requests w3 = requests w2.
Proof.
  intros Hreread H Hle.
  destruct (country_loop_repeat urlopen csv_reader json_dumps json_loads
              urlopen' _ _ _ _ _ _ _ w2 Hreread H Hle)
    as (w3 & Hrun & Hfiles & Hreq).
  exists w3. unfold raw_files, derived_files. by rewrite Hfiles.
Qed.

(** X10: the series that [get_country_data] returns is empty exactly when
    the clamped end lies before the clamped start, as for a single day
    before [origin_date]; the query then looks nothing up, and no error
    tells the caller that the range is empty. *)
Theorem get_country_data_empty_range country start_date end_date w :
  (clamp_end latest_date end_date < clamp_start start_date ->
   get_country_data country start_date end_date w = (Ok [], w))
  /\ (forall w1,
         get_country_data country start_date end_date w = (Ok [], w1) ->
         clamp_end latest_date end_date < clamp_start start_date).
Proof.
  split.
  - intros H. unfold get_country_data. rewrite seqZ_nil; [done|].
    unfold days_between, day_us. Z.div_mod_to_equations. lia.
  - intros w1 H. unfold get_country_data in H.
    apply country_loop_length in H as [_ H].
    destruct (Z.lt_ge_cases (clamp_end latest_date end_date)
                (clamp_start start_date)) as [|Hge]; [done|].
    exfalso. cbn [length] in H. apply (Nat.nle_succ_0 0), H.
    rewrite seqZ_cons; [done|].
    unfold days_between, day_us. Z.div_mod_to_equations. lia.
Qed.

(** X11: the series that [get_country_data] returns lists the days of the
    clamped range in ascending order, one entry a day, each with the tally
    that the cached aggregate of that day has for the country. *)
Theorem get_country_data_series country start_date end_date w series w1 :
  get_country_data country start_date end_date w = (Ok series, w1) ->
  latest_date < datetime_max ->
  map fst series
  = range_dates (clamp_start start_date) (clamp_end latest_date end_date)
  /\ Forall (fun entry => cached_tally w1 country entry.1 entry.2) series
  /\ Z.of_nat (length series)
     = Z.max 0 (days_between (clamp_end latest_date end_date)
                  (clamp_start start_date) + 1).
Proof.
  intros H Hmax. unfold get_country_data in H.
  set (s := clamp_start start_date) in *.
  set (e := clamp_end latest_date end_date) in *.
  assert (Hs : origin_date <= s).
  { unfold s, clamp_start. destruct start_date as [t|]; [|lia].
    destruct (Z.ltb_spec t origin_date); lia. }
  assert (He : e <= latest_date).
  { unfold e, clamp_end. destruct end_date as [t|]; [|lia].
    destruct (Z.ltb_spec latest_date t); lia. }
  rewrite origin_date_midnight in Hs.
  apply country_loop_series in H as (tallies & -> & Hlen & Hall).
  - cbn [app]. split_and!.
    + rewrite fst_zip; [done|]. rewrite length_map. lia.
    + clear Hlen.
      induction Hall as [|i t indices tallies Ht _ IH]; [done|].
      cbn. constructor; [exact Ht | exact IH].
    + rewrite length_zip, length_map, Hlen, Nat.min_id, length_seqZ. lia.
  - apply range_dates_NoDup; [unfold day_us in *; lia|].
    intros Hpos. unfold days_between, add_days, day_us in *.
    Z.div_mod_to_equations. lia.
  - done.
Qed.

(** ** Day-over-day changes *)

(** X12: [get_new_changes] returns only for a date whose day before is not
    before [origin_date] and which is not after [latest_date], and then it
    has looked up the day before and the date, in this order; for every
    other date it raises. *)
Theorem get_new_changes_only_in_range country date w changes w1 :
  get_new_changes country date w = (Ok changes, w1) ->
  origin_date <= add_days date (-1) /\ date <= latest_date
  /\ lookups w1
     = strftime date :: strftime (add_days date (-1)) :: lookups w.
Proof.
  unfold get_new_changes, bind.
  destruct (get_country_data _ _ _ _) as [[series|e] w0] eqn:H;
    [|discriminate].
  destruct (dict_values series) as [|y [|t [|? ?]]] eqn:Hvalues; try discriminate.
  intros Hsub. assert (w0 = w1) as -> by (unfold lift in Hsub; congruence).
  assert (Hlen : length series = 2%nat)
    by (unfold dict_values in Hvalues; by rewrite <- (length_map snd), Hvalues).
  unfold get_country_data in H.
  pose proof H as Hle. apply country_loop_length in Hle as [Hle _].
  rewrite Hlen, length_seqZ in Hle. cbn [length] in Hle.
  set (s := clamp_start (Some (add_days date (-1)))) in *.
  set (e := clamp_end latest_date (Some date)) in *.
  assert (Hs : add_days date (-1) <= s /\ (s = add_days date (-1) \/ s = origin_date)
               /\ origin_date <= s).
  { unfold s, clamp_start. destruct (Z.ltb_spec (add_days date (-1)) origin_date); lia. }
  assert (He : e <= date /\ (e = date \/ e = latest_date) /\ e <= latest_date).
  { unfold e, clamp_end. destruct (Z.ltb_spec latest_date date); lia. }
  assert (Hspan : days_between e s = 1).
  { unfold days_between, add_days, day_us in *. Z.div_mod_to_equations. lia. }
  assert (Hes : e = date /\ s = add_days date (-1)).
  { unfold days_between, add_days, day_us in *. Z.div_mod_to_equations. lia. }
  destruct Hes as [Hed Hsd]. split_and!; [lia | lia |].
  apply country_loop_lookups in H as (n & Hn & Hl & Hok).
  rewrite (Hok _ eq_refl), firstn_all, Hspan in Hl.
  rewrite Hl, Hsd. change (seqZ 0 (1 + 1)) with [0; 1]. cbn [map rev app].
  rewrite !add_days_add_days.
  change (-1 + 0) with (-1). change (-1 + 1) with 0.
  by replace (add_days date 0) with date by (unfold add_days; lia).
Qed.

(** ** Bulk caching *)

(** X9: when [cache_data] returns without [force], each day that it went
    through is either served from the caches from then on, by any later
    lookup without [force], whatever the remote has become and whatever
    else gets cached, or is a day whose lookup raised [HTTPError] during
    the run.  The reports are read back in text mode, and [csv.reader]
    accepts the text that is read back as it has accepted the download. *)
Theorem cache_data_warms no_of_days w w1 :
  accepts_reread csv_reader ->
  cache_data no_of_days false w = (Ok tt, w1) ->
  forall i,
    0 <= i < Z.min no_of_days (days_between latest_date origin_date) ->
    (exists data, forall (urlopen' : string -> result (list string)) w2,
        cache_le w1 w2 ->
        get_data_for_date_with urlopen' csv_reader json_dumps json_loads
          (strftime (add_days latest_date (- i))) false w2
        = (Ok data, log_lookup (strftime (add_days latest_date (- i))) w2))
    \/ (exists code wa wb,
          cache_le w wa /\ cache_le wb w1
          /\ get_data_for_date (strftime (add_days latest_date (- i))) false wa
             = (Raise (HTTPError code), wb)).
Proof.
  intros Hreread H i Hi. eapply cache_loop_warm; [exact Hreread | exact H|].
  destruct (Z.ltb_spec (days_between latest_date origin_date) no_of_days); lia.
Qed.

(** ** Requests and coherence *)

(** X21: a query that returns has asked the remote for exactly the days of
    its range for which the cache directory had no file [<date>.csv], once
    each and in ascending order: a cached day costs no request, and no day
    is downloaded twice. *)
Theorem get_country_data_requests country start_date end_date w series w1 :
  get_country_data country start_date end_date w = (Ok series, w1) ->
  latest_date < datetime_max ->
  requests w1
  = (rev (map report_url
            (filter (fun d => uncached w d = true)
               (range_dates (clamp_start start_date)
                  (clamp_end latest_date end_date))))
     ++ requests w)%list.
Proof.
  intros H Hmax. unfold get_country_data in H.
  apply country_loop_requests in H; [done|].
  set (s := clamp_start start_date) in *.
  set (e := clamp_end latest_date end_date) in *.
  assert (Hs : origin_date <= s).
  { unfold s, clamp_start. destruct start_date as [t|]; [|lia].
    destruct (Z.ltb_spec t origin_date); lia. }
  assert (He : e <= latest_date).
  { unfold e, clamp_end. destruct end_date as [t|]; [|lia].
    destruct (Z.ltb_spec latest_date t); lia. }
  rewrite origin_date_midnight in Hs.
  apply range_dates_NoDup; [unfold day_us in *; lia|].
  intros Hpos. unfold days_between, add_days, day_us in *.
  Z.div_mod_to_equations. lia.
Qed.

(** X22: the two caches stay coherent: when, for every date, the file of
    the report is no aggregate, the file of the aggregate is no report, and
    an aggregate that is there is the aggregate of the rows of the report
    that is there (as read from the text that was downloaded, or from the
    text that a read in text mode gives back), it is so again after [get_data_for_date] (unless it is called with [force]
    and raises), after [get_country_data] and after [cache_data] without
    [force], whether they return or raise. *)
Theorem calls_keep_caches_coherent w :
  coherent csv_reader w ->
  (forall date_string force r w1,
      get_data_for_date date_string force w = (r, w1) ->
      force = false \/ (exists data, r = Ok data) ->
      coherent csv_reader w1)
  /\ (forall country start_date end_date r w1,
         get_country_data country start_date end_date w = (r, w1) ->
         coherent csv_reader w1)
  /\ (forall no_of_days r w1,
         cache_data no_of_days false w = (r, w1) -> coherent csv_reader w1).
Proof.
  intros Hco. split_and!.
  - intros d force r w1 Hrun Hok. by eapply get_data_for_date_coherent.
  - intros country s e r w1 Hrun. by eapply country_loop_coherent.
  - intros n r w1 Hrun. by eapply cache_loop_coherent.
Qed.

End Properties.

(** ** The latest date *)

Section Startup_properties.
Context (urlopen : string -> result (list string)).
Context (json_dumps : gmap string (list Z) -> string).

Local Abbreviation find_latest_date := (find_latest_date urlopen json_dumps).

(** X15: the loop that finds [latest_date] when the module is loaded always
    ends: walking back from today it cannot pass 31 December 1999, whose
    text the pattern of the source location refuses, so within as many
    rounds as there are days since then it has found a date or has raised,
    and what it raises is never the [HTTPError] that it catches. *)
Theorem find_latest_date_terminates fuel date w :
  0 <= date < datetime_max -> (0 < fuel)%nat ->
  days_between date (datetime_of 1999 12 31) < Z.of_nat fuel ->
  (find_latest_date fuel date w).1 <> Ok None
  /\ forall code,
       (find_latest_date fuel date w).1 <> Raise (HTTPError code).
Proof.
  revert date w. induction fuel as [|fuel IH]; intros date w Hd Hpos Hfuel; [lia|].
  rewrite find_latest_date_S.
  destruct (matches_date_pattern (strftime date)) eqn:Hmatch.
  - rewrite probe_accepted by done.
    destruct (get_source_file _ _ _ _ _) as [[lines|e] w1]; [done|].
    destruct e; try done.
    apply matches_strftime_iff in Hmatch; [|done].
    change (datetime_of 2000 1 1) with (730119 * day_us) in Hmatch.
    change (datetime_of 1999 12 31) with (730118 * day_us) in *.
    apply IH.
    + unfold add_days, datetime_max, day_us in *. lia.
    + unfold days_between, day_us in *.
      destruct fuel; [|lia]. Z.div_mod_to_equations. lia.
    + unfold days_between, add_days, day_us in *. Z.div_mod_to_equations. lia.
  - by rewrite probe_rejected.
Qed.

(** X16: the date that the loop finds is today or an earlier day, at the
    same time of day; its text is accepted by the pattern, a file of the
    name of its report is in the cache directory (the report itself, if no
    file of that name was there), and for each later day up to today the
    remote has answered the request of its report with an [HTTPError]; the
    loop writes no derived file and changes no file that was there. *)
Theorem find_latest_date_found fuel today w latest_date w1 :
  find_latest_date fuel today w = (Ok (Some latest_date), w1) ->
  exists k : nat,
    (k < fuel)%nat
    /\ latest_date = add_days today (- Z.of_nat k)
    /\ matches_date_pattern (strftime latest_date) = true
    /\ is_Some (files w1 !! raw_name (strftime latest_date))
    /\ (files w !! raw_name (strftime latest_date) = None ->
        is_Some (raw_files w1 !! raw_name (strftime latest_date)))
    /\ files w ⊆ files w1
    /\ raw_files w ⊆ raw_files w1
    /\ derived_files w1 = derived_files w
    /\ forall j, 0 <= j < Z.of_nat k ->
         exists code,
           urlopen (report_url (strftime (add_days today (- j))))
           = Raise (HTTPError code).
Proof.
  revert today w. induction fuel as [|fuel IH]; intros today w; [discriminate|].
  rewrite find_latest_date_S.
  destruct (matches_date_pattern (strftime today)) eqn:Hmatch;
    [|by rewrite probe_rejected].
  rewrite probe_accepted by done.
  destruct (created_url_names _ Hmatch) as [Hname _].
  change (path_name (gh_branch_url +:+ source_path +:+ (strftime today +:+ ".csv")))
    with (path_name (report_url (strftime today))) in Hname.
  assert (Hzero : add_days today (- Z.of_nat 0) = today)
    by (unfold add_days; lia).
  destruct (files w !! raw_name (strftime today)) as [c|] eqn:E.
  - rewrite (get_source_file_hit _ _ _ c) by (by rewrite Hname).
    intros [= <- <-]. exists 0%nat. rewrite Hzero.
    split_and!; try done; try lia; try (by exists c); try congruence.
  - rewrite get_source_file_miss by (by rewrite Hname). rewrite Hname.
    destruct (urlopen (report_url (strftime today))) as [lines|e] eqn:Hopen.
    + destruct (is_directory _); [discriminate|]. intros [= <- <-].
      exists 0%nat. rewrite Hzero.
      destruct (files_lookup_None _ _ E) as [Eraw Eder].
      split_and!; try done; try lia.
      * by rewrite files_write_file, decide_True.
      * intros _. rewrite raw_files_write_report. cbn.
        by rewrite lookup_insert_eq.
      * by apply insert_subseteq.
      * rewrite raw_files_write_report. by apply insert_subseteq.
      * rewrite derived_files_write_report. by apply delete_id.
    + destruct e as [ | |code| | | ]; try discriminate.
      intros H. apply IH in H
        as (k & Hk & Hlatest & Hm & Hfile & Hraw & Hsub & Hsubr & Hder & Hbefore).
      exists (S k). split_and!; try done; try lia.
      * rewrite Hlatest, add_days_add_days. f_equal. lia.
      * intros j Hj. destruct (decide (j = 0)) as [-> | Hne].
        -- exists code. by replace (add_days today (- 0)) with today
             by (unfold add_days; lia).
        -- destruct (Hbefore (j - 1)) as [code' Hcode]; [lia|].
           exists code'. rewrite add_days_add_days in Hcode.
           by replace (-1 + - (j - 1)) with (- j) in Hcode by lia.
Qed.

End Startup_properties.

(** ** The validators of the command line *)

Section Validator_properties.
Context (urlopen : string -> result (list string)).
Context (csv_reader : string -> result (list (list string))).
Context (json_dumps : gmap string (list Z) -> string).
Context (json_loads : string -> result (gmap string (list Z))).
Context (parse strptime : string -> result datetime).
Context (latest_date : datetime).

(** On the numeric dates [strptime] reads as Python does. *)
Hypothesis strptime_numeric_agrees :
  forall s r, strptime_numeric s = Some r -> strptime s = r.

(** X13: [validate_number_of_days] never gives more days than there are
    between [origin_date] and [latest_date]: "max" gives that number, an
    integer gives itself or that number, whichever is less (a negative one
    passes), and any other text is refused as a bad parameter; so
    [cache_data] has nothing to clamp on a validated number. *)
Theorem validate_number_of_days_bounded value :
  match validate_number_of_days latest_date value with
  | Value n =>
      n <= days_between latest_date origin_date
      /\ (value = "max" /\ n = days_between latest_date origin_date
          \/ exists v, py_int value = Some v
                       /\ n = Z.min v (days_between latest_date origin_date))
      /\ forall force w,
           cache_data urlopen csv_reader json_dumps json_loads latest_date
             n force w
           = cache_loop urlopen csv_reader json_dumps json_loads latest_date
               force (Z.to_nat n) w
  | BadParameter message =>
      value <> "max" /\ py_int value = None
      /\ message = "Invalid value, must be an integer!"
  | Uncaught _ => False
  end.
Proof.
  unfold validate_number_of_days.
  destruct (String.eqb_spec value "max") as [-> | Hne].
  - split_and!; [lia | by left |].
    intros force w. unfold cache_data. by rewrite Z.ltb_irrefl.
  - destruct (py_int value) as [v|]; [|done].
    destruct (Z.ltb_spec (days_between latest_date origin_date) v) as [Hlt | Hge].
    + split_and!; [lia | right; exists v; split; [done | lia] |].
      intros force w. unfold cache_data. by rewrite Z.ltb_irrefl.
    + split_and!; [lia | right; exists v; split; [done | lia] |].
      intros force w. unfold cache_data.
      by rewrite (proj2 (Z.ltb_ge _ _) Hge).
Qed.

(** X14: for a text that the date parser reads as a date (from the year
    1000 on), [validate_date] gives the text of that day when its midnight
    is not after [latest_date], and the text of [latest_date] otherwise: the
    date it gives is never after [latest_date]. *)
Theorem validate_date_not_after_latest value t year month day :
  parse value = Ok t ->
  0 <= t ->
  ord2ymd (ordinal_of t) = (year, month, day) ->
  1000 <= year <= 9999 ->
  value <> "latest" ->
  validate_date parse strptime latest_date value
  = Value (if latest_date <? datetime_of year month day
           then strftime latest_date else strftime t)
  /\ exists t',
       validate_date parse strptime latest_date value = Value (strftime t')
       /\ t' <= latest_date
       /\ (t' = latest_date \/ t' = datetime_of year month day).
Proof.
  intros Hparse Ht Hymd Hyear Hne.
  destruct (strptime_strftime strptime strptime_numeric_agrees t year month day)
    as (Hback & Htext & _); [done..|].
  assert (Hrun : validate_date parse strptime latest_date value
                 = Value (if latest_date <? datetime_of year month day
                          then strftime latest_date else strftime t)).
  { unfold validate_date, normalise_datetime.
    rewrite (proj2 (String.eqb_neq _ _) Hne), Hparse, Hback.
    by destruct (latest_date <? _). }
  split; [exact Hrun|]. rewrite Hrun.
  destruct (Z.ltb_spec latest_date (datetime_of year month day)).
  - exists latest_date. split_and!; [done | lia | by left].
  - exists (datetime_of year month day). split_and!; [by rewrite Htext | lia | by right].
Qed.

End Validator_properties.
(** ** Runs of the properties on the sample remote *)

Lemma get_source_file_writes_witness :
  exists lines w1,
    get_source_file sample_remote sample_json_dumps (report_url "12-03-2020")
      false empty_world = (Ok lines, w1)
    /\ files w1 !! "12-03-2020.csv" = Some (Report (join lines))
    /\ requests w1 = [report_url "12-03-2020"].
Proof.
  eexists _, _. split; [vm_compute; reflexivity|].
  destruct (get_source_file_writes sample_remote sample_json_dumps
              (report_url "12-03-2020") false empty_world _ _
              ltac:(vm_compute; reflexivity))
    as (_ & _ & Hentry & _).
  destruct (Hentry _ eq_refl) as (c & Hc & [(_ & Hsame & _) | (-> & _ & _ & Hreq)]).
  - vm_compute in Hsame. discriminate Hsame.
  - split; [exact Hc | exact Hreq].
Defined.

(** The report of [crlf_remote] is read again without its carriage
    returns. *)
Lemma get_source_file_reread_witness :
  let lines :=
    map csv_line [sample_header; sample_row "North" "X" "1" "2" "3" "4"] in
  let w1 :=
    (get_source_file crlf_remote sample_json_dumps (report_url "12-02-2020")
       true empty_world).2 in
  get_source_file offline_remote sample_json_dumps (report_url "12-02-2020")
    false w1 = (Ok lines, w1).
Proof.
  intros lines w1.
  destruct (get_source_file_reread crlf_remote csv_unquoted sample_json_dumps
              offline_remote (report_url "12-02-2020") true empty_world
              (map crlf_line
                 [sample_header; sample_row "North" "X" "1" "2" "3" "4"])
              w1 w1)
    as [H _].
  - vm_compute. reflexivity.
  - done.
  - rewrite H. vm_compute. reflexivity.
Defined.

(** A cache file that names the report of a day: without [force] the
    report is read as JSON, which raises; with [force] the aggregate takes
    its place. *)
Lemma extract_source_data_writes_witness :
  let rows := [sample_row "North" "X" "1" "2" "3" "4"] in
  let w :=
    (get_source_file sample_remote sample_json_dumps (report_url "12-02-2020")
       false empty_world).2 in
  (extract_source_data sample_json_loads (sample_header :: rows)
     (Some "12-02-2020.csv") false w).1.1
  = Raise (ValueError "Expecting value: line 1 column 1 (char 0)")
  /\ exists data w1,
       extract_source_data sample_json_loads (sample_header :: rows)
         (Some "12-02-2020.csv") true w = (Ok data, rows, w1)
       /\ files w1 !! "12-02-2020.csv" = Some (Aggregate data)
       /\ raw_files w1 !! "12-02-2020.csv" = None.
Proof.
  intros rows w. split.
  - assert (Hrun : extract_source_data sample_json_loads (sample_header :: rows)
                     (Some "12-02-2020.csv") false w
                   = (Raise (ValueError "Expecting value: line 1 column 1 (char 0)"),
                      rows, w)) by (vm_compute; reflexivity).
    destruct (extract_source_data_writes sample_json_loads
                (sample_header :: rows) (Some "12-02-2020.csv") false w _ _ _
                Hrun)
      as (_ & _ & _ & _ & _ & _ & Hread & _).
    destruct (Hread "12-02-2020.csv" _ eq_refl eq_refl ltac:(discriminate)
                ltac:(vm_compute; reflexivity)) as [Hr _].
    rewrite Hrun. cbn [fst]. rewrite Hr. reflexivity.
  - eexists _, _. split; [vm_compute; reflexivity|].
    destruct (extract_source_data_writes sample_json_loads
                (sample_header :: rows) (Some "12-02-2020.csv") true w _ _ _
                ltac:(vm_compute; reflexivity))
      as (_ & _ & _ & _ & _ & _ & _ & Hwrite).
    rewrite (Hwrite _ _ eq_refl eq_refl (or_introl eq_refl)).
    split; vm_compute; reflexivity.
Defined.

Lemma extract_source_data_totals_witness :
  exists data w1,
    extract_source_data sample_json_loads
      [sample_header; sample_row "North" "X" "1" "2" "3" "4";
       sample_row "" "Testland" "9" "1" "2" "3";
       sample_row "South" "X" "5" "0" "0" "1"] None false empty_world
    = (Ok data, [sample_row "North" "X" "1" "2" "3" "4";
                 sample_row "" "Testland" "9" "1" "2" "3";
                 sample_row "South" "X" "5" "0" "0" "1"], w1)
    /\ grand_total data = [15; 3; 5; 8].
Proof.
  apply (extract_source_data_totals sample_json_loads sample_header
           [sample_row "North" "X" "1" "2" "3" "4";
            sample_row "" "Testland" "9" "1" "2" "3";
            sample_row "South" "X" "5" "0" "0" "1"] None false empty_world).
  - repeat constructor; vm_compute; eauto.
  - reflexivity.
Defined.

Lemma extract_source_data_countries_witness :
  let rows := [sample_row "North" "X" "1" "2" "3" "4";
               sample_row "" "" "9" "1" "2" "3"; sample_row "" "X" "7" "" "" ""] in
  let data := {["X" := [8; 2; 3; 4]; "0" := [9; 1; 2; 3]]} in
  (extract_source_data sample_json_loads (sample_header :: rows) None false
     empty_world).1.1
  = Ok data
  /\ (forall c, is_Some (data !! c) <->
                exists entry, entry ∈ rows /\ row_country entry = Some c).
Proof.
  intros rows data.
  assert (H : extract_source_data sample_json_loads (sample_header :: rows)
                None false empty_world
              = (Ok data, rows, empty_world)) by (vm_compute; reflexivity).
  split; [by rewrite H|].
  by destruct (extract_source_data_countries sample_json_loads sample_header
                 rows None false empty_world data rows empty_world eq_refl H)
    as (_ & Hkeys & _).
Defined.

(** The report of the first day of [broken_remote] has a field that is no
    integer: the lookup raises, and raises again when the remote has the
    report of [sample_remote]. *)
Lemma get_data_for_date_failure_repeats_witness :
  let w1 :=
    (get_data_for_date broken_remote csv_unquoted sample_json_dumps
       sample_json_loads "12-02-2020" false empty_world).2 in
  get_data_for_date sample_remote csv_unquoted sample_json_dumps
    sample_json_loads "12-02-2020" false w1
  = (Raise (int_error "n/a"), log_lookup "12-02-2020" w1).
Proof.
  intros w1.
  apply (get_data_for_date_failure_repeats broken_remote csv_unquoted
           sample_json_dumps sample_json_loads sample_remote "12-02-2020"
           empty_world).
  - vm_compute. reflexivity.
  - vm_compute. eauto.
  - intros _ text H. vm_compute in H. injection H as <-.
    vm_compute. reflexivity.
Defined.

(** Before the report of the last day is published, the query over the
    three days raises the [HTTPError] of the third. *)
Lemma get_country_data_propagates_witness :
  (get_country_data early_remote csv_unquoted sample_json_dumps
     sample_json_loads sample_latest "X" None None empty_world).1
  = Raise (HTTPError 404).
Proof.
  refine (f_equal fst
            (proj1 (get_country_data_propagates early_remote csv_unquoted
                      sample_json_dumps sample_json_loads
                      sample_latest "X" None None 2 _ (HTTPError 404)
                      empty_world _ _ _ _ _))).
  - vm_compute. split; discriminate.
  - vm_compute. reflexivity.
  - vm_compute. reflexivity.
Defined.

Lemma get_country_data_repeatable_witness :
  let w1 :=
    (get_country_data sample_remote csv_unquoted sample_json_dumps
       sample_json_loads sample_latest "X" None None empty_world).2 in
  exists w3,
    get_country_data offline_remote csv_unquoted sample_json_dumps
      sample_json_loads sample_latest "X" None None w1
    = (Ok [("12-02-2020", [6; 2; 3; 5]); ("12-03-2020", [10; 1; 2; 3]);
           ("12-04-2020", [15; 1; 3; 5])], w3)
    /\ files w3 = files w1 /\ requests w3 = requests w1.
Proof.
  intros w1.
  destruct (get_country_data_repeatable sample_remote csv_unquoted
              sample_json_dumps sample_json_loads sample_latest
              offline_remote "X" None None empty_world
              [("12-02-2020", [6; 2; 3; 5]); ("12-03-2020", [10; 1; 2; 3]);
               ("12-04-2020", [15; 1; 3; 5])] w1 w1)
    as (w3 & Hrun & Hfiles & _ & _ & Hreq).
  - exact csv_unquoted_accepts_reread.
  - vm_compute. reflexivity.
  - apply cache_le_refl.
  - exists w3. split; [exact Hrun|]. split; [exact Hfiles | exact Hreq].
Defined.

Lemma get_country_data_empty_range_witness :
  get_country_data offline_remote csv_unquoted sample_json_dumps
    sample_json_loads sample_latest "X"
    (Some (datetime_of 2020 11 30)) (Some (datetime_of 2020 11 30)) empty_world
  = (Ok [], empty_world).
Proof.
  apply (proj1 (get_country_data_empty_range offline_remote csv_unquoted
                  sample_json_dumps sample_json_loads
                  sample_latest "X" _ _ empty_world)).
  vm_compute. reflexivity.
Defined.

Lemma get_country_data_series_witness :
  let run :=
    get_country_data sample_remote csv_unquoted sample_json_dumps
      sample_json_loads sample_latest "X"
      (Some (datetime_of 2020 12 3)) None empty_world in
  let series := [("12-03-2020", [10; 1; 2; 3]); ("12-04-2020", [15; 1; 3; 5])] in
  run.1 = Ok series
  /\ map fst series = range_dates (datetime_of 2020 12 3) sample_latest
  /\ Forall (fun entry =>
               cached_tally sample_json_loads run.2 "X" entry.1 entry.2)
       series.
Proof.
  intros run series.
  assert (Hrun : run = (Ok series, run.2)) by (vm_compute; reflexivity).
  destruct (get_country_data_series sample_remote csv_unquoted
              sample_json_dumps sample_json_loads sample_latest
              "X" (Some (datetime_of 2020 12 3)) None empty_world series run.2
              Hrun)
    as (Hkeys & Hall & _).
  - vm_compute. reflexivity.
  - split; [by rewrite Hrun|]. split; [exact Hkeys | exact Hall].
Defined.

Lemma get_new_changes_only_in_range_witness :
  let run :=
    get_new_changes sample_remote csv_unquoted sample_json_dumps
      sample_json_loads sample_latest "X" (datetime_of 2020 12 4) empty_world in
  run.1 = Ok [5; 0; 1; 2] /\ lookups run.2 = ["12-04-2020"; "12-03-2020"].
Proof.
  intros run. split; [vm_compute; reflexivity|].
  destruct (get_new_changes_only_in_range sample_remote csv_unquoted
              sample_json_dumps sample_json_loads
              sample_latest "X" (datetime_of 2020 12 4) empty_world
              [5; 0; 1; 2] run.2) as (_ & _ & Hl).
  - vm_compute. reflexivity.
  - rewrite Hl. vm_compute. reflexivity.
Defined.

Lemma cache_data_warms_witness :
  let w1 :=
    (cache_data early_remote csv_unquoted sample_json_dumps sample_json_loads
       sample_latest 5 false empty_world).2 in
  (exists data, forall (urlopen' : string -> result (list string)) w2,
      cache_le w1 w2 ->
      get_data_for_date urlopen' csv_unquoted sample_json_dumps
        sample_json_loads "12-03-2020" false w2
      = (Ok data, log_lookup "12-03-2020" w2))
  \/ (exists code wa wb,
        cache_le empty_world wa /\ cache_le wb w1
        /\ get_data_for_date early_remote csv_unquoted sample_json_dumps
             sample_json_loads "12-03-2020" false wa
           = (Raise (HTTPError code), wb)).
Proof.
  intros w1.
  apply (cache_data_warms early_remote csv_unquoted sample_json_dumps
           sample_json_loads sample_latest 5
           empty_world w1 csv_unquoted_accepts_reread
           ltac:(vm_compute; reflexivity) 1).
  vm_compute. split; [discriminate | reflexivity].
Defined.

Lemma validate_date_not_after_latest_witness :
  validate_date parse_numeric_only strptime_numeric_only sample_latest
    "25-12-2020" = Value "12-04-2020"
  /\ validate_date parse_numeric_only strptime_numeric_only sample_latest
       "03-12-2020" = Value "12-03-2020".
Proof.
  assert (Hnum : forall s r,
             strptime_numeric s = Some r -> strptime_numeric_only s = r).
  { intros s r H. unfold strptime_numeric_only. by rewrite H. }
  split.
  - refine (proj1 (validate_date_not_after_latest parse_numeric_only
                     strptime_numeric_only sample_latest Hnum "25-12-2020"
                     (datetime_of 2020 12 25) 2020 12 25 _ _ _ _ _)).
    + vm_compute. reflexivity.
    + vm_compute. discriminate.
    + vm_compute. reflexivity.
    + lia.
    + discriminate.
  - refine (proj1 (validate_date_not_after_latest parse_numeric_only
                     strptime_numeric_only sample_latest Hnum "03-12-2020"
                     (datetime_of 2020 12 3) 2020 12 3 _ _ _ _ _)).
    + vm_compute. reflexivity.
    + vm_compute. discriminate.
    + vm_compute. reflexivity.
    + lia.
    + discriminate.
Defined.

(** From 2 January 2000 on a remote without a report for those days, the
    loop walks back to 31 December 1999 and raises there. *)
Lemma find_latest_date_terminates_witness :
  let run := find_latest_date sample_remote sample_json_dumps 3
               (datetime_of 2000 1 2) empty_world in
  run.1 <> Ok None
  /\ run.1 = Raise (ValueError invalid_date_message)
  /\ requests run.2 = [report_url "01-01-2000"; report_url "01-02-2000"].
Proof.
  intros run. split.
  - apply (find_latest_date_terminates sample_remote sample_json_dumps 3
             (datetime_of 2000 1 2) empty_world).
    + vm_compute. split; [discriminate | reflexivity].
    + lia.
    + vm_compute. reflexivity.
  - vm_compute. split; reflexivity.
Defined.

(** Two days after the last report of [sample_remote], at two in the
    afternoon: the loop finds the day of the last report at its third
    probe. *)
Lemma find_latest_date_found_witness :
  let run := find_latest_date sample_remote sample_json_dumps 3
               (add_days sample_latest 2) empty_world in
  run.1 = Ok (Some sample_latest)
  /\ is_Some (raw_files run.2 !! "12-04-2020.csv")
  /\ requests run.2
     = [report_url "12-04-2020"; report_url "12-05-2020";
        report_url "12-06-2020"].
Proof.
  intros run.
  assert (Hrun : run = (Ok (Some sample_latest), run.2))
    by (vm_compute; reflexivity).
  destruct (find_latest_date_found sample_remote sample_json_dumps 3
              (add_days sample_latest 2) empty_world sample_latest run.2 Hrun)
    as (k & _ & _ & _ & _ & Hraw & _).
  split; [by rewrite Hrun|]. split; [by apply Hraw|]. vm_compute. reflexivity.
Defined.

(** After a first query the reports of two days are cached: a query over
    three days asks for the third alone. *)
Lemma get_country_data_requests_witness :
  let w :=
    (get_country_data sample_remote csv_unquoted sample_json_dumps
       sample_json_loads sample_latest "X" None
       (Some (datetime_of 2020 12 3)) empty_world).2 in
  let run :=
    get_country_data sample_remote csv_unquoted sample_json_dumps
      sample_json_loads sample_latest "X" None None w in
  requests w = [report_url "12-03-2020"; report_url "12-02-2020"]
  /\ requests run.2 = report_url "12-04-2020" :: requests w.
Proof.
  intros w run. split; [vm_compute; reflexivity|].
  rewrite (get_country_data_requests sample_remote csv_unquoted
             sample_json_dumps sample_json_loads sample_latest
             "X" None None w
             [("12-02-2020", [6; 2; 3; 5]); ("12-03-2020", [10; 1; 2; 3]);
              ("12-04-2020", [15; 1; 3; 5])] run.2).
  - vm_compute. reflexivity.
  - vm_compute. reflexivity.
  - vm_compute. reflexivity.
Defined.

Lemma calls_keep_caches_coherent_witness :
  coherent csv_unquoted
    (cache_data sample_remote csv_unquoted sample_json_dumps sample_json_loads
       sample_latest 5 false empty_world).2.
Proof.
  destruct (calls_keep_caches_coherent sample_remote csv_unquoted
              sample_json_dumps sample_json_loads sample_latest
              empty_world) as (_ & _ & Hcache).
  - intros d _. unfold coherent_at. cbn [files empty_world].
    rewrite !lookup_empty. by split_and!.
  - eapply Hcache. apply surjective_pairing.
Defined.

(** A forced lookup that raises after its download is what breaks the
    coherence: the report of [broken_remote] replaces the cached one, the
    aggregate of the former report stays, and a later lookup without
    [force] returns it. *)
Example forced_failure_leaves_stale_aggregate :
  let w1 :=
    (get_data_for_date sample_remote csv_unquoted sample_json_dumps
       sample_json_loads "12-02-2020" false empty_world).2 in
  let w2 :=
    (get_data_for_date broken_remote csv_unquoted sample_json_dumps
       sample_json_loads "12-02-2020" true w1).2 in
  (get_data_for_date broken_remote csv_unquoted sample_json_dumps
     sample_json_loads "12-02-2020" true w1).1
  = Raise (int_error "n/a")
  /\ raw_files w2 !! "12-02-2020.csv"
     = Some (join (map csv_line
                     [sample_header; sample_row "" "X" "n/a" "1" "2" "3"]))
  /\ (get_data_for_date offline_remote csv_unquoted sample_json_dumps
        sample_json_loads "12-02-2020" false w2).1
     = Ok {["X" := [6; 2; 3; 5]; "Testland" := [9; 1; 2; 3]]}.
Proof. vm_compute. repeat split; reflexivity. Qed.
